(** * mnist_classification/main.py: a shallow embedding and its properties

  The script trains a small multilayer perceptron on a strided subset of
  MNIST, five trials in a row, and reports to an experiment logger.  The
  embedding keeps the program's shape: Python ints are [Z], lists are
  lists, dicts with string keys are [gmap string _], raised exceptions are
  the [Raise] branch of [result], and everything the script mutates (the
  logger, the two random generators, the gradient mode, the module's
  parameters and buffers) is threaded explicitly. *)

From Stdlib Require Import ZArith QArith Lia List Bool.
From Stdlib Require Import PrimFloat FloatOps.
From stdpp Require Import base gmap strings pretty list fin_maps.

Local Open Scope Z_scope.

(** ** Python values that the script relies on *)

Module Py.

Inductive exn : Type :=
| ValueError
| ZeroDivisionError
| UnboundLocalError
| IndexError
| RuntimeError.

Inductive result (A : Type) : Type :=
| Ok (a : A)
| Raise (e : exn).
Arguments Ok {A} a.
Arguments Raise {A} e.

Definition is_ok {A} (r : result A) : bool :=
  match r with Ok _ => true | Raise _ => false end.

Definition rbind {A B} (r : result A) (k : A -> result B) : result B :=
  match r with Ok a => k a | Raise e => Raise e end.

(** [[f(x) for x in xs]] where [f] may raise: stops at the first failure. *)
Fixpoint rmap {A B} (f : A -> result B) (xs : list A) : result (list B) :=
  match xs with
  | [] => Ok []
  | x :: xs' =>
      rbind (f x) (fun y => rbind (rmap f xs') (fun ys => Ok (y :: ys)))
  end.

(** Iteration of [range(start, stop, step)] for a positive step: the
    values [start, start+step, ...] that stay below [stop]. *)
Fixpoint range_up (fuel : nat) (cur stop step : Z) : list Z :=
  match fuel with
  | O => []
  | S fuel' =>
      if cur <? stop then cur :: range_up fuel' (cur + step) stop step
      else []
  end.

(** The same for a negative step: values that stay above [stop]. *)
Fixpoint range_down (fuel : nat) (cur stop step : Z) : list Z :=
  match fuel with
  | O => []
  | S fuel' =>
      if stop <? cur then cur :: range_down fuel' (cur + step) stop step
      else []
  end.

(** [range(start, stop, step)]; a zero step raises ValueError.  Every
    element moves by at least one, so [|stop - start|] rounds are enough. *)
Definition range (start stop step : Z) : result (list Z) :=
  if step =? 0 then Raise ValueError
  else if 0 <? step
       then Ok (range_up (Z.to_nat (stop - start)) start stop step)
       else Ok (range_down (Z.to_nat (start - stop)) start stop step).

(** [seq[i]] for a list: negative indices count from the end, anything out
    of range raises IndexError. *)
Definition getitem {A} (l : list A) (i : Z) : result A :=
  let n := Z.of_nat (length l) in
  let j := if i <? 0 then i + n else i in
  if (0 <=? j) && (j <? n)
  then match l !! Z.to_nat j with Some x => Ok x | None => Raise IndexError end
  else Raise IndexError.

(** The integer ceiling of [a / b], the reference for [math.ceil]. *)
Definition ceil_div (a b : Z) : Z := - ((- a) / b).

End Py.
Import Py.

(** ** Python floats

    A finite non-negative binary64 number is an integer multiple of
    [2^-1074]; it is represented by that integer.  Every operation returns
    the representable number nearest to the exact result, ties going to the
    even significand.  All Python floats of the script are non-negative and
    far below the overflow threshold, so signs and infinities are left out. *)

Module Float64.

Definition float : Type := Z.

(** Exponent of the unit in the last place of a value with integer part
    [x]: 53 significant bits are kept, and never less than one unit. *)
Definition ulp_exp (x : Z) : Z := Z.max (Z.log2 x - 52) 0.

(** The float nearest to the exact quotient [x / d]. *)
Definition round_ratio (x d : Z) : float :=
  let g := d * 2 ^ ulp_exp (x / d) in
  let q := x / g in
  let r := x mod g in
  let up := (g <? 2 * r) || ((2 * r =? g) && Z.odd q) in
  (if up then q + 1 else q) * 2 ^ ulp_exp (x / d).

Definition one : float := 2 ^ 1074.

Definition add (a b : float) : float := round_ratio (a + b) 1.
Definition sub (a b : float) : float := round_ratio (a - b) 1.
Definition mul (a b : float) : float := round_ratio (a * b) one.

(** [a / b] on two Python ints: the correctly rounded quotient, or
    ZeroDivisionError. *)
Definition int_truediv (a b : Z) : result float :=
  if b =? 0 then Raise ZeroDivisionError
  else Ok (round_ratio (a * one) b).

(** [math.ceil(x)]. *)
Definition ceil (x : float) : Z := - ((- x) / one).

(** The float written as a (significand, binary exponent) pair. *)
Definition of_bits (m e : Z) : float := m * 2 ^ (e + 1074).

Definition to_Q (x : float) : Q := Qmake x (Z.to_pos one).

(** The representation of a hardware float, used to compare the operations
    above with the processor's on sample inputs. *)
Definition of_prim (f : PrimFloat.float) : float :=
  match Prim2SF f with
  | SpecFloat.S754_finite false m e => of_bits (Zpos m) e
  | _ => 0
  end.

(** The literals of the script: [0.01], [0.80] and [1e-3] are not binary
    fractions, the parser takes the nearest binary64 number. *)
Definition lit_0_01 : float := of_bits 5764607523034235 (-59).
Definition lit_0_80 : float := of_bits 7205759403792794 (-53).
Definition lit_0_8 : float := lit_0_80.
Definition lit_1e_3 : float := of_bits 4611686018427388 (-62).

End Float64.

(** ** The [random] module

    [random.random()] draws two 32-bit words from the Mersenne Twister,
    keeps their top 27 and 26 bits and returns [(a * 2^26 + b) / 2^53];
    [random.uniform(a, b)] is [a + (b - a) * random()]. *)

Section PyRandom.

Variable PyGen : Type.
Variable genrand_uint32 : PyGen -> Z * PyGen.

Definition next_uint32 (g : PyGen) : Z * PyGen :=
  let (w, g') := genrand_uint32 g in (w mod 2 ^ 32, g').

Definition random53 (a b : Z) : Z :=
  Z.shiftr a 5 * 67108864 + Z.shiftr b 6.

Definition random_random (g : PyGen) : Float64.float * PyGen :=
  let (a, g1) := next_uint32 g in
  let (b, g2) := next_uint32 g1 in
  (Float64.of_bits (random53 a b) (-53), g2).

Definition random_uniform (a b : Float64.float) (g : PyGen)
  : Float64.float * PyGen :=
  let (r, g') := random_random g in
  (Float64.add a (Float64.mul (Float64.sub b a) r), g').

End PyRandom.

(** [0.01 + (0.80 - 0.01) * r] for a draw [r = k / 2^53]: the value of
    [random.uniform(0.01, 0.80)]. *)
Definition uniform_at (k : Z) : Float64.float :=
  Float64.add Float64.lit_0_01
    (Float64.mul (Float64.sub Float64.lit_0_80 Float64.lit_0_01)
                 (Float64.of_bits k (-53))).

(** ** Numbers held in tensors

    Tensor entries are floating-point numbers of the tensor library.  Their
    arithmetic is kept abstract: results are stated in terms of these
    operations, whatever rounding they perform. *)

Class Numeric (num : Type) : Type := {
  fadd : num -> num -> num;
  fsub : num -> num -> num;
  fmul : num -> num -> num;
  fdiv : num -> num -> num;
  fsqrt : num -> num;
  fexp : num -> num;
  flt : num -> num -> bool;
  of_int : Z -> num;
  of_float : Q -> num
}.

(** ** State and exceptions

    No exception is caught anywhere in the script: a raised exception ends
    the run, so a computation either yields a value and a new state or
    raises. *)

Definition prog (S A : Type) : Type := S -> result (A * S).

Definition ret {S A} (a : A) : prog S A := fun s => Ok (a, s).

Definition bind {S A B} (c : prog S A) (k : A -> prog S B) : prog S B :=
  fun s => match c s with
           | Ok (a, s') => k a s'
           | Raise e => Raise e
           end.

Definition lift {S A} (r : result A) : prog S A :=
  fun s => match r with Ok a => Ok (a, s) | Raise e => Raise e end.

Definition get {S} : prog S S := fun s => Ok (s, s).
Definition modify {S} (f : S -> S) : prog S unit := fun s => Ok (tt, f s).

Notation "'let*' x := c 'in' k" := (bind c (fun x => k))
  (at level 10, x name, c at level 100, k at level 200).
Notation "'let*' ' pat := c 'in' k" :=
  (bind c (fun x => match x with pat => k end))
  (at level 10, pat pattern, c at level 100, k at level 200).
Notation "'do' c 'then' k" := (bind c (fun _ => k))
  (at level 10, c at level 100, k at level 200).

(** The [config] namespace of a trial. *)
Module Config.
Record t : Type := {
  epochs : Z;
  batch_size : Z;
  lr : Float64.float;
  dropout : Float64.float
}.
End Config.

(** ** Data: images, tensors, layers, logged values, the state of a run *)

Section Types.

Context {num : Type}.

(** An image tensor is channels x height x width; a sample pairs it with
    its class label. *)
Definition image : Type := list (list (list num)).
Definition sample : Type := (image * Z)%type.

Record DataLoader : Type := {
  dataset : list sample;
  batch_size : Z;
  shuffle : bool
}.

(** A batch of images (four dimensions) or a matrix with one row per
    example. *)
Inductive tensor : Type :=
| Images (xs : list image)
| Matrix (rows : list (list num)).

Inductive layer : Type :=
| Flatten
| Linear (weight : list (list num)) (bias : list num)
| BatchNorm1d (weight bias running_mean running_var : list num)
              (num_batches_tracked : Z)
| ReLU
| Dropout (p : Float64.float).

(** [nn.Sequential]: the layers in order, and the train/eval flag. *)
Record Sequential : Type := {
  layers : list layer;
  training : bool
}.

(** A cell of a [wandb.Table] row. *)
Inductive cell : Type :=
| CImage (pixels : list (list num))
| CInt (z : Z)
| CNum (x : num).

Record Table : Type := {
  columns : list string;
  data : list (list cell)
}.

(** A value logged under a key. *)
Inductive value : Type :=
| VInt (z : Z)
| VFloat (x : Float64.float)
| VTensor (x : num)
| VTable (t : Table).

(** The four operations of the logger that the script calls. *)
Inductive wandb_call : Type :=
| wandb_init (project : string) (config : gmap string value)
| wandb_log (record : gmap string value) (commit : bool)
| wandb_summary_set (key : string) (v : value)
| wandb_finish.

Context {TorchGen PyGen : Type}.

(** What the script mutates outside its own local variables: the calls
    received by the logger so far, the generators of the tensor library and
    of [random], and the gradient mode.  [forward_modes] is a ghost field:
    it notes, for each forward pass of the model, whether gradient
    computation was enabled when it ran. *)
Record world : Type := {
  wandb_calls : list wandb_call;
  torch_gen : TorchGen;
  py_gen : PyGen;
  grad_enabled : bool;
  forward_modes : list bool
}.

End Types.

(** What the script takes from its libraries without the embedding looking
    inside: the dataset, the raw output of the two generators, the initial
    parameter values of a layer of a given shape, the keep-mask of a dropout
    call (indexed by the position of an entry), the cross-entropy loss, and
    Adam.

    [optimizer.zero_grad(); loss.backward(); optimizer.step()] overwrites
    the entries of the parameter tensors in place.  Which values it writes
    is left open: [adam_step] yields, for the layer at a position, the
    tensor of that layer (0 for the weight, 1 for the bias) and the index
    of an entry, the new value. *)
Class Runtime (num TorchGen PyGen Optimizer : Type) : Type := {
  MNIST : bool -> list (@sample num);
  torch_random : TorchGen -> Z * TorchGen;
  genrand_uint32 : PyGen -> Z * PyGen;
  init_values : TorchGen -> nat -> nat -> (nat -> nat -> num) * TorchGen;
  bernoulli_mask : TorchGen -> Float64.float -> (list nat -> bool) * TorchGen;
  cross_entropy : @tensor num -> list Z -> num;
  adam_init : list (@layer num) -> Float64.float -> Optimizer;
  adam_step :
    Optimizer -> list (@layer num) -> list (@image num) -> list Z ->
    Optimizer * (nat -> nat -> list nat -> num)
}.

Section Program.

Context {num TorchGen PyGen Optimizer : Type}.
Context `{Numeric num} `{Runtime num TorchGen PyGen Optimizer}.
Abbreviation world := (@world num TorchGen PyGen).

(** ** State operations *)

Definition emit (c : wandb_call) : prog world unit :=
  modify (fun w => {| wandb_calls := wandb_calls w ++ [c];
                      torch_gen := torch_gen w;
                      py_gen := py_gen w;
                      grad_enabled := grad_enabled w;
                      forward_modes := forward_modes w |}).

Definition set_grad_enabled (b : bool) : prog world unit :=
  modify (fun w => {| wandb_calls := wandb_calls w;
                      torch_gen := torch_gen w;
                      py_gen := py_gen w;
                      grad_enabled := b;
                      forward_modes := forward_modes w |}).

Definition note_forward : prog world unit :=
  modify (fun w => {| wandb_calls := wandb_calls w;
                      torch_gen := torch_gen w;
                      py_gen := py_gen w;
                      grad_enabled := grad_enabled w;
                      forward_modes := forward_modes w ++ [grad_enabled w] |}).

(** Run a draw of the tensor library's generator, or of [random]'s. *)
Definition with_torch_gen {A} (f : TorchGen -> A * TorchGen) : prog world A :=
  fun w => let (a, g) := f (torch_gen w) in
           Ok (a, {| wandb_calls := wandb_calls w;
                     torch_gen := g;
                     py_gen := py_gen w;
                     grad_enabled := grad_enabled w;
                     forward_modes := forward_modes w |}).

Definition with_py_gen {A} (f : PyGen -> A * PyGen) : prog world A :=
  fun w => let (a, g) := f (py_gen w) in
           Ok (a, {| wandb_calls := wandb_calls w;
                     torch_gen := torch_gen w;
                     py_gen := g;
                     grad_enabled := grad_enabled w;
                     forward_modes := forward_modes w |}).

(** [with torch.inference_mode(): body]: gradient computation is switched
    off for the body and the previous mode is restored afterwards. *)
Definition inference_mode {A} (body : prog world A) : prog world A :=
  let* w := get in
  do set_grad_enabled false then
  let* a := body in
  do set_grad_enabled (grad_enabled w) then
  ret a.

(** ** The data loader *)

(** [torch.utils.data.Subset(dataset, indices)], with its items fetched. *)
Definition Subset (full : list (@sample num)) (indices : list Z)
  : result (list sample) :=
  rmap (getitem full) indices.

(** [torch.utils.data.DataLoader(...)]: a non-positive batch size is
    refused. *)
Definition mk_DataLoader (ds : list (@sample num)) (bs : Z) (sh : bool)
  : result DataLoader :=
  if bs <=? 0 then Raise ValueError
  else Ok {| dataset := ds; batch_size := bs; shuffle := sh |}.

Definition default_step : Z := 5.

(** [get_dataloader(is_train, batch_size, step=5)]; [None] stands for an
    omitted [step]. *)
Definition get_dataloader (is_train : bool) (bs : Z) (step : option Z)
  : result DataLoader :=
  let step := default default_step step in
  let full_dataset := MNIST is_train in
  rbind (range 0 (Z.of_nat (length full_dataset)) step) (fun indices =>
  rbind (Subset full_dataset indices) (fun sub_dataset =>
  mk_DataLoader sub_dataset bs is_train)).

(** The batch sampler of a loader without [drop_last]: items are collected
    into the current batch, a batch is handed out as soon as it holds
    [bs] items, and what is left at the end forms a last, shorter batch. *)
Fixpoint batch_sampler {A} (bs : nat) (cur : list A) (items : list A)
  : list (list A) :=
  match items with
  | [] => match cur with [] => [] | _ => [rev cur] end
  | x :: items' =>
      if (length (x :: cur) =? bs)%nat
      then rev (x :: cur) :: batch_sampler bs [] items'
      else batch_sampler bs (x :: cur) items'
  end.

(** Exchange the entries at two positions of a list. *)
Definition swap {A} (i j : nat) (l : list A) : list A :=
  match l !! i, l !! j with
  | Some x, Some y => <[j := x]> (<[i := y]> l)
  | _, _ => l
  end.

(** [torch.randperm(n)]: starting from [0 .. n-1], position [i] is
    exchanged with a position drawn among [i .. n-1], for [i] up to
    [n - 2]. *)
Fixpoint randperm_loop (rounds : nat) (i : nat) (r : list Z) (g : TorchGen)
  : list Z * TorchGen :=
  match rounds with
  | O => (r, g)
  | S rounds' =>
      let (z, g') := torch_random g in
      let k := Z.to_nat (z mod Z.of_nat (length r - i)) in
      randperm_loop rounds' (S i) (swap i (k + i) r) g'
  end.

Definition randperm (n : nat) (g : TorchGen) : list Z * TorchGen :=
  randperm_loop (n - 1) O (map Z.of_nat (seq 0 n)) g.

(** One pass over a loader: the order of the examples (shuffled or not),
    cut into batches. *)
Definition iter_loader (dl : @DataLoader num)
  : prog world (list (list sample)) :=
  let n := length (dataset dl) in
  let* indices :=
    (if shuffle dl then with_torch_gen (randperm n)
     else ret (map Z.of_nat (seq 0 n))) in
  let* items := lift (rmap (getitem (dataset dl)) indices) in
  ret (batch_sampler (Z.to_nat (batch_size dl)) [] items).

(** ** The layers of [torch.nn] that the model is built from *)

Definition zero : num := of_float 0.
Definition fsum (xs : list num) : num := fold_left fadd xs zero.
Definition dot (x w : list num) : num := fsum (zip_with fmul x w).

Definition tabulate {A} (n : nat) (f : nat -> A) : list A := map f (seq 0 n).

(** Apply [f] to every entry, together with the entry's position. *)
Definition map_matrix (f : list nat -> num -> num) (rows : list (list num))
  : list (list num) :=
  imap (fun i r => imap (fun j x => f [i; j] x) r) rows.

Definition map_images (f : list nat -> num -> num) (xs : list (@image num))
  : list (@image num) :=
  imap (fun b img =>
    imap (fun c ch =>
      imap (fun h row => imap (fun w x => f [b; c; h; w] x) row) ch) img) xs.

Definition map_tensor (f : list nat -> num -> num) (t : @tensor num)
  : tensor :=
  match t with
  | Images xs => Images (map_images f xs)
  | Matrix rows => Matrix (map_matrix f rows)
  end.

(** *** Flatten *)

Definition flatten_image (img : @image num) : list num := concat (concat img).

Definition flatten (t : tensor) : tensor :=
  match t with
  | Images xs => Matrix (map flatten_image xs)
  | Matrix rows => Matrix rows
  end.

(** *** Linear: [x W^T + b] along the last dimension *)

Definition linear_row (W : list (list num)) (b : list num) (x : list num)
  : result (list num) :=
  if forallb (fun w => (length w =? length x)%nat) W
     && (length b =? length W)%nat
  then Ok (zip_with (fun w bj => fadd (dot x w) bj) W b)
  else Raise RuntimeError.

Definition linear (W : list (list num)) (b : list num) (t : tensor)
  : result tensor :=
  match t with
  | Matrix rows => rbind (rmap (linear_row W b) rows) (fun r => Ok (Matrix r))
  | Images xs =>
      rbind (rmap (rmap (rmap (linear_row W b))) xs) (fun r => Ok (Images r))
  end.

(** *** BatchNorm1d, with the default [eps] and [momentum] *)

Definition bn_eps : Q := 1 # 100000.
Definition bn_momentum : Q := 1 # 10.

Definition column (j : nat) (rows : list (list num)) : list num :=
  map (fun r => nth j r zero) rows.

Definition mean (xs : list num) : num :=
  fdiv (fsum xs) (of_int (Z.of_nat (length xs))).

Definition sq_dev (m : num) (xs : list num) : num :=
  fsum (map (fun x => fmul (fsub x m) (fsub x m)) xs).

Definition normalize (means vars gamma beta : list num) (row : list num)
  : list num :=
  imap (fun j x =>
    fadd (fmul (fdiv (fsub x (nth j means zero))
                     (fsqrt (fadd (nth j vars zero) (of_float bn_eps))))
               (nth j gamma zero))
         (nth j beta zero)) row.

Definition ema (old new : list num) : list num :=
  zip_with (fun o n => fadd (fmul (of_float (1 - bn_momentum)) o)
                            (fmul (of_float bn_momentum) n)) old new.

Definition bn_shapes_ok (gamma beta rm rv : list num) (rows : list (list num))
  : bool :=
  let C := length rm in
  (length gamma =? C)%nat && (length beta =? C)%nat && (length rv =? C)%nat
  && forallb (fun r => (length r =? C)%nat) rows.

(** In training mode the batch statistics are used and folded into the
    running statistics; a batch of a single example is refused.  In eval
    mode the running statistics are used and nothing is updated. *)
Definition batch_norm (train : bool) (gamma beta rm rv : list num) (nbt : Z)
    (t : tensor) : result (tensor * layer) :=
  match t with
  | Images _ => Raise ValueError
  | Matrix rows =>
      if train then
        if (length rows =? 1)%nat then Raise ValueError
        else if negb (bn_shapes_ok gamma beta rm rv rows)
        then Raise RuntimeError
        else
          let cols := tabulate (length rm) (fun j => column j rows) in
          let means := map mean cols in
          let devs := zip_with sq_dev means cols in
          let n := Z.of_nat (length rows) in
          let var_b := map (fun d => fdiv d (of_int n)) devs in
          let var_u := map (fun d => fdiv d (of_int (n - 1))) devs in
          Ok (Matrix (map (normalize means var_b gamma beta) rows),
              BatchNorm1d gamma beta (ema rm means) (ema rv var_u) (nbt + 1))
      else
        if negb (bn_shapes_ok gamma beta rm rv rows) then Raise RuntimeError
        else Ok (Matrix (map (normalize rm rv gamma beta) rows),
                 BatchNorm1d gamma beta rm rv nbt)
  end.

(** *** ReLU and Dropout *)

Definition relu (x : num) : num := if flt x zero then zero else x.

(** Dropout in training mode zeroes the entries that the mask drops and
    rescales the others by [1 / (1 - p)]; with [p = 1] everything is
    zeroed.  In eval mode it is the identity. *)
Definition dropout (train : bool) (p : Float64.float) (t : tensor)
  : prog world tensor :=
  if train then
    let* keep := with_torch_gen (fun g => bernoulli_mask g p) in
    ret (map_tensor (fun idx x =>
           if (p =? Float64.one) then zero
           else if keep idx
                then fdiv x (of_float (1 - Float64.to_Q p))
                else zero) t)
  else ret t.

(** *** The forward pass *)

Definition forward_layer (train : bool) (l : layer) (t : tensor)
  : prog world (tensor * layer) :=
  match l with
  | Flatten => ret (flatten t, l)
  | Linear W b => let* y := lift (linear W b t) in ret (y, l)
  | BatchNorm1d gamma beta rm rv nbt =>
      lift (batch_norm train gamma beta rm rv nbt t)
  | ReLU => ret (map_tensor (fun _ => relu) t, l)
  | Dropout p => let* y := dropout train p t in ret (y, l)
  end.

Fixpoint forward_layers (train : bool) (ls : list layer) (t : tensor)
  : prog world (tensor * list layer) :=
  match ls with
  | [] => ret (t, [])
  | l :: ls' =>
      let* '(t1, l1) := forward_layer train l t in
      let* '(t2, ls1) := forward_layers train ls' t1 in
      ret (t2, l1 :: ls1)
  end.

(** [model(images)]: the module's buffers may change, so the module is
    returned with the output. *)
Definition call (model : Sequential) (images : list (@image num))
  : prog world (tensor * Sequential) :=
  do note_forward then
  let* '(out, ls) :=
    forward_layers (training model) (layers model) (Images images) in
  ret (out, {| layers := ls; training := training model |}).

(** [model.train()] and [model.eval()]. *)
Definition set_training (b : bool) (model : @Sequential num) : Sequential :=
  {| layers := layers model; training := b |}.

(** *** Constructors *)

Definition mk_Linear (in_features out_features : nat) : prog world layer :=
  let* w := with_torch_gen (fun g => init_values g out_features in_features) in
  let* b := with_torch_gen (fun g => init_values g 1%nat out_features) in
  ret (Linear (tabulate out_features (fun i => tabulate in_features (w i)))
              (tabulate out_features (b O))).

Definition mk_BatchNorm1d (num_features : nat) : layer :=
  BatchNorm1d (replicate num_features (of_float 1))
              (replicate num_features zero)
              (replicate num_features zero)
              (replicate num_features (of_float 1))
              0.

(** [nn.Dropout(p)] refuses a probability outside [[0, 1]]. *)
Definition mk_Dropout (p : Float64.float) : result (@layer num) :=
  if (p <? 0) || (Float64.one <? p) then Raise ValueError
  else Ok (Dropout p).

(** [get_model(dropout)] *)
Definition get_model (dropout : Float64.float) : prog world Sequential :=
  let flat := Flatten in
  let* fc1 := mk_Linear (28 * 28) 256 in
  let bn := mk_BatchNorm1d 256 in
  let act := ReLU in
  let* drop := lift (mk_Dropout dropout) in
  let* fc2 := mk_Linear 256 10 in
  ret {| layers := [flat; fc1; bn; act; drop; fc2]; training := true |}.

(** *** Parameters, buffers and the optimizer's update *)

Definition update_layer (f : nat -> list nat -> num) (l : @layer num)
  : layer :=
  match l with
  | Linear W b =>
      Linear (imap (fun i r => imap (fun j _ => f O [i; j]) r) W)
             (imap (fun j _ => f 1%nat [j]) b)
  | BatchNorm1d gamma beta rm rv nbt =>
      BatchNorm1d (imap (fun j _ => f O [j]) gamma)
                  (imap (fun j _ => f 1%nat [j]) beta) rm rv nbt
  | _ => l
  end.

Definition apply_update (f : nat -> nat -> list nat -> num)
    (ls : list (@layer num)) : list layer :=
  imap (fun k l => update_layer (f k) l) ls.

(** The parameters of a module, as [model.parameters()] lists them. *)
Definition layer_parameters (l : @layer num) : list (list (list num)) :=
  match l with
  | Linear W b => [W; [b]]
  | BatchNorm1d gamma beta _ _ _ => [[gamma]; [beta]]
  | _ => []
  end.

Definition parameters (model : @Sequential num) : list (list (list num)) :=
  concat (map layer_parameters (layers model)).

(** The buffers of a module: the running statistics of its normalization
    layers. *)
Definition layer_buffers (l : @layer num) : list (list num * list num * Z) :=
  match l with
  | BatchNorm1d _ _ rm rv nbt => [(rm, rv, nbt)]
  | _ => []
  end.

Definition buffers (model : @Sequential num)
  : list (list num * list num * Z) :=
  concat (map layer_buffers (layers model)).

(** ** Loops *)

(** [for x in xs: body], with the variables the body assigns threaded as
    [s]. *)
Fixpoint for_each {A S : Type} (xs : list A) (body : A -> S -> prog world S)
    (s : S) : prog world S :=
  match xs with
  | [] => ret s
  | x :: xs' => let* s' := body x s in for_each xs' body s'
  end.

Fixpoint enumerate_from {A} (i : Z) (xs : list A) : list (Z * A) :=
  match xs with
  | [] => []
  | x :: xs' => (i, x) :: enumerate_from (i + 1) xs'
  end.

Definition enumerate {A} (xs : list A) : list (Z * A) := enumerate_from 0 xs.

(** ** Validation *)

(** [torch.max(outputs, 1)] reads [outputs] as a matrix of class scores,
    one row per example; the embedding covers that case only. *)
Definition class_scores (outputs : @tensor num) : result (list (list num)) :=
  match outputs with
  | Matrix rows => Ok rows
  | Images _ => Raise RuntimeError
  end.

(** Index of the first largest entry among [best :: xs]. *)
Fixpoint argmax_from (xs : list num) (i : Z) (best : num) (best_i : Z) : Z :=
  match xs with
  | [] => best_i
  | x :: xs' =>
      if flt best x then argmax_from xs' (i + 1) x i
      else argmax_from xs' (i + 1) best best_i
  end.

Definition argmax (row : list num) : result Z :=
  match row with
  | [] => Raise IndexError
  | x :: xs => Ok (argmax_from xs 1 x 0)
  end.

(** [(predicted == labels).sum().item()] *)
Definition count_equal (predicted labels : list Z) : Z :=
  Z.of_nat (length (List.filter (fun pl => fst pl =? snd pl)
                                (zip predicted labels))).

Definition softmax_row (row : list num) : list num :=
  let es := map fexp row in
  let s := fsum es in
  map (fun e => fdiv e s) es.

Definition score_columns : list string :=
  map (fun i => "score_" +:+ pretty i) (seq 0 10).

Definition table_columns : list string :=
  ["image"; "pred"; "target"] ++ score_columns.

Definition table_row (img : @image num) (pred targ : Z) (prob : list num)
  : result (list cell) :=
  rbind (getitem img 0) (fun channel =>
  Ok ([CImage (map (map (fun x => fmul x (of_int 255))) channel);
       CInt pred; CInt targ] ++ map CNum prob)).

(** [table.add_data] with the cells of one row: the row must fill every
    column. *)
Definition add_data (t : Table) (row : list (@cell num)) : result Table :=
  if (length row =? length (columns t))%nat
  then Ok {| columns := columns t; data := data t ++ [row] |}
  else Raise ValueError.

(** The loop over [zip(images, predicted, labels, probs)]: it stops with
    the shortest of the four. *)
Fixpoint fill_table (t : Table) (images : list (@image num))
    (predicted labels : list Z) (probs : list (list num)) : result Table :=
  match images, predicted, labels, probs with
  | img :: images', pred :: predicted', targ :: labels', prob :: probs' =>
      rbind (table_row img pred targ prob) (fun row =>
      rbind (add_data t row) (fun t' =>
      fill_table t' images' predicted' labels' probs'))
  | _, _, _, _ => Ok t
  end.

(** [log_image_table(images, predicted, labels, probs)] *)
Definition log_image_table (images : list (@image num))
    (predicted labels : list Z) (probs : list (list num))
  : prog world unit :=
  let table := {| columns := table_columns; data := [] |} in
  let* table := lift (fill_table table images predicted labels probs) in
  emit (wandb_log {[ "predictions_table" := VTable table ]} false).

(** The variables that the loop of [validate_model] assigns. *)
Record valid_vars : Type := {
  v_model : @Sequential num;
  val_loss : num;
  correct : Z
}.

Definition validate_batch (loss_func : @tensor num -> list Z -> num)
    (log_images : bool) (batch_idx : Z)
    (item : Z * list (@sample num)) (s : valid_vars)
  : prog world valid_vars :=
  let '(i, batch) := item in
  let images := map fst batch in
  let labels := map snd batch in
  let* '(outputs, model) := call (v_model s) images in
  let val_loss :=
    fadd (val_loss s)
         (fmul (loss_func outputs labels) (of_int (Z.of_nat (length labels)))) in
  let* scores := lift (class_scores outputs) in
  let* predicted := lift (rmap argmax scores) in
  let correct := correct s + count_equal predicted labels in
  do (if (i =? batch_idx) && log_images
      then log_image_table images predicted labels (map softmax_row scores)
      else ret tt) then
  ret {| v_model := model; val_loss := val_loss; correct := correct |}.

(** [validate_model(model, valid_dl, loss_func, log_images, batch_idx=0)];
    the module is returned as the call leaves it. *)
Definition validate_model (model : @Sequential num) (valid_dl : DataLoader)
    (loss_func : @tensor num -> list Z -> num) (log_images : bool)
    (batch_idx : option Z)
  : prog world (num * Float64.float * Sequential) :=
  let batch_idx := default 0 batch_idx in
  let model := set_training false model in
  let* s :=
    inference_mode (
      let* batches := iter_loader valid_dl in
      for_each (enumerate batches)
               (validate_batch loss_func log_images batch_idx)
               {| v_model := model; val_loss := zero; correct := 0 |}) in
  let n := Z.of_nat (length (dataset valid_dl)) in
  if n =? 0 then lift (Raise ZeroDivisionError)
  else
    let* accuracy := lift (Float64.int_truediv (correct s) n) in
    ret (fdiv (val_loss s) (of_int n), accuracy, v_model s).

(** ** Training *)

(** The variables that the training loops of [main] assign.  [metrics] is
    unbound until the first step has run. *)
Record train_vars : Type := {
  model : @Sequential num;
  optimizer : Optimizer;
  example_ct : Z;
  step_ct : Z;
  metrics : option (gmap string (@value num))
}.

Definition train_step (n_steps_per_epoch epoch : Z)
    (item : Z * list (@sample num)) (s : train_vars)
  : prog world train_vars :=
  let '(step, batch) := item in
  let images := map fst batch in
  let labels := map snd batch in
  let* '(outputs, model) := call (model s) images in
  let train_loss := cross_entropy outputs labels in
  (* backward needs gradient computation to be enabled *)
  let* w := get in
  if negb (grad_enabled w) then lift (Raise RuntimeError)
  else
    let '(optimizer, new_values) :=
      adam_step (optimizer s) (layers model) images labels in
    let model := {| layers := apply_update new_values (layers model);
                    training := training model |} in
    let example_ct := example_ct s + Z.of_nat (length images) in
    let metrics : gmap string value :=
      {[ "train/train_loss" := VTensor train_loss;
         "train/epoch" := VInt epoch;
         "train/example_ct" := VInt example_ct;
         "train/step_ct" := VInt (step_ct s) ]} in
    do (if step + 1 <? n_steps_per_epoch
        then emit (wandb_log metrics true)
        else ret tt) then
    ret {| model := model; optimizer := optimizer;
           example_ct := example_ct; step_ct := step_ct s + 1;
           metrics := Some metrics |}.

Definition run_epoch (config : Config.t) (train_dl valid_dl : DataLoader)
    (n_steps_per_epoch : Z) (epoch : Z) (s : train_vars)
  : prog world train_vars :=
  let s := {| model := set_training true (model s); optimizer := optimizer s;
              example_ct := example_ct s; step_ct := step_ct s;
              metrics := metrics s |} in
  let* batches := iter_loader train_dl in
  let* s := for_each (enumerate batches)
                     (train_step n_steps_per_epoch epoch) s in
  let* '(val_loss, accuracy, model) :=
    validate_model (model s) valid_dl cross_entropy
                   (epoch =? Config.epochs config - 1) None in
  let val_metrics : gmap string value :=
    {[ "val/val_loss" := VTensor val_loss;
       "val/val_accuracy" := VFloat accuracy ]} in
  let* metrics :=
    lift (match metrics s with
          | Some m => Ok m
          | None => Raise UnboundLocalError
          end) in
  (* {**metrics, **val_metrics}: the right operand wins on a shared key *)
  do emit (wandb_log (val_metrics ∪ metrics) true) then
  ret {| model := model; optimizer := optimizer s;
         example_ct := example_ct s; step_ct := step_ct s;
         metrics := Some metrics |}.

Definition config_dict (config : Config.t) : gmap string (@value num) :=
  {[ "epochs" := VInt (Config.epochs config);
     "batch_size" := VInt (Config.batch_size config);
     "lr" := VFloat (Config.lr config);
     "dropout" := VFloat (Config.dropout config) ]}.

(** [math.ceil(len(train_dl.dataset) / config.batch_size)] *)
Definition steps_per_epoch (train_dl : @DataLoader num) (bs : Z) : result Z :=
  rbind (Float64.int_truediv (Z.of_nat (length (dataset train_dl))) bs)
        (fun q => Ok (Float64.ceil q)).

(** The loaders of a trial and its number of steps per epoch. *)
Definition trial_loaders (config : Config.t)
  : result (@DataLoader num * @DataLoader num * Z) :=
  rbind (get_dataloader true (Config.batch_size config) None)
        (fun train_dl =>
  rbind (get_dataloader false (2 * Config.batch_size config) None)
        (fun valid_dl =>
  rbind (steps_per_epoch train_dl (Config.batch_size config))
        (fun n_steps_per_epoch =>
  Ok (train_dl, valid_dl, n_steps_per_epoch)))).

(** One trial: the body of the loop of [main], once [config] is built. *)
Definition trial (config : Config.t) : prog world unit :=
  do emit (wandb_init "mnist-classification" (config_dict config)) then
  let* '(train_dl, valid_dl, n_steps_per_epoch) :=
    lift (trial_loaders config) in
  let* model := get_model (Config.dropout config) in
  let optimizer := adam_init (layers model) (Config.lr config) in
  let* epochs := lift (range 0 (Config.epochs config) 1) in
  let* s := for_each epochs
                     (run_epoch config train_dl valid_dl n_steps_per_epoch)
                     {| model := model; optimizer := optimizer;
                        example_ct := 0; step_ct := 0; metrics := None |} in
  do emit (wandb_summary_set "test_accuracy" (VFloat Float64.lit_0_8)) then
  emit wandb_finish.

Definition make_config : prog world Config.t :=
  let* dropout :=
    with_py_gen (random_uniform PyGen genrand_uint32
                                Float64.lit_0_01 Float64.lit_0_80) in
  ret {| Config.epochs := 5;
         Config.batch_size := 128;
         Config.lr := Float64.lit_1e_3;
         Config.dropout := dropout |}.

(** [main()] *)
Definition main : prog world unit :=
  let* trials := lift (range 0 5 1) in
  for_each trials
    (fun _ _ => let* config := make_config in trial config) tt.

(** The state in which the interpreter starts [main]. *)
Definition initial_world (tg : TorchGen) (pg : PyGen) : world :=
  {| wandb_calls := []; torch_gen := tg; py_gen := pg;
     grad_enabled := true; forward_modes := [] |}.

(** ** What the logger makes of the calls

    A [log] call with [commit=False] leaves its record pending; the next
    committing call merges what is pending into its own record and closes
    the step. *)
Fixpoint wandb_history (pending : gmap string (@value num))
    (calls : list (@wandb_call num)) : list (gmap string value) :=
  match calls with
  | [] => []
  | wandb_log r commit :: calls' =>
      if commit then (r ∪ pending) :: wandb_history ∅ calls'
      else wandb_history (r ∪ pending) calls'
  | _ :: calls' => wandb_history pending calls'
  end.


(** ** Reference functions, used to state the properties *)

(** What a layer computes in eval mode, as a function of its input. *)
Definition eval_layer (l : @layer num) (t : tensor) : result tensor :=
  match l with
  | Flatten => Ok (flatten t)
  | Linear W b => linear W b t
  | BatchNorm1d gamma beta rm rv nbt =>
      rbind (batch_norm false gamma beta rm rv nbt t) (fun r => Ok (fst r))
  | ReLU => Ok (map_tensor (fun _ => relu) t)
  | Dropout _ => Ok t
  end.

Fixpoint eval_layers (ls : list (@layer num)) (t : tensor) : result tensor :=
  match ls with
  | [] => Ok t
  | l :: ls' => rbind (eval_layer l t) (eval_layers ls')
  end.

(** The class scores of one example: the module in eval mode on a batch
    that holds this example only. *)
Definition scores_one (ls : list (@layer num)) (img : @image num)
  : result (list num) :=
  rbind (eval_layers ls (Images [img])) (fun out =>
  match out with
  | Matrix [row] => Ok row
  | _ => Raise RuntimeError
  end).

Definition example_scores (ls : list (@layer num)) (img : @image num)
  : list num :=
  match scores_one ls img with Ok row => row | Raise _ => [] end.

(** The arg-max class of one example ([-1] when there is none). *)
Definition predicted_label (ls : list (@layer num)) (img : @image num) : Z :=
  match argmax (example_scores ls img) with Ok k => k | Raise _ => -1 end.

Definition is_correct (ls : list (@layer num)) (s : @sample num) : bool :=
  predicted_label ls (fst s) =? snd s.

(** An example on which validation goes through: the module applies to it
    and yields at least one score; if the predictions table is asked for,
    the image has a first channel and the row fills the table's columns. *)
Definition can_validate (ls : list (@layer num)) (log_images : bool)
    (s : @sample num) : bool :=
  match scores_one ls (fst s) with
  | Ok row =>
      negb (length row =? 0)%nat
      && (negb log_images
          || (negb (length (fst s) =? 0)%nat
              && (3 + length row =? length table_columns)%nat))
  | Raise _ => false
  end.

(** The batches of an unshuffled loader. *)
Definition batches_of (dl : @DataLoader num) : list (list sample) :=
  batch_sampler (Z.to_nat (batch_size dl)) [] (dataset dl).

(** Loss of a batch times the size of the batch, summed over the batches in
    order. *)
Definition batch_scores (ls : list (@layer num)) (batch : list (@sample num))
  : tensor :=
  Matrix (map (fun s => example_scores ls (fst s)) batch).

Definition weighted_loss_sum (ls : list (@layer num))
    (loss_func : @tensor num -> list Z -> num)
    (batches : list (list (@sample num))) : num :=
  fold_left (fun acc batch =>
    fadd acc (fmul (loss_func (batch_scores ls batch) (map snd batch))
                   (of_int (Z.of_nat (length batch)))))
    batches zero.

(** Number of examples whose arg-max class is their label. *)
Definition count_correct (ls : list (@layer num)) (ds : list (@sample num))
  : Z :=
  Z.of_nat (length (List.filter (is_correct ls) ds)).

(** Two batches put one after the other. *)
Definition tcat (t1 t2 : @tensor num) : tensor :=
  match t1, t2 with
  | Images a, Images b => Images (a ++ b)
  | Matrix a, Matrix b => Matrix (a ++ b)
  | _, _ => t1
  end.

Definition same_kind (t1 t2 : @tensor num) : Prop :=
  match t1, t2 with
  | Images _, Images _ => True
  | Matrix _, Matrix _ => True
  | _, _ => False
  end.

(** The state after one more forward pass has been noted. *)
Definition noted (k : nat) (w : world) : world :=
  {| wandb_calls := wandb_calls w;
     torch_gen := torch_gen w;
     py_gen := py_gen w;
     grad_enabled := grad_enabled w;
     forward_modes := forward_modes w ++ replicate k (grad_enabled w) |}.

(** The state after the logger has received further calls. *)
Definition logged (calls : list wandb_call) (w : world) : world :=
  {| wandb_calls := wandb_calls w ++ calls;
     torch_gen := torch_gen w;
     py_gen := py_gen w;
     grad_enabled := grad_enabled w;
     forward_modes := forward_modes w |}.

(** The row of the predictions table for one example: the first channel
    of the image scaled to [0, 255], the predicted class, the label and the
    softmax of the scores. *)
Definition table_row_of (ls : list (@layer num)) (s : @sample num)
  : list (@cell num) :=
  [CImage (map (map (fun x => fmul x (of_int 255))) (hd [] (fst s)));
   CInt (predicted_label ls (fst s)); CInt (snd s)]
  ++ map CNum (softmax_row (example_scores ls (fst s))).

Definition predictions_table (ls : list (@layer num))
    (batch : list (@sample num)) : Table :=
  {| columns := table_columns; data := map (table_row_of ls) batch |}.

(** The calls that log the predictions table: when the table is due, a
    single [log] call without commit that carries the table of the given
    batch; no call otherwise. *)
Definition table_calls (due : bool) (ls : list (@layer num))
    (batch : option (list (@sample num))) (calls : list (@wandb_call num))
  : Prop :=
  if due
  then exists b, batch = Some b
       /\ calls = [wandb_log {[ "predictions_table" :=
                                   VTable (predictions_table ls b) ]} false]
  else calls = [].

(** One step of the loss accumulation of [validate_model]. *)
Definition add_batch_loss (ls : list (@layer num))
    (loss_func : @tensor num -> list Z -> num)
    (acc : num) (batch : list (@sample num)) : num :=
  fadd acc (fmul (loss_func (batch_scores ls batch) (map snd batch))
                 (of_int (Z.of_nat (length batch)))).

(** The state after a validation run that made [k] forward passes and the
    logger calls [tbls]. *)
Definition after_validation (tbls : list wandb_call) (k : nat) (w : world)
  : world :=
  {| wandb_calls := wandb_calls w ++ tbls;
     torch_gen := torch_gen w;
     py_gen := py_gen w;
     grad_enabled := grad_enabled w;
     forward_modes := forward_modes w ++ replicate k false |}.

(** The kind and the sizes of a layer. *)
Inductive layer_sig : Type :=
| SFlatten
| SLinear (in_features out_features : nat)
| SBatchNorm1d (num_features : nat)
| SReLU
| SDropout (p : Float64.float).

Definition has_sig (l : @layer num) (s : layer_sig) : bool :=
  match l, s with
  | Flatten, SFlatten => true
  | Linear W b, SLinear i o =>
      (length W =? o)%nat && forallb (fun r => (length r =? i)%nat) W
      && (length b =? o)%nat
  | BatchNorm1d gamma beta rm rv _, SBatchNorm1d n =>
      (length gamma =? n)%nat && (length beta =? n)%nat
      && (length rm =? n)%nat && (length rv =? n)%nat
  | ReLU, SReLU => true
  | Dropout p, SDropout q => p =? q
  | _, _ => false
  end.

Fixpoint has_architecture (ls : list (@layer num)) (sigs : list layer_sig)
  : bool :=
  match ls, sigs with
  | [], [] => true
  | l :: ls', s :: sigs' => has_sig l s && has_architecture ls' sigs'
  | _, _ => false
  end.

(** The architecture that [get_model] builds. *)
Definition mlp_architecture (dropout : Float64.float) : list layer_sig :=
  [SFlatten; SLinear (28 * 28) 256; SBatchNorm1d 256; SReLU;
   SDropout dropout; SLinear 256 10].

(** An image that flattens to [28 * 28] entries. *)
Definition is_28x28 (img : @image num) : bool :=
  (length (flatten_image img) =? 28 * 28)%nat.

(** The state with another generator state of the tensor library. *)
Definition set_torch_gen (g : TorchGen) (w : world) : world :=
  {| wandb_calls := wandb_calls w;
     torch_gen := g;
     py_gen := py_gen w;
     grad_enabled := grad_enabled w;
     forward_modes := forward_modes w |}.

(** The metrics record of a training step, and the validation metrics of
    an epoch. *)
Definition train_record (loss : num) (epoch example_ct step_ct : Z)
  : gmap string (@value num) :=
  {[ "train/train_loss" := VTensor loss;
     "train/epoch" := VInt epoch;
     "train/example_ct" := VInt example_ct;
     "train/step_ct" := VInt step_ct ]}.

Definition val_record (val_loss : num) (accuracy : Float64.float)
  : gmap string (@value num) :=
  {[ "val/val_loss" := VTensor val_loss;
     "val/val_accuracy" := VFloat accuracy ]}.

Definition is_train_record (epoch step_ct : Z) (r : gmap string (@value num))
  : Prop :=
  exists loss example_ct, r = train_record loss epoch example_ct step_ct.

(** The logger calls of one epoch of [n_steps] steps: a committed record
    for each step but the last; then, in the last epoch, the predictions
    table of the first validation batch, not committed; then one committed
    record that merges the last step's metrics with the validation
    metrics. *)
Definition epoch_calls (n_steps epochs epoch : Z)
    (first_batch : option (list (@sample num)))
    (calls : list (@wandb_call num)) : Prop :=
  exists recs last tbls vl va ls,
    calls = map (fun r => wandb_log r true) recs ++ tbls
            ++ [wandb_log (val_record vl va ∪ last) true]
    /\ Z.of_nat (length recs) = n_steps - 1
    /\ (forall (k : nat) r, recs !! k = Some r ->
          is_train_record epoch (epoch * n_steps + Z.of_nat k) r)
    /\ is_train_record epoch (epoch * n_steps + n_steps - 1) last
    /\ table_calls (epoch =? epochs - 1) ls first_batch tbls.

(** The logger calls of a whole trial. *)
Definition trial_calls (config : Config.t) (n_steps : Z)
    (first_batch : option (list (@sample num)))
    (calls : list (@wandb_call num)) : Prop :=
  exists blocks,
    calls = [wandb_init "mnist-classification" (config_dict config)]
            ++ concat blocks
            ++ [wandb_summary_set "test_accuracy" (VFloat Float64.lit_0_8);
                wandb_finish]
    /\ Z.of_nat (length blocks) = Config.epochs config
    /\ (forall (e : nat) b, blocks !! e = Some b ->
          epoch_calls n_steps (Config.epochs config) (Z.of_nat e)
                      first_batch b).

(** The data a trial can run on: both splits are non-empty and made of
    28x28 images, and the training subset is not so large that the float
    quotient of its size by the batch size could be inexact. *)
Definition data_ok : bool :=
  (0 <? length (MNIST true))%nat && (0 <? length (MNIST false))%nat
  && forallb (fun s => is_28x28 (fst s)) (MNIST true)
  && forallb (fun s => is_28x28 (fst s)) (MNIST false)
  && (Z.of_nat (length (MNIST true)) <? 2 ^ 52).

(** The size of the training subset and the remainder that the last batch
    of an epoch holds. *)
Definition train_size : Z := ceil_div (Z.of_nat (length (MNIST true))) 5.

(** A configuration a trial can run with: at least two examples per batch
    and no batch of a single example (batch normalization in training mode
    refuses it), a dropout probability that [nn.Dropout] accepts. *)
Definition config_ok (config : Config.t) : bool :=
  (0 <=? Config.epochs config)
  && (2 <=? Config.batch_size config)
  && (Config.batch_size config <? 2 ^ 53)
  && negb (train_size mod Config.batch_size config =? 1)
  && (0 <=? Config.dropout config)
  && (Config.dropout config <=? Float64.one).

(** [w'] is [w] after the logger has received [calls]: the gradient mode
    and the generator of [random] are as before. *)
Definition extends (calls : list wandb_call) (w w' : world) : Prop :=
  wandb_calls w' = wandb_calls w ++ calls
  /\ grad_enabled w' = grad_enabled w
  /\ py_gen w' = py_gen w.

(** A batch the model can be trained on: 28x28 images, and not a single
    one. *)
Definition trainable (batch : list (@sample num)) : Prop :=
  forallb (fun x => is_28x28 (fst x)) batch = true /\ length batch <> 1%nat.

(** The step counter carried by a committing [log] call. *)
Definition logged_step (c : @wandb_call num) : option Z :=
  match c with
  | wandb_log r true =>
      match r !! "train/step_ct" with
      | Some (VInt z) => Some z
      | _ => None
      end
  | _ => None
  end.

(** Whether a call is a [log] call whose record has the key [k]. *)
Definition logs_key (k : string) (c : @wandb_call num) : bool :=
  match c with
  | wandb_log r _ => match r !! k with Some _ => true | None => false end
  | _ => false
  end.

Definition is_log (c : @wandb_call num) : bool :=
  match c with wandb_log _ _ => true | _ => false end.

Definition is_summary_set (c : @wandb_call num) : bool :=
  match c with wandb_summary_set _ _ => true | _ => false end.

Definition is_finish (c : @wandb_call num) : bool :=
  match c with wandb_finish => true | _ => false end.

(** A call that neither leaves anything pending nor carries the
    predictions table. *)
Definition plain (c : @wandb_call num) : Prop :=
  match c with
  | wandb_log r commit => commit = true /\ r !! "predictions_table" = None
  | _ => True
  end.

(** [first, first + 1, ...], [m] values. *)
Definition steps_upto (first : Z) (m : nat) : list Z :=
  map (fun k : nat => first + Z.of_nat k) (seq 0 m).

(** ** Further reference functions *)

(** The [num_batches_tracked] counters of a module's normalization layers,
    in order. *)
Definition tracked (model : @Sequential num) : list Z :=
  map (fun b => snd b) (buffers model).

(** The shape of the batches of one pass over [n] examples with batch size
    [bs]: none is empty, none holds more than [bs] examples, and all but
    the last hold exactly [bs]. *)
Definition batches_shape {A} (bs : Z) (batches : list (list A)) : Prop :=
  forall (i : nat) (b : list A),
    batches !! i = Some b ->
    (0 < length b)%nat
    /\ Z.of_nat (length b) <= bs
    /\ ((S i < length batches)%nat -> Z.of_nat (length b) = bs).

(** What [rmap] returns when it succeeds, without the exceptions. *)
Definition ok_value {A} (r : result A) : option A :=
  match r with Ok a => Some a | Raise _ => None end.

(** The calls that the logger receives during one session of [main]: the
    initialization with the configuration of the trial, whose dropout
    probability was drawn in [[0.01, 0.80)]; then [log] calls only, five of
    them with validation metrics; then the summary and the end of the
    session. *)
Definition session_calls (calls : list (@wandb_call num)) : Prop :=
  exists (dropout : Float64.float) (body : list (@wandb_call num)),
    calls
    = [wandb_init "mnist-classification"
         (config_dict {| Config.epochs := 5; Config.batch_size := 128;
                         Config.lr := Float64.lit_1e_3;
                         Config.dropout := dropout |})]
      ++ body
      ++ [wandb_summary_set "test_accuracy" (VFloat Float64.lit_0_8);
          wandb_finish]
    /\ Float64.lit_0_01 <= dropout < Float64.lit_0_80
    /\ Forall (fun c => is_log c = true) body
    /\ length (List.filter (logs_key "val/val_loss") body) = 5%nat.

(** The configuration of a trial with a given dropout probability, and the
    values of the first [n] calls of [random.uniform(0.01, 0.80)] from a
    state of the generator of [random]. *)
Definition main_config (dropout : Float64.float) : Config.t :=
  {| Config.epochs := 5; Config.batch_size := 128;
     Config.lr := Float64.lit_1e_3; Config.dropout := dropout |}.

Fixpoint dropout_draws (n : nat) (g : PyGen) : list Float64.float :=
  match n with
  | O => []
  | S n' =>
      let (d, g') :=
        random_uniform PyGen genrand_uint32
                       Float64.lit_0_01 Float64.lit_0_80 g in
      d :: dropout_draws n' g'
  end.

End Program.

(** ** A small concrete runtime

    Exact rational arithmetic stands in for the tensor numbers (kept in
    lowest terms, with the identity for the square root and [1 + x] for the
    exponential), the
    generators are counters, every initial parameter is [1/2], dropout
    keeps every entry, the loss is the number of labels and the optimizer
    writes [1/4] everywhere.  It serves to run the embedding on concrete
    inputs. *)

Module Example.

#[export] Instance Q_numeric : Numeric Q := {|
  fadd := fun x y => Qred (x + y);
  fsub := fun x y => Qred (x - y);
  fmul := fun x y => Qred (x * y);
  fdiv := fun x y => Qred (x / y);
  fsqrt := fun x => x;
  fexp := fun x => Qred (1 + x);
  flt := fun x y => negb (Qle_bool y x);
  of_int := inject_Z;
  of_float := fun x => x
|}.

Definition blank_image : @image Q := [replicate 28 (replicate 28 0%Q)].

(** [n] blank samples labelled [0, 1, ..., n-1]. *)
Definition blank_samples (n : nat) : list (@sample Q) :=
  map (fun i => (blank_image, Z.of_nat i)) (seq 0 n).

(** A dataset provider with [n_train] training and [n_test] test
    examples. *)
Definition runtime (n_train n_test : nat) : Runtime Q Z Z unit := {|
  MNIST := fun is_train =>
    if is_train then blank_samples n_train else blank_samples n_test;
  torch_random := fun g => (g, g + 1);
  genrand_uint32 := fun g => (g, g + 12345);
  init_values := fun g _ _ => (fun _ _ => 1 # 2, g + 1);
  bernoulli_mask := fun g _ => (fun _ => true, g + 1);
  cross_entropy := fun _ labels => inject_Z (Z.of_nat (length labels));
  adam_init := fun _ _ => tt;
  adam_step := fun o _ _ _ => (o, fun _ _ _ => 1 # 4)
|}.

(** Ten training and five test examples; a trial as [main] configures it;
    the state in which [main] starts. *)
Definition rt : Runtime Q Z Z unit := runtime 10 5.

Definition start : @world Q Z Z := initial_world 0 0.

Definition trial_config : Config.t :=
  {| Config.epochs := 5; Config.batch_size := 128;
     Config.lr := Float64.lit_1e_3; Config.dropout := Float64.lit_0_01 |}.

(** A module with two classes on images of two pixels, and a validation
    loader of three such images in batches of two. *)
Definition tiny_model : @Sequential Q :=
  {| layers := [Flatten; Linear [[1; 0]; [0; 1]] [0; 0]];
     training := true |}%Q.

Definition tiny_loader : @DataLoader Q :=
  {| dataset := [([[[1; 0]]], 0%Z); ([[[0; 1]]], 1%Z); ([[[1; 1]]], 1%Z)];
     batch_size := 2;
     shuffle := false |}%Q.

(** The loss of a batch taken to be its number of labels. *)
Definition count_loss (outputs : @tensor Q) (labels : list Z) : Q :=
  inject_Z (Z.of_nat (length labels)).

End Example.

(** ** Further concrete inputs *)

Module Samples.

Import Example.

(** Runtimes whose training subset leaves a last batch of one example for
    a batch size of two (eleven training images, hence three in the
    subset), and whose validation split is empty. *)
Definition rt_odd : Runtime Q Z Z unit := runtime 11 5.
Definition rt_noval : Runtime Q Z Z unit := runtime 10 0.

Definition odd_config : Config.t :=
  {| Config.epochs := 1; Config.batch_size := 2;
     Config.lr := Float64.lit_1e_3; Config.dropout := Float64.lit_0_01 |}.

(** A module with the architecture of [get_model], every weight and bias
    being [1/2]. *)
Definition mlp_model : @Sequential Q :=
  {| layers :=
       [Flatten;
        Linear (replicate 256 (replicate (28 * 28) (1 # 2)))
               (replicate 256 (1 # 2));
        BatchNorm1d (replicate 256 1) (replicate 256 0)
                    (replicate 256 0) (replicate 256 1) 0;
        ReLU;
        Dropout Float64.lit_0_01;
        Linear (replicate 10 (replicate 256 (1 # 2))) (replicate 10 (1 # 2))];
     training := true |}%Q.

(** A module with a normalization layer on images of two pixels, and one
    with ten classes. *)
Definition bn_model : @Sequential Q :=
  {| layers := [Flatten; BatchNorm1d [1; 1] [0; 0] [0; 0] [1; 1] 0;
                Linear [[1; 0]; [0; 1]] [0; 0]];
     training := true |}%Q.

Definition ten_model : @Sequential Q :=
  {| layers := [Flatten;
                Linear (map (fun k : nat => [inject_Z (Z.of_nat k); 1])
                            (seq 0 10))
                       (replicate 10 0)];
     training := false |}%Q.

(** Loaders of two-pixel images: four examples shuffled in batches of two,
    and a loader without examples. *)
Definition even_loader : @DataLoader Q :=
  {| dataset := [([[[1; 0]]], 0%Z); ([[[0; 1]]], 1%Z); ([[[1; 1]]], 1%Z);
                 ([[[2; 1]]], 0%Z)];
     batch_size := 2;
     shuffle := true |}%Q.

Definition empty_loader : @DataLoader Q :=
  {| dataset := []; batch_size := 2; shuffle := false |}.

(** The variables of the training loop before the first epoch. *)
Definition fresh_vars (m : @Sequential Q) : @train_vars Q unit :=
  {| model := m; optimizer := tt; example_ct := 0; step_ct := 0;
     metrics := None |}.

End Samples.

(** * Properties *)

(** ** Python ranges, indexing and ceilings *)

Lemma ceil_div_alt (a b : Z) : 0 < b -> ceil_div a b = (a + b - 1) / b.
Proof.
  intros Hb. unfold ceil_div.
  pose proof (Z.div_mod (- a) b ltac:(lia)) as E1.
  pose proof (Z.mod_pos_bound (- a) b Hb) as B1.
  apply Z.div_unique with (r := b - 1 - (- a) mod b); lia.
Qed.

Lemma ceil_div_nonpos (a b : Z) : 0 < b -> a <= 0 -> ceil_div a b <= 0.
Proof.
  intros Hb Ha. unfold ceil_div.
  pose proof (Z.div_pos (- a) b ltac:(lia) Hb). lia.
Qed.

Lemma ceil_div_step (a b : Z) :
  0 < b -> 0 < a -> ceil_div a b = 1 + ceil_div (a - b) b.
Proof.
  intros Hb Ha. rewrite !ceil_div_alt by lia.
  replace (a + b - 1) with ((a - b + b - 1) + 1 * b) by ring.
  rewrite Z.div_add by lia. ring.
Qed.

Lemma ceil_div_pos (a b : Z) : 0 < b -> 0 < a -> 0 < ceil_div a b.
Proof.
  intros Hb Ha. rewrite ceil_div_alt by lia.
  apply Z.div_str_pos. lia.
Qed.

(** The ceiling is the least integer [c] with [a <= c * b]. *)
Lemma ceil_div_spec (a b : Z) :
  0 < b -> (ceil_div a b - 1) * b < a <= ceil_div a b * b.
Proof.
  intros Hb. unfold ceil_div.
  pose proof (Z.div_mod (- a) b ltac:(lia)) as E1.
  pose proof (Z.mod_pos_bound (- a) b Hb) as B1. nia.
Qed.

Lemma ceil_div_unique (a b c : Z) :
  0 < b -> (c - 1) * b < a <= c * b -> ceil_div a b = c.
Proof.
  intros Hb Hc. pose proof (ceil_div_spec a b Hb). nia.
Qed.

Lemma range_up_spec (fuel : nat) (cur stop step : Z) :
  0 < step -> stop - cur <= Z.of_nat fuel ->
  range_up fuel cur stop step
  = map (fun i : nat => cur + Z.of_nat i * step)
        (seq 0 (Z.to_nat (ceil_div (stop - cur) step))).
Proof.
  intros Hstep. revert cur.
  induction fuel as [|fuel IH]; intros cur Hfuel; simpl.
  - pose proof (ceil_div_nonpos (stop - cur) step Hstep ltac:(lia)).
    replace (Z.to_nat _) with O by lia. reflexivity.
  - destruct (Z.ltb_spec cur stop) as [Hlt|Hge].
    + rewrite (ceil_div_step (stop - cur) step) by lia.
      pose proof (ceil_div_spec (stop - cur - step) step Hstep).
      assert (0 <= ceil_div (stop - cur - step) step) by nia.
      rewrite Z2Nat.inj_add by lia. simpl.
      rewrite IH by lia. f_equal; [lia|].
      rewrite <- seq_shift, map_map.
      replace (stop - (cur + step)) with (stop - cur - step) by ring.
      apply map_ext. intros i. lia.
    + pose proof (ceil_div_nonpos (stop - cur) step Hstep ltac:(lia)).
      replace (Z.to_nat _) with O by lia. reflexivity.
Qed.

Lemma getitem_lookup {A} (l : list A) (i : nat) (x : A) :
  l !! i = Some x -> getitem l (Z.of_nat i) = Ok x.
Proof.
  intros Hx. unfold getitem.
  pose proof (lookup_lt_Some _ _ _ Hx) as Hlt.
  destruct (Z.ltb_spec (Z.of_nat i) 0); [lia|].
  destruct (Z.leb_spec 0 (Z.of_nat i)); [|lia].
  destruct (Z.ltb_spec (Z.of_nat i) (Z.of_nat (length l))); [|lia].
  simpl. rewrite Nat2Z.id, Hx. reflexivity.
Qed.

Lemma rmap_ok {A B} (f : A -> result B) (g : A -> B) (xs : list A) :
  Forall (fun x => f x = Ok (g x)) xs -> rmap f xs = Ok (map g xs).
Proof.
  induction 1 as [|x xs Hx _ IH]; simpl; [reflexivity|].
  rewrite Hx. simpl. rewrite IH. reflexivity.
Qed.

Lemma rmap_length {A B} (f : A -> result B) (xs : list A) (ys : list B) :
  rmap f xs = Ok ys -> length ys = length xs.
Proof.
  revert ys. induction xs as [|x xs IH]; simpl; intros ys E.
  - inversion E. reflexivity.
  - destruct (f x); simpl in E; [|discriminate].
    destruct (rmap f xs); simpl in E; [|discriminate].
    inversion E. simpl. f_equal. apply IH. reflexivity.
Qed.

(** Fetching the items at positions [0 .. n-1] gives the list back. *)
Lemma rmap_getitem_seq {A} (l : list A) :
  rmap (getitem l) (map Z.of_nat (seq 0 (length l))) = Ok l.
Proof.
  assert (G : forall (pre l : list A),
            rmap (getitem (pre ++ l))
                 (map Z.of_nat (seq (length pre) (length l))) = Ok l).
  { clear l. intros pre l. revert pre.
    induction l as [|x l IH]; intros pre; simpl; [reflexivity|].
    rewrite (getitem_lookup (pre ++ x :: l) (length pre) x).
    2:{ rewrite lookup_app_r by lia. rewrite Nat.sub_diag. reflexivity. }
    simpl. specialize (IH (pre ++ [x])).
    rewrite <- app_assoc in IH. simpl in IH.
    rewrite length_app in IH. simpl in IH.
    rewrite Nat.add_1_r in IH. rewrite IH. reflexivity. }
  apply (G [] l).
Qed.

Lemma getitem_in_range {A} (l : list A) (z : Z) :
  0 <= z < Z.of_nat (length l) ->
  exists x, getitem l z = Ok x /\ l !! Z.to_nat z = Some x.
Proof.
  intros Hz.
  destruct (lookup_lt_is_Some_2 l (Z.to_nat z) ltac:(lia)) as [x Hx].
  exists x. split; [|exact Hx].
  rewrite <- (Z2Nat.id z) by lia. apply getitem_lookup. exact Hx.
Qed.

(** Fetching at valid positions succeeds, position by position. *)
Lemma rmap_getitem_in_range {A} (l : list A) (indices : list Z) :
  Forall (fun z => 0 <= z < Z.of_nat (length l)) indices ->
  exists ys, rmap (getitem l) indices = Ok ys
    /\ length ys = length indices
    /\ (forall (j : nat) (z : Z),
          indices !! j = Some z -> ys !! j = l !! Z.to_nat z)
    /\ (forall P : A -> Prop, Forall P l -> Forall P ys).
Proof.
  induction 1 as [|z indices Hz _ IH]; simpl.
  - exists []. repeat split; auto. intros j z E. destruct j; discriminate.
  - destruct (getitem_in_range l z Hz) as (x & Ex & Lx).
    destruct IH as (ys & Eys & Hlen & Hnth & Hall).
    exists (x :: ys). rewrite Ex. simpl. rewrite Eys. simpl.
    repeat split.
    + simpl. lia.
    + intros [|j] z' E; simpl in *.
      * inversion E; subst. symmetry. exact Lx.
      * apply Hnth. exact E.
    + intros P HP. constructor; [|apply Hall; exact HP].
      rewrite Forall_lookup in HP. eapply HP. exact Lx.
Qed.

Section LoaderProperties.

Context {num TorchGen PyGen Optimizer : Type}.
Context `{Numeric num} `{Runtime num TorchGen PyGen Optimizer}.

(** What the subsampling of [get_dataloader] keeps of a dataset of [n]
    items, for a positive stride [k]. *)
Lemma subsample_spec (full : list (@sample num)) (k : Z) :
  0 < k ->
  exists sub,
    rbind (range 0 (Z.of_nat (length full)) k) (Subset full) = Ok sub
    /\ Z.of_nat (length sub) = ceil_div (Z.of_nat (length full)) k
    /\ (forall i : nat, (i < length sub)%nat ->
          sub !! i = full !! Z.to_nat (Z.of_nat i * k))
    /\ (forall P : sample -> Prop, Forall P full -> Forall P sub).
Proof.
  intros Hk. unfold range, Subset.
  destruct (Z.eqb_spec k 0) as [?|_]; [lia|].
  destruct (Z.ltb_spec 0 k) as [_|?]; [|lia].
  simpl. rewrite Z.sub_0_r, range_up_spec by lia. rewrite Z.sub_0_r.
  set (n := Z.of_nat (length full)).
  set (c := ceil_div n k).
  pose proof (ceil_div_spec n k Hk) as Hc. fold c in Hc.
  assert (Hc0 : 0 <= c) by (subst n; nia).
  edestruct (rmap_getitem_in_range full
    (map (fun i : nat => 0 + Z.of_nat i * k) (seq 0 (Z.to_nat c))))
    as (sub & Esub & Hlen & Hnth & Hall).
  { apply List.Forall_forall. intros z Hz. apply in_map_iff in Hz.
    destruct Hz as (i & <- & Hi). apply in_seq in Hi. fold n. nia. }
  exists sub. rewrite Esub. rewrite length_map, length_seq in Hlen.
  repeat split.
  - lia.
  - intros i Hi. rewrite (Hnth i (0 + Z.of_nat i * k)); [f_equal; lia|].
    rewrite list_lookup_fmap, lookup_seq_lt by lia. reflexivity.
  - exact Hall.
Qed.

Lemma get_dataloader_spec (is_train : bool) (bs k : Z) :
  0 < k -> 0 < bs ->
  exists sub,
    get_dataloader is_train bs (Some k)
    = Ok {| dataset := sub; batch_size := bs; shuffle := is_train |}
    /\ Z.of_nat (length sub)
       = ceil_div (Z.of_nat (length (MNIST is_train))) k
    /\ (forall i : nat, (i < length sub)%nat ->
          sub !! i = MNIST is_train !! Z.to_nat (Z.of_nat i * k))
    /\ (forall P : sample -> Prop, Forall P (MNIST is_train) -> Forall P sub).
Proof.
  intros Hk Hbs.
  destruct (subsample_spec (MNIST is_train) k Hk) as (sub & E & Hsub).
  exists sub. split; [|exact Hsub].
  unfold get_dataloader. simpl.
  unfold rbind in E |- *.
  destruct (range 0 (Z.of_nat (length (MNIST is_train))) k); [|discriminate].
  rewrite E. unfold mk_DataLoader.
  destruct (Z.leb_spec bs 0); [lia|]. reflexivity.
Qed.


End LoaderProperties.

(** ** Rounding of Python floats *)

Module Float64Facts.
Import Float64.

Lemma ulp_exp_nonneg (x : Z) : 0 <= ulp_exp x.
Proof. unfold ulp_exp. lia. Qed.

Lemma ulp_exp_mono (x y : Z) : x <= y -> ulp_exp x <= ulp_exp y.
Proof.
  intros Hxy. unfold ulp_exp.
  pose proof (Z.log2_le_mono x y Hxy). lia.
Qed.

(** A value below [2^(ulp_exp + 53)]: at most 53 bits are kept. *)
Lemma ulp_exp_upper (x : Z) : 0 <= x -> x < 2 ^ (ulp_exp x + 53).
Proof.
  intros Hx. unfold ulp_exp.
  destruct (Z.eq_dec x 0) as [->|Hne].
  - simpl. apply Z.pow_pos_nonneg; lia.
  - pose proof (Z.log2_spec x ltac:(lia)) as [_ Hu].
    pose proof (Z.log2_nonneg x).
    eapply Z.lt_le_trans; [exact Hu|].
    apply Z.pow_le_mono_r; lia.
Qed.

Lemma ulp_exp_lower (x : Z) : 0 < ulp_exp x -> 2 ^ (ulp_exp x + 52) <= x.
Proof.
  unfold ulp_exp. intros Hpos.
  assert (Hl : 52 < Z.log2 x) by lia.
  assert (0 < x).
  { destruct (Z.ltb_spec 0 x); [assumption|].
    rewrite Z.log2_nonpos in Hl by lia. lia. }
  pose proof (Z.log2_spec x ltac:(lia)) as [Hlo _].
  replace (Z.max (Z.log2 x - 52) 0 + 52) with (Z.log2 x) by lia.
  exact Hlo.
Qed.

Lemma round_ratio_bounds (x d : Z) :
  0 < d -> 0 <= x ->
  let s := ulp_exp (x / d) in
  (x / d / 2 ^ s) * 2 ^ s <= round_ratio x d <= (x / d / 2 ^ s + 1) * 2 ^ s.
Proof.
  intros Hd Hx s. unfold round_ratio. fold s.
  assert (Hs : 0 < 2 ^ s) by (apply Z.pow_pos_nonneg; [lia|apply ulp_exp_nonneg]).
  rewrite <- Z.div_div by lia.
  destruct (_ || _); nia.
Qed.

Lemma round_ratio_mono (x y d : Z) :
  0 < d -> 0 <= x -> x <= y -> round_ratio x d <= round_ratio y d.
Proof.
  intros Hd Hx Hxy.
  assert (Hdiv : x / d <= y / d) by (apply Z.div_le_mono; lia).
  assert (Hxd : 0 <= x / d) by (apply Z.div_pos; lia).
  pose proof (ulp_exp_mono _ _ Hdiv) as Hs.
  pose proof (ulp_exp_nonneg (x / d)) as Hsx.
  destruct (Z.eq_dec (ulp_exp (x / d)) (ulp_exp (y / d))) as [Heq|Hne].
  - (* same unit in the last place *)
    unfold round_ratio. rewrite <- Heq.
    set (s := ulp_exp (x / d)) in *.
    assert (Hp : 0 < 2 ^ s) by (apply Z.pow_pos_nonneg; lia).
    set (g := d * 2 ^ s).
    assert (Hg : 0 < g) by (subst g; nia).
    pose proof (Z.div_mod x g ltac:(lia)) as Ex.
    pose proof (Z.div_mod y g ltac:(lia)) as Ey.
    pose proof (Z.mod_pos_bound x g Hg) as Bx.
    pose proof (Z.mod_pos_bound y g Hg) as By.
    assert (Hq : x / g <= y / g) by (apply Z.div_le_mono; lia).
    destruct (Z.eq_dec (x / g) (y / g)) as [Eq|Nq].
    + rewrite <- Eq in *.
      assert (Hr : x mod g <= y mod g) by lia.
      destruct (Z.ltb_spec g (2 * (x mod g))) as [H1|H1];
        destruct (Z.ltb_spec g (2 * (y mod g))) as [H2|H2];
        destruct (Z.eqb_spec (2 * (x mod g)) g) as [H3|H3];
        destruct (Z.eqb_spec (2 * (y mod g)) g) as [H4|H4];
        destruct (Z.odd (x / g)); simpl; nia.
    + assert (x / g + 1 <= y / g) by lia.
      destruct (_ || _); destruct (_ || _); nia.
  - (* the unit grows: a power of two lies in between *)
    assert (Hlt : ulp_exp (x / d) < ulp_exp (y / d)) by lia.
    pose proof (round_ratio_bounds x d Hd Hx) as [_ Ux].
    pose proof (round_ratio_bounds y d Hd ltac:(lia)) as [Ly _].
    cbv zeta in Ux, Ly.
    set (sx := ulp_exp (x / d)) in *. set (sy := ulp_exp (y / d)) in *.
    assert (Hpx : 0 < 2 ^ sx) by (apply Z.pow_pos_nonneg; lia).
    assert (Hpy : 0 < 2 ^ sy) by (apply Z.pow_pos_nonneg; lia).
    pose proof (ulp_exp_upper (x / d) Hxd) as Hu. fold sx in Hu.
    pose proof (ulp_exp_lower (y / d) ltac:(fold sy; lia)) as Hl. fold sy in Hl.
    assert (Hqx : x / d / 2 ^ sx < 2 ^ 53).
    { apply Z.div_lt_upper_bound; [lia|].
      rewrite <- Z.pow_add_r by lia. exact Hu. }
    assert (Hqy : 2 ^ 52 <= y / d / 2 ^ sy).
    { apply Z.div_le_lower_bound; [lia|].
      rewrite <- Z.pow_add_r by lia.
      replace (sy + 52) with (sy + 52) in Hl by lia. exact Hl. }
    assert (Hpow : 2 * 2 ^ sx <= 2 ^ sy).
    { replace (2 * 2 ^ sx) with (2 ^ (sx + 1)) by (rewrite Z.pow_add_r; lia).
      apply Z.pow_le_mono_r; lia. }
    change (2 ^ 53) with (2 * 2 ^ 52) in Hqx.
    transitivity (2 ^ 53 * 2 ^ sx); [nia|].
    transitivity (2 ^ 52 * 2 ^ sy); [|nia].
    change (2 ^ 53) with (2 ^ 52 * 2). nia.
Qed.

Lemma mul_mono_r (c x y : float) :
  0 <= c -> 0 <= x -> x <= y -> mul c x <= mul c y.
Proof.
  intros Hc Hx Hxy. unfold mul.
  apply round_ratio_mono; [reflexivity|nia|nia].
Qed.

Lemma add_mono_r (a x y : float) :
  0 <= a -> 0 <= x -> x <= y -> add a x <= add a y.
Proof.
  intros Ha Hx Hxy. unfold add.
  apply round_ratio_mono; lia.
Qed.

Lemma random53_range (a b : Z) :
  0 <= random53 (a mod 2 ^ 32) (b mod 2 ^ 32) <= 2 ^ 53 - 1.
Proof.
  unfold random53. rewrite !Z.shiftr_div_pow2 by lia.
  pose proof (Z.mod_pos_bound a (2 ^ 32) ltac:(lia)) as Ba.
  pose proof (Z.mod_pos_bound b (2 ^ 32) ltac:(lia)) as Bb.
  assert (0 <= a mod 2 ^ 32 / 2 ^ 5 < 2 ^ 27).
  { split; [apply Z.div_pos; lia|apply Z.div_lt_upper_bound; lia]. }
  assert (0 <= b mod 2 ^ 32 / 2 ^ 6 < 2 ^ 26).
  { split; [apply Z.div_pos; lia|apply Z.div_lt_upper_bound; lia]. }
  lia.
Qed.

Lemma uniform_at_mono (j k : Z) :
  0 <= j -> j <= k -> uniform_at j <= uniform_at k.
Proof.
  intros Hj Hjk. unfold uniform_at.
  assert (Hb : 0 <= of_bits j (-53) <= of_bits k (-53)).
  { unfold of_bits. change (2 ^ (-53 + 1074)) with (2 ^ 1021).
    assert (0 < 2 ^ 1021) by (apply Z.pow_pos_nonneg; lia). nia. }
  apply add_mono_r.
  - vm_compute. discriminate.
  - unfold mul. 
    transitivity (round_ratio 0 one); [vm_compute; discriminate|].
    apply round_ratio_mono; [reflexivity|lia|].
    assert (0 <= sub lit_0_80 lit_0_01) by (vm_compute; discriminate). nia.
  - apply mul_mono_r; [vm_compute; discriminate|lia|lia].
Qed.

(** Every value of [random.uniform(0.01, 0.80)] lies between the float
    [0.01] and the float just below [0.80]. *)
Lemma uniform_at_range (k : Z) :
  0 <= k <= 2 ^ 53 - 1 ->
  lit_0_01 <= uniform_at k <= of_bits 7205759403792793 (-53).
Proof.
  intros Hk.
  pose proof (uniform_at_mono 0 k ltac:(lia) ltac:(lia)) as Hlo.
  pose proof (uniform_at_mono k (2 ^ 53 - 1) ltac:(lia) ltac:(lia)) as Hhi.
  assert (E0 : uniform_at 0 = lit_0_01) by (vm_compute; reflexivity).
  assert (E1 : uniform_at (2 ^ 53 - 1) = of_bits 7205759403792793 (-53))
    by (vm_compute; reflexivity).
  lia.
Qed.

(** The result is within half a unit in the last place of the exact
    quotient. *)
Lemma round_ratio_error (x d : Z) :
  0 < d -> 0 <= x ->
  2 * Z.abs (round_ratio x d * d - x) <= d * 2 ^ ulp_exp (x / d).
Proof.
  intros Hd Hx. unfold round_ratio.
  set (s := ulp_exp (x / d)).
  assert (Hp : 0 < 2 ^ s) by (apply Z.pow_pos_nonneg; [lia|apply ulp_exp_nonneg]).
  set (g := d * 2 ^ s).
  assert (Hg : 0 < g) by (subst g; nia).
  pose proof (Z.div_mod x g ltac:(lia)) as Ex.
  pose proof (Z.mod_pos_bound x g Hg) as Bx.
  destruct (Z.ltb_spec g (2 * (x mod g))) as [H1|H1];
    destruct (Z.eqb_spec (2 * (x mod g)) g) as [H3|H3];
    destruct (Z.odd (x / g)); simpl; subst g; nia.
Qed.

Lemma round_ratio_one (n : Z) : 0 < n -> round_ratio (n * one) n = one.
Proof.
  intros Hn. unfold round_ratio.
  replace (n * one / n) with one by (rewrite Z.mul_comm, Z.div_mul; lia).
  replace (ulp_exp one) with 1022 by (unfold ulp_exp, one; rewrite Z.log2_pow2; lia).
  replace (n * one) with (2 ^ 52 * (n * 2 ^ 1022))
    by (unfold one; change (2 ^ 1074) with (2 ^ 52 * 2 ^ 1022); ring).
  assert (0 < 2 ^ 1022) by (apply Z.pow_pos_nonneg; lia).
  rewrite Z.div_mul, Z.mod_mul by nia.
  destruct (Z.ltb_spec (n * 2 ^ 1022) (2 * 0)); [nia|].
  destruct (Z.eqb_spec (2 * 0) (n * 2 ^ 1022)); [nia|].
  simpl. unfold one. change (2 ^ 1074) with (2 ^ 52 * 2 ^ 1022). reflexivity.
Qed.

(** A quotient of [c] by [n] with [0 <= c <= n] is a float in [[0, 1]]. *)
Lemma round_ratio_unit_interval (c n : Z) :
  0 < n -> 0 <= c <= n -> 0 <= round_ratio (c * one) n <= one.
Proof.
  intros Hn Hc.
  assert (Ho : 0 < one) by (apply Z.pow_pos_nonneg; lia).
  split.
  - pose proof (round_ratio_bounds (c * one) n Hn ltac:(nia)) as [L _].
    cbv zeta in L. eapply Z.le_trans; [|exact L].
    apply Z.mul_nonneg_nonneg.
    + apply Z.div_pos; [apply Z.div_pos; [apply Z.mul_nonneg_nonneg; lia|lia]|].
      apply Z.pow_pos_nonneg; [lia|apply ulp_exp_nonneg].
    + apply Z.pow_nonneg. lia.
  - transitivity (round_ratio (n * one) n);
      [apply round_ratio_mono; nia|].
    rewrite round_ratio_one by lia. lia.
Qed.

(** Such a quotient is within [2^-53] of the exact one. *)
Lemma round_ratio_unit_error (c n : Z) :
  0 < n -> 0 <= c <= n ->
  2 * Z.abs (round_ratio (c * one) n * n - c * one) <= n * 2 ^ 1022.
Proof.
  intros Hn Hc.
  assert (Ho : 0 < one) by (apply Z.pow_pos_nonneg; lia).
  pose proof (round_ratio_error (c * one) n Hn ltac:(nia)) as He.
  eapply Z.le_trans; [exact He|].
  apply Z.mul_le_mono_nonneg_l; [lia|].
  apply Z.pow_le_mono_r; [lia|].
  replace 1022 with (ulp_exp one)
    by (unfold ulp_exp, one; rewrite Z.log2_pow2; lia).
  apply ulp_exp_mono. apply Z.div_le_upper_bound; nia.
Qed.

(** [math.ceil(a / b)] is the integer ceiling, as long as [a] fits in 52
    bits and [b] in 53. *)
Lemma ceil_truediv (a b : Z) :
  0 <= a < 2 ^ 52 -> 0 < b < 2 ^ 53 ->
  ceil (round_ratio (a * one) b) = ceil_div a b.
Proof.
  intros Ha Hb. unfold ceil. fold (ceil_div (round_ratio (a * one) b) one).
  assert (Ho : 0 < one) by (apply Z.pow_pos_nonneg; lia).
  pose proof (ceil_div_spec a b ltac:(lia)) as Hc.
  set (c := ceil_div a b) in *.
  apply ceil_div_unique; [exact Ho|].
  unfold round_ratio.
  set (v := a * one / b).
  assert (Hv : 0 <= v) by (apply Z.div_pos; nia).
  assert (Hv2 : v < 2 ^ 1126).
  { apply Z.div_lt_upper_bound; [lia|].
    change (2 ^ 1126) with (2 ^ 52 * one). nia. }
  set (s := ulp_exp v).
  pose proof (ulp_exp_nonneg v) as Hs0. fold s in Hs0.
  assert (Hs : s <= 1073).
  { unfold s, ulp_exp.
    destruct (Z.eq_dec v 0) as [->|Hne]; [simpl; lia|].
    assert (Z.log2 v < 1126) by (apply Z.log2_lt_pow2; lia). lia. }
  assert (Hp : 0 < 2 ^ s) by (apply Z.pow_pos_nonneg; lia).
  set (t := 1074 - s).
  assert (Eone : one = 2 ^ t * 2 ^ s).
  { unfold one, t. rewrite <- Z.pow_add_r by lia. f_equal. lia. }
  assert (Hpt : 0 < 2 ^ t) by (apply Z.pow_pos_nonneg; lia).
  (* the significand step is at most 1/b *)
  assert (Hbt : b <= 2 ^ t).
  { destruct (Z.eq_dec s 0) as [E0|Hne].
    - unfold t. rewrite E0. change (2 ^ (1074 - 0)) with (2 ^ 1021 * 2 ^ 53).
      assert (0 < 2 ^ 1021) by (apply Z.pow_pos_nonneg; lia). nia.
    - pose proof (ulp_exp_lower v ltac:(fold s; lia)) as Hl. fold s in Hl.
      assert (Hvb : v * b <= a * one)
        by (unfold v; rewrite Z.mul_comm; apply Z.mul_div_le; lia).
      rewrite Z.pow_add_r in Hl by lia.
      assert (2 ^ s * 2 ^ 52 * b <= a * (2 ^ t * 2 ^ s)) by (rewrite <- Eone; nia).
      assert (2 ^ 52 * b <= a * 2 ^ t) by nia.
      nia. }
  set (g := b * 2 ^ s).
  assert (Hg : 0 < g) by (subst g; nia).
  pose proof (Z.div_mod (a * one) g ltac:(lia)) as Ex.
  pose proof (Z.mod_pos_bound (a * one) g Hg) as Bx.
  set (q := a * one / g) in *. set (r := (a * one) mod g) in *.
  assert (Hlow : (c - 1) * 2 ^ t + 1 <= q).
  { apply Z.div_le_lower_bound; [lia|].
    rewrite Eone. unfold g.
    assert (a * 2 ^ t >= ((c - 1) * 2 ^ t + 1) * b) by nia. nia. }
  assert (Hup : q <= c * 2 ^ t).
  { apply Z.div_le_upper_bound; [lia|]. rewrite Eone. unfold g. nia. }
  assert (Hup' : q = c * 2 ^ t -> r = 0).
  { intros Eq. rewrite Eone in Ex. unfold g in Ex. nia. }
  rewrite Eone.
  destruct (Z.ltb_spec g (2 * r)) as [H1|H1];
    destruct (Z.eqb_spec (2 * r) g) as [H3|H3];
    destruct (Z.odd q); simpl; nia.
Qed.

(** *** Agreement with the hardware on sample inputs *)

Example literals_agree :
  of_prim 0.01 = lit_0_01 /\ of_prim 0.80 = lit_0_80
  /\ of_prim 0.8 = lit_0_8 /\ of_prim 1e-3 = lit_1e_3.
Proof. vm_compute. repeat split. Qed.

Example uniform_agrees :
  Forall (fun r => of_prim (0.01 + (0.80 - 0.01) * r)%float
                   = add lit_0_01 (mul (sub lit_0_80 lit_0_01) (of_prim r)))
         [0; 0x1p-53; 0.3; 0.5; 0x1.23456789abcdep-3; 0.999;
          0x1.fffffffffffffp-1]%float.
Proof. repeat constructor. Qed.

Example truediv_agrees :
  int_truediv 1 3 = Ok (of_prim (1 / 3)%float)
  /\ int_truediv 1999 2000 = Ok (of_prim (1999 / 2000)%float)
  /\ int_truediv 12000 128 = Ok (of_prim (12000 / 128)%float)
  /\ ceil (of_prim (12000 / 128)%float) = 94.
Proof. vm_compute. repeat split. Qed.

Example subnormal_ties_agree :
  mul 1 (of_prim 0.5) = of_prim (0x1p-1074 * 0.5)%float
  /\ mul 3 (of_prim 0.5) = of_prim (0x1.8p-1073 * 0.5)%float.
Proof. vm_compute. repeat split. Qed.

End Float64Facts.

(** ** The batch sampler *)

Lemma batch_sampler_cons {A} (bs : nat) (cur items : list A) (x : A) :
  batch_sampler bs cur (x :: items)
  = if (S (length cur) =? bs)%nat
    then rev (x :: cur) :: batch_sampler bs [] items
    else batch_sampler bs (x :: cur) items.
Proof. reflexivity. Qed.

Lemma batch_sampler_concat {A} (bs : nat) (cur items : list A) :
  concat (batch_sampler bs cur items) = rev cur ++ items.
Proof.
  revert cur. induction items as [|x items IH]; intros cur.
  - destruct cur; simpl; rewrite ?app_nil_r; reflexivity.
  - rewrite batch_sampler_cons.
    destruct (Nat.eqb_spec (S (length cur)) bs) as [E|NE].
    + rewrite concat_cons, IH. simpl. rewrite <- app_assoc. reflexivity.
    + rewrite IH. simpl. rewrite <- app_assoc. reflexivity.
Qed.

(** Every batch is full, except that the last one may hold the
    remainder. *)
Lemma batch_sampler_sizes {A} (bs : nat) (cur items : list A) :
  (length cur < bs)%nat ->
  Forall (fun b => length b = bs
                   \/ length b = ((length cur + length items) mod bs)%nat
                      /\ (0 < length b)%nat)
         (batch_sampler bs cur items).
Proof.
  revert cur. induction items as [|x items IH]; intros cur Hcur.
  - simpl. destruct cur as [|c cur]; [constructor|].
    constructor; [|constructor]. right.
    rewrite length_rev, Nat.add_0_r, Nat.mod_small by lia. simpl. lia.
  - rewrite batch_sampler_cons. simpl length.
    destruct (Nat.eqb_spec (S (length cur)) bs) as [E|NE].
    + constructor.
      * left. rewrite length_rev. simpl. exact E.
      * specialize (IH [] ltac:(simpl; lia)). simpl in IH.
        replace (length cur + S (length items))%nat
          with (length items + 1 * bs)%nat by lia.
        rewrite Nat.Div0.mod_add. exact IH.
    + specialize (IH (x :: cur) ltac:(simpl; lia)). simpl in IH.
      replace (length cur + S (length items))%nat
        with (S (length cur + length items)) by lia.
      exact IH.
Qed.

Lemma batch_sampler_count {A} (bs : nat) (cur items : list A) :
  (length cur < bs)%nat ->
  Z.of_nat (length (batch_sampler bs cur items))
  = ceil_div (Z.of_nat (length cur + length items)) (Z.of_nat bs).
Proof.
  revert cur. induction items as [|x items IH]; intros cur Hcur.
  - simpl. destruct cur as [|c cur]; simpl.
    + unfold ceil_div. simpl. rewrite Z.div_0_l by lia. reflexivity.
    + symmetry. apply ceil_div_unique; simpl in *; lia.
  - rewrite batch_sampler_cons.
    destruct (Nat.eqb_spec (S (length cur)) bs) as [E|NE].
    + simpl length. rewrite Nat2Z.inj_succ, (IH [] ltac:(simpl; lia)).
      simpl length.
      rewrite (ceil_div_step (Z.of_nat (length cur + S (length items))))
        by lia.
      replace (Z.of_nat (length cur + S (length items)) - Z.of_nat bs)
        with (Z.of_nat (0 + length items)) by lia.
      lia.
    + rewrite (IH (x :: cur) ltac:(simpl; lia)). simpl length.
      f_equal. lia.
Qed.

(** With a batch size of at least two and a remainder other than one, no
    batch holds a single example. *)
Lemma batch_sampler_no_singleton {A} (bs : nat) (items : list A) :
  (2 <= bs)%nat -> (length items mod bs)%nat <> 1%nat ->
  Forall (fun b => length b <> 1%nat /\ b <> [])
         (batch_sampler bs [] items).
Proof.
  intros Hbs Hmod.
  pose proof (batch_sampler_sizes bs [] items ltac:(simpl; lia)) as Hs.
  simpl in Hs. eapply Forall_impl; [exact Hs|].
  intros b [E|[E Hpos]]; (split; [lia|]); intros ->; simpl in *; lia.
Qed.

Lemma batch_sampler_nonempty {A} (bs : nat) (items : list A) :
  (0 < bs)%nat -> Forall (fun b => b <> []) (batch_sampler bs [] items).
Proof.
  intros Hbs.
  pose proof (batch_sampler_sizes bs [] items ltac:(simpl; lia)) as Hs.
  eapply Forall_impl; [exact Hs|].
  intros b [E|[E Hpos]]; intros ->; simpl in *; lia.
Qed.

Lemma batch_sampler_Forall {A} (P : A -> Prop) (bs : nat) (items : list A) :
  Forall P items -> Forall (Forall P) (batch_sampler bs [] items).
Proof.
  intros HP.
  assert (Hc : Forall P (concat (batch_sampler bs [] items)))
    by (rewrite batch_sampler_concat; exact HP).
  revert Hc. generalize (batch_sampler bs [] items).
  induction l as [|b l IH]; simpl; intros Hc; [constructor|].
  apply Forall_app in Hc. destruct Hc. constructor; auto.
Qed.

(** ** The forward pass in eval mode *)

Lemma rmap_app_ok {A B} (f : A -> result B) (xs1 xs2 : list A)
    (ys1 ys2 : list B) :
  rmap f xs1 = Ok ys1 -> rmap f xs2 = Ok ys2 ->
  rmap f (xs1 ++ xs2) = Ok (ys1 ++ ys2).
Proof.
  revert ys1. induction xs1 as [|x xs1 IH]; simpl; intros ys1 E1 E2.
  - inversion E1. exact E2.
  - destruct (f x) as [y|]; simpl in *; [|discriminate].
    destruct (rmap f xs1) as [ys|]; simpl in *; [|discriminate].
    inversion E1; subst. rewrite (IH ys eq_refl E2). reflexivity.
Qed.

Section EvalMode.

Context {num TorchGen PyGen Optimizer : Type}.
Context `{Numeric num} `{Runtime num TorchGen PyGen Optimizer}.
Abbreviation world := (@world num TorchGen PyGen).

Lemma map_matrix_const (g : num -> num) (rows : list (list num)) :
  map_matrix (fun _ => g) rows = map (map g) rows.
Proof.
  unfold map_matrix.
  rewrite (imap_ext _ (fun _ r => map g r)).
  - apply (imap_const (map g)).
  - intros i r _. apply (imap_const g).
Qed.

Lemma map_images_const (g : num -> num) (xs : list (@image num)) :
  map_images (fun _ => g) xs = map (map (map (map g))) xs.
Proof.
  unfold map_images.
  rewrite (imap_ext _ (fun _ img => map (map (map g)) img)).
  - apply (imap_const (map (map (map g)))).
  - intros b img _.
    rewrite (imap_ext _ (fun _ ch => map (map g) ch)).
    + apply (imap_const (map (map g))).
    + intros c ch _.
      rewrite (imap_ext _ (fun _ row => map g row)).
      * apply (imap_const (map g)).
      * intros h row _. apply (imap_const g).
Qed.

(** In eval mode a layer neither changes nor touches the state. *)
Lemma forward_layer_eval (l : @layer num) (t : tensor) (w : world) :
  forward_layer false l t w
  = match eval_layer l t with
    | Ok t' => Ok ((t', l), w)
    | Raise e => Raise e
    end.
Proof.
  destruct l as [|W b|gamma beta rm rv nbt| |p]; simpl; try reflexivity.
  - unfold bind, lift, ret. destruct (linear W b t); reflexivity.
  - unfold lift, batch_norm. destruct t as [xs|rows]; simpl; [reflexivity|].
    destruct (negb _); reflexivity.
Qed.

Lemma forward_layers_eval (ls : list (@layer num)) (t : tensor) (w : world) :
  forward_layers false ls t w
  = match eval_layers ls t with
    | Ok t' => Ok ((t', ls), w)
    | Raise e => Raise e
    end.
Proof.
  revert t. induction ls as [|l ls IH]; intros t; simpl; [reflexivity|].
  unfold bind at 1. rewrite forward_layer_eval.
  destruct (eval_layer l t) as [t1|e]; simpl; [|reflexivity].
  unfold bind. rewrite IH.
  destruct (eval_layers ls t1); reflexivity.
Qed.

(** A call of a module in eval mode: the output is that of [eval_layers],
    the module is unchanged, and the only trace in the state is the ghost
    note of the pass. *)
Lemma call_eval (model : @Sequential num) (images : list image) (w : world) :
  training model = false ->
  call model images w
  = match eval_layers (layers model) (Images images) with
    | Ok out => Ok ((out, model), noted 1 w)
    | Raise e => Raise e
    end.
Proof.
  intros Ht. unfold call. rewrite Ht.
  unfold bind at 1. simpl.
  unfold bind. rewrite forward_layers_eval.
  destruct (eval_layers _ _); [|reflexivity].
  unfold ret. destruct model as [ls tr]. simpl in *. subst tr. reflexivity.
Qed.

(** *** Eval mode treats the examples of a batch one by one *)

Lemma eval_layer_tcat (l : @layer num) (t1 t2 a b : tensor) :
  same_kind t1 t2 ->
  eval_layer l t1 = Ok a -> eval_layer l t2 = Ok b ->
  eval_layer l (tcat t1 t2) = Ok (tcat a b) /\ same_kind a b.
Proof.
  intros Hk E1 E2. unfold image in *.
  destruct l as [|W bias|gamma beta rm rv nbt| |p]; simpl in *.
  - destruct t1 as [x1|r1], t2 as [x2|r2]; simpl in *; try contradiction;
      inversion E1; inversion E2; subst; simpl; rewrite ?map_app; auto.
  - destruct t1 as [x1|r1], t2 as [x2|r2]; simpl in *; try contradiction.
    + destruct (rmap (rmap (rmap (linear_row W bias))) x1) as [y1|] eqn:R1; simpl in E1; [|discriminate].
      destruct (rmap (rmap (rmap (linear_row W bias))) x2) as [y2|] eqn:R2; simpl in E2; [|discriminate].
      inversion E1; inversion E2; subst. unfold image.
      rewrite (rmap_app_ok _ _ _ _ _ R1 R2). simpl. auto.
    + destruct (rmap (linear_row W bias) r1) as [y1|] eqn:R1; simpl in E1; [|discriminate].
      destruct (rmap (linear_row W bias) r2) as [y2|] eqn:R2; simpl in E2; [|discriminate].
      inversion E1; inversion E2; subst.
      rewrite (rmap_app_ok _ _ _ _ _ R1 R2). simpl. auto.
  - destruct t1 as [x1|r1], t2 as [x2|r2]; simpl in *; try contradiction;
      try discriminate.
    destruct (bn_shapes_ok gamma beta rm rv r1) eqn:S1; simpl in E1;
      [|discriminate].
    destruct (bn_shapes_ok gamma beta rm rv r2) eqn:S2; simpl in E2;
      [|discriminate].
    inversion E1; inversion E2; subst.
    assert (S12 : bn_shapes_ok gamma beta rm rv (r1 ++ r2) = true).
    { unfold bn_shapes_ok in *. rewrite forallb_app.
      apply andb_prop in S1. destruct S1 as [S1 F1].
      apply andb_prop in S2. destruct S2 as [_ F2].
      rewrite S1, F1, F2. reflexivity. }
    rewrite S12. simpl. rewrite map_app. auto.
  - destruct t1 as [x1|r1], t2 as [x2|r2]; simpl in *; try contradiction;
      inversion E1; inversion E2; subst; simpl;
      rewrite ?map_images_const, ?map_matrix_const, ?map_app; auto.
  - inversion E1; inversion E2; subst. auto.
Qed.

Lemma eval_layers_tcat (ls : list (@layer num)) (t1 t2 a b : tensor) :
  same_kind t1 t2 ->
  eval_layers ls t1 = Ok a -> eval_layers ls t2 = Ok b ->
  eval_layers ls (tcat t1 t2) = Ok (tcat a b).
Proof.
  revert t1 t2. induction ls as [|l ls IH]; intros t1 t2 Hk E1 E2; simpl in *.
  - inversion E1; inversion E2; subst. reflexivity.
  - destruct (eval_layer l t1) as [a1|] eqn:L1; simpl in E1; [|discriminate].
    destruct (eval_layer l t2) as [b1|] eqn:L2; simpl in E2; [|discriminate].
    destruct (eval_layer_tcat l t1 t2 a1 b1 Hk L1 L2) as [E Hk'].
    rewrite E. simpl. apply IH; assumption.
Qed.

Lemma scores_one_inv (ls : list (@layer num)) (img : image) (row : list num) :
  scores_one ls img = Ok row ->
  eval_layers ls (Images [img]) = Ok (Matrix [row]).
Proof.
  unfold scores_one. intros E.
  destruct (eval_layers ls (Images [img])) as [out|]; simpl in E;
    [|discriminate].
  destruct out as [xs|[|r [|r' rows]]]; try discriminate.
  inversion E. reflexivity.
Qed.

(** On a non-empty batch whose examples the module applies to, the output
    is the matrix of the examples' scores. *)
Lemma eval_layers_batch (ls : list (@layer num)) (xs : list image) :
  xs <> [] ->
  Forall (fun x => is_ok (scores_one ls x) = true) xs ->
  eval_layers ls (Images xs) = Ok (Matrix (map (example_scores ls) xs)).
Proof.
  intros Hne Hall. induction Hall as [|x xs Hx Hxs IH]; [contradiction|].
  assert (Ex : eval_layers ls (Images [x])
               = Ok (Matrix [example_scores ls x])).
  { unfold example_scores.
    destruct (scores_one ls x) as [row|] eqn:E; [|discriminate].
    apply scores_one_inv. exact E. }
  destruct xs as [|x' xs]; [exact Ex|].
  specialize (IH ltac:(discriminate)).
  change (Images (x :: x' :: xs)) with (tcat (Images [x]) (Images (x' :: xs))).
  rewrite (eval_layers_tcat ls (Images [x]) (Images (x' :: xs)) _ _ I Ex IH).
  reflexivity.
Qed.

End EvalMode.

(** ** Validation *)

Lemma batch_sampler_no_empty_batch {A} (bs : nat) (cur items : list A) :
  Forall (fun b => b <> []) (batch_sampler bs cur items).
Proof.
  revert cur. induction items as [|x items IH]; intros cur.
  - simpl. destruct cur; [constructor|].
    constructor; [|constructor].
    intros E. apply (f_equal (@length A)) in E.
    rewrite length_rev in E. discriminate.
  - rewrite batch_sampler_cons. destruct (_ =? _)%nat; [|apply IH].
    constructor; [|apply IH].
    intros E. apply (f_equal (@length A)) in E.
    rewrite length_rev in E. discriminate.
Qed.

Section Validation.

Context {num TorchGen PyGen Optimizer : Type}.
Context `{Numeric num} `{Runtime num TorchGen PyGen Optimizer}.
Abbreviation world := (@world num TorchGen PyGen).

Lemma logged_noted (c1 c2 : list wandb_call) (k1 k2 : nat) (w : world) :
  logged c2 (noted k2 (logged c1 (noted k1 w)))
  = logged (c1 ++ c2) (noted (k1 + k2) w).
Proof.
  unfold logged, noted. simpl.
  rewrite replicate_add, !app_assoc. reflexivity.
Qed.

Lemma logged_nil (w : world) : logged [] w = w.
Proof. unfold logged. rewrite app_nil_r. destruct w; reflexivity. Qed.

Lemma noted_0 (w : world) : noted 0 w = w.
Proof. unfold noted. simpl. rewrite app_nil_r. destruct w; reflexivity. Qed.

(** An unshuffled loader hands out [batches_of] and leaves the state
    alone. *)
Lemma iter_loader_unshuffled (dl : @DataLoader num) (w : world) :
  shuffle dl = false -> iter_loader dl w = Ok (batches_of dl, w).
Proof.
  intros Hs. unfold iter_loader. rewrite Hs.
  unfold bind, ret, lift. rewrite rmap_getitem_seq. reflexivity.
Qed.

Lemma count_equal_batch (ls : list (@layer num)) (batch : list (@sample num)) :
  count_equal (map (fun s => predicted_label ls (fst s)) batch)
              (map snd batch)
  = count_correct ls batch.
Proof.
  unfold count_equal, count_correct. f_equal. f_equal.
  induction batch as [|s batch IH]; simpl; [reflexivity|].
  unfold is_correct at 1.
  destruct (predicted_label ls (fst s) =? snd s); simpl; rewrite IH;
    reflexivity.
Qed.

Lemma count_correct_app (ls : list (@layer num)) (a b : list (@sample num)) :
  count_correct ls (a ++ b) = count_correct ls a + count_correct ls b.
Proof.
  unfold count_correct. rewrite List.filter_app, length_app. lia.
Qed.

Lemma count_correct_bounds (ls : list (@layer num)) (ds : list (@sample num)) :
  0 <= count_correct ls ds <= Z.of_nat (length ds).
Proof.
  unfold count_correct.
  pose proof (List.filter_length_le (is_correct ls) ds). lia.
Qed.

Lemma can_validate_scores (ls : list (@layer num)) (log_images : bool)
    (s : @sample num) :
  can_validate ls log_images s = true ->
  is_ok (scores_one ls (fst s)) = true
  /\ argmax (example_scores ls (fst s)) = Ok (predicted_label ls (fst s)).
Proof.
  unfold can_validate, predicted_label, example_scores. intros Hc.
  destruct (scores_one ls (fst s)) as [row|]; [|discriminate].
  split; [reflexivity|].
  destruct row as [|x row]; [discriminate|reflexivity].
Qed.

Lemma rmap_argmax_batch (ls : list (@layer num)) (log_images : bool)
    (batch : list (@sample num)) :
  Forall (fun s => can_validate ls log_images s = true) batch ->
  rmap argmax (map (fun s => example_scores ls (fst s)) batch)
  = Ok (map (fun s => predicted_label ls (fst s)) batch).
Proof.
  induction 1 as [|s batch Hs _ IH]; simpl; [reflexivity|].
  destruct (can_validate_scores ls log_images s Hs) as [_ ->].
  simpl. rewrite IH. reflexivity.
Qed.

(** Filling the predictions table goes through on examples that can be
    validated with [log_images] set, and adds their rows. *)
Lemma fill_table_ok (ls : list (@layer num)) (batch : list (@sample num)) :
  forall t : Table,
  length (columns t) = length table_columns ->
  Forall (fun s => can_validate ls true s = true) batch ->
  fill_table t (map fst batch)
    (map (fun s => predicted_label ls (fst s)) batch) (map snd batch)
    (map softmax_row (map (fun s => example_scores ls (fst s)) batch))
  = Ok {| columns := columns t;
          data := data t ++ map (table_row_of ls) batch |}.
Proof.
  induction batch as [|s batch IH]; intros t Hcol Hall.
  - simpl. rewrite app_nil_r. destruct t; reflexivity.
  - inversion Hall as [|? ? Hs Hrest]; subst.
    assert (Hrow : exists ch img,
               fst s = ch :: img
               /\ (3 + length (example_scores ls (fst s)))%nat
                  = length table_columns).
    { unfold can_validate in Hs. unfold example_scores.
      destruct (scores_one ls (fst s)) as [row|]; [|discriminate].
      apply andb_prop in Hs. destruct Hs as [_ Hs]. cbn [negb orb] in Hs.
      apply andb_prop in Hs. destruct Hs as [Himg Hr].
      apply Nat.eqb_eq in Hr.
      destruct (fst s) as [|ch img]; [discriminate|].
      exists ch, img. split; [reflexivity|exact Hr]. }
    destruct Hrow as (ch & img & Eimg & Hlen).
    cbn [map fill_table]. unfold table_row_of at 1. rewrite Eimg.
    unfold table_row.
    change (getitem (ch :: img) 0) with (@Ok (list (list num)) ch).
    cbn [rbind hd]. unfold add_data.
    replace (length _ =? length (columns t))%nat with true.
    2:{ symmetry. apply Nat.eqb_eq. rewrite Hcol, <- Hlen.
        rewrite length_app, length_map. unfold softmax_row.
        rewrite !length_map, Eimg. reflexivity. }
    cbn [rbind]. rewrite IH by (try exact Hrest; exact Hcol).
    cbn [columns data]. rewrite <- app_assoc. reflexivity.
Qed.

Lemma validate_batch_ok (ls : list (@layer num))
    (loss_func : @tensor num -> list Z -> num) (log_images : bool)
    (bidx i : Z) (batch : list (@sample num)) (s : valid_vars) (w : world) :
  batch <> [] ->
  layers (v_model s) = ls -> training (v_model s) = false ->
  Forall (fun x => can_validate ls log_images x = true) batch ->
  exists tbls,
    validate_batch loss_func log_images bidx (i, batch) s w
    = Ok ({| v_model := v_model s;
             val_loss := add_batch_loss ls loss_func (val_loss s) batch;
             correct := correct s + count_correct ls batch |},
          logged tbls (noted 1 w))
    /\ table_calls ((i =? bidx) && log_images) ls (Some batch) tbls.
Proof.
  intros Hne Hls Htr Hall.
  assert (Hscores : eval_layers ls (Images (map fst batch))
                    = Ok (batch_scores ls batch)).
  { rewrite eval_layers_batch.
    - unfold batch_scores. rewrite map_map. reflexivity.
    - destruct batch; [contradiction|discriminate].
    - apply Forall_map. eapply Forall_impl; [exact Hall|].
      intros x Hx. apply (can_validate_scores ls log_images x Hx). }
  unfold validate_batch. unfold bind at 1.
  rewrite call_eval by exact Htr. rewrite Hls, Hscores.
  unfold batch_scores at 2. simpl class_scores.
  unfold bind at 1. simpl lift.
  unfold bind at 1. rewrite (rmap_argmax_batch ls log_images batch Hall).
  simpl lift. cbv beta iota. rewrite count_equal_batch, length_map.
  destruct ((i =? bidx) && log_images) eqn:Hdue.
  - apply andb_prop in Hdue. destruct Hdue as [_ ->].
    exists [wandb_log {[ "predictions_table" :=
                           VTable (predictions_table ls batch) ]} false].
    split; [|exists batch; split; reflexivity].
    unfold log_image_table, bind, lift, emit, modify, ret.
    rewrite (fill_table_ok ls batch
               {| columns := table_columns; data := [] |} eq_refl Hall).
    reflexivity.
  - exists []. split; [|reflexivity].
    unfold bind, ret. rewrite logged_nil. reflexivity.
Qed.

Lemma validate_loop_ok (ls : list (@layer num))
    (loss_func : @tensor num -> list Z -> num) (log_images : bool)
    (bidx : Z) (batches : list (list (@sample num))) :
  forall (i : Z) (s : valid_vars) (w : world),
  Forall (fun b => b <> []) batches ->
  layers (v_model s) = ls -> training (v_model s) = false ->
  Forall (Forall (fun x => can_validate ls log_images x = true)) batches ->
  exists tbls,
    for_each (enumerate_from i batches)
             (validate_batch loss_func log_images bidx) s w
    = Ok ({| v_model := v_model s;
             val_loss := fold_left (add_batch_loss ls loss_func) batches
                                   (val_loss s);
             correct := correct s + count_correct ls (concat batches) |},
          logged tbls (noted (length batches) w))
    /\ table_calls (log_images && (i <=? bidx)
                    && (bidx <? i + Z.of_nat (length batches)))
                   ls (batches !! Z.to_nat (bidx - i)) tbls.
Proof.
  induction batches as [|b batches IH]; intros i s w Hne Hls Htr Hall.
  - exists []. simpl. split.
    + unfold ret. rewrite noted_0, logged_nil, Z.add_0_r.
      destruct s; reflexivity.
    + unfold table_calls. destruct log_images; simpl; [|reflexivity].
      destruct (Z.leb_spec i bidx); simpl; [|reflexivity].
      destruct (Z.ltb_spec bidx (i + Z.of_nat 0)); [lia|reflexivity].
  - inversion Hne as [|? ? Hb Hbs]; subst.
    inversion Hall as [|? ? Ab Abs]; subst.
    destruct (validate_batch_ok (layers (v_model s)) loss_func log_images
                bidx i b s w Hb eq_refl Htr Ab) as (t1 & E1 & T1).
    set (s1 := {| v_model := v_model s;
                  val_loss := add_batch_loss (layers (v_model s)) loss_func
                                             (val_loss s) b;
                  correct := correct s
                             + count_correct (layers (v_model s)) b |}) in *.
    destruct (IH (i + 1) s1 (logged t1 (noted 1 w)) Hbs eq_refl Htr Abs)
      as (t2 & E2 & T2).
    exists (t1 ++ t2). split.
    + cbn [for_each enumerate_from]. unfold bind. rewrite E1, E2.
      rewrite logged_noted. f_equal. f_equal.
      subst s1. simpl. rewrite count_correct_app. f_equal. lia.
    + simpl length. rewrite Nat2Z.inj_succ.
      unfold table_calls in *.
      destruct log_images; simpl in *.
      2:{ rewrite andb_false_r in T1. subst. reflexivity. }
      rewrite andb_true_r in T1.
      destruct (Z.eqb_spec i bidx) as [->|Hneq].
      * destruct (Z.leb_spec bidx bidx); [|lia].
        destruct (Z.ltb_spec bidx (bidx + Z.succ (Z.of_nat (length batches))));
          [|lia].
        destruct (Z.leb_spec (bidx + 1) bidx); [lia|].
        simpl in *. subst t2. rewrite app_nil_r, Z.sub_diag.
        destruct T1 as (b0 & Eb0 & ->). inversion Eb0; subst b0.
        exists b. split; reflexivity.
      * subst t1. simpl.
        destruct (Z.leb_spec i bidx), (Z.leb_spec (i + 1) bidx); try lia;
          simpl in *.
        -- destruct (Z.ltb_spec bidx (i + 1 + Z.of_nat (length batches))),
             (Z.ltb_spec bidx (i + Z.succ (Z.of_nat (length batches))));
             try lia; try exact T2.
           destruct T2 as (b0 & Eb0 & ->). exists b0. split; [|reflexivity].
           replace (Z.to_nat (bidx - i)) with (S (Z.to_nat (bidx - (i + 1))))
             by lia.
           exact Eb0.
        -- exact T2.
Qed.

Lemma validate_model_ok (model : @Sequential num) (dl : DataLoader)
    (loss_func : @tensor num -> list Z -> num) (log_images : bool)
    (bidx : option Z) (w : world) :
  shuffle dl = false -> dataset dl <> [] ->
  Forall (fun x => can_validate (layers model) log_images x = true)
         (dataset dl) ->
  exists tbls acc,
    validate_model model dl loss_func log_images bidx w
    = Ok ((fdiv (weighted_loss_sum (layers model) loss_func (batches_of dl))
                (of_int (Z.of_nat (length (dataset dl)))),
           acc, set_training false model),
          after_validation tbls (length (batches_of dl)) w)
    /\ Float64.int_truediv (count_correct (layers model) (dataset dl))
                           (Z.of_nat (length (dataset dl))) = Ok acc
    /\ table_calls (log_images && (0 <=? default 0 bidx)
                    && (default 0 bidx
                        <? 0 + Z.of_nat (length (batches_of dl))))
                   (layers model)
                   (batches_of dl !! Z.to_nat (default 0 bidx - 0)) tbls.
Proof.
  intros Hsh Hne Hall.
  set (w0 := {| wandb_calls := wandb_calls w; torch_gen := torch_gen w;
                py_gen := py_gen w; grad_enabled := false;
                forward_modes := forward_modes w |}).
  destruct (validate_loop_ok (layers model) loss_func log_images
              (default 0 bidx) (batches_of dl) 0
              {| v_model := set_training false model; val_loss := zero;
                 correct := 0 |} w0)
    as (tbls & Eloop & Htbl).
  { apply batch_sampler_no_empty_batch. }
  { reflexivity. }
  { reflexivity. }
  { apply batch_sampler_Forall. exact Hall. }
  assert (Hn : (Z.of_nat (length (dataset dl)) =? 0) = false).
  { destruct (dataset dl); [contradiction|]. reflexivity. }
  exists tbls. eexists. split; [|split; [|exact Htbl]].
  - unfold validate_model. unfold bind at 1.
    unfold inference_mode. unfold bind at 1. unfold get.
    unfold bind at 1. unfold set_grad_enabled at 1, modify at 1.
    fold w0. unfold bind at 1. unfold bind at 1.
    rewrite iter_loader_unshuffled by exact Hsh.
    unfold enumerate. rewrite Eloop.
    unfold bind at 1. unfold set_grad_enabled, modify. unfold ret at 1.
    cbn [correct val_loss v_model]. rewrite Hn.
    unfold Float64.int_truediv. rewrite Hn.
    unfold bind, lift, ret. unfold batches_of at 2.
    rewrite batch_sampler_concat. simpl rev. rewrite app_nil_l.
    reflexivity.
  - unfold Float64.int_truediv. rewrite Hn. reflexivity.
Qed.

(** *** What a validation run leaves behind, whatever its outcome *)

Lemma iter_loader_frame (dl : @DataLoader num) (w w' : world)
    (bs : list (list (@sample num))) :
  iter_loader dl w = Ok (bs, w') ->
  wandb_calls w' = wandb_calls w /\ grad_enabled w' = grad_enabled w
  /\ forward_modes w' = forward_modes w /\ py_gen w' = py_gen w.
Proof.
  unfold iter_loader, bind, with_torch_gen, ret, lift. intros E.
  destruct (shuffle dl).
  - destruct (randperm _ _) as [idx g].
    destruct (rmap _ idx); inversion E; subst; simpl; auto.
  - destruct (rmap _ _); inversion E; subst; simpl; auto.
Qed.

Lemma validate_batch_frame (loss_func : @tensor num -> list Z -> num)
    (log_images : bool) (bidx : Z) (item : Z * list (@sample num))
    (s s' : valid_vars) (w w' : world) :
  training (v_model s) = false ->
  validate_batch loss_func log_images bidx item s w = Ok (s', w') ->
  v_model s' = v_model s
  /\ grad_enabled w' = grad_enabled w
  /\ forward_modes w' = forward_modes w ++ [grad_enabled w]
  /\ torch_gen w' = torch_gen w /\ py_gen w' = py_gen w.
Proof.
  intros Htr E. destruct item as [i batch].
  unfold validate_batch in E. unfold bind at 1 in E.
  rewrite call_eval in E by exact Htr.
  destruct (eval_layers _ _) as [out|]; [|discriminate].
  unfold bind at 1 in E. destruct (class_scores out) as [scores|];
    simpl in E; [|discriminate].
  unfold bind at 1 in E. destruct (rmap argmax scores) as [pred|];
    simpl in E; [|discriminate].
  unfold bind in E.
  destruct ((i =? bidx) && log_images).
  - unfold log_image_table, bind, lift, emit, modify, ret in E.
    destruct (fill_table _ _ _ _ _); inversion E; subst; simpl; auto.
  - unfold ret in E. inversion E; subst; simpl; auto.
Qed.

Lemma validate_loop_frame (loss_func : @tensor num -> list Z -> num)
    (log_images : bool) (bidx : Z) (items : list (Z * list (@sample num))) :
  forall (s s' : valid_vars) (w w' : world),
  training (v_model s) = false ->
  for_each items (validate_batch loss_func log_images bidx) s w
  = Ok (s', w') ->
  v_model s' = v_model s
  /\ grad_enabled w' = grad_enabled w
  /\ forward_modes w'
     = forward_modes w ++ replicate (length items) (grad_enabled w)
  /\ torch_gen w' = torch_gen w /\ py_gen w' = py_gen w.
Proof.
  induction items as [|item items IH]; intros s s' w w' Htr E; simpl in E.
  - inversion E; subst. simpl. rewrite app_nil_r. auto.
  - unfold bind in E.
    destruct (validate_batch _ _ _ item s w) as [[s1 w1]|] eqn:E1;
      [|discriminate].
    destruct (validate_batch_frame _ _ _ _ _ _ _ _ Htr E1)
      as (M1 & G1 & F1 & T1 & P1).
    destruct (IH s1 s' w1 w' ltac:(rewrite M1; exact Htr) E)
      as (M2 & G2 & F2 & T2 & P2).
    repeat split; try congruence.
    rewrite F2, F1, G1. simpl. rewrite <- app_assoc. reflexivity.
Qed.

Lemma validate_model_frame (model model' : @Sequential num) (dl : DataLoader)
    (loss_func : @tensor num -> list Z -> num) (log_images : bool)
    (bidx : option Z) (r : num * Float64.float) (w w' : world) :
  validate_model model dl loss_func log_images bidx w = Ok ((r, model'), w') ->
  model' = set_training false model
  /\ grad_enabled w' = grad_enabled w
  /\ (exists k, forward_modes w' = forward_modes w ++ replicate k false)
  /\ py_gen w' = py_gen w.
Proof.
  unfold validate_model. intros E. unfold bind at 1 in E.
  match type of E with
  | match ?c w with _ => _ end = _ => destruct (c w) as [[s w1]|] eqn:Ei
  end; [|discriminate].
  unfold inference_mode in Ei. unfold bind at 1, get in Ei.
  unfold bind at 1 in Ei. unfold set_grad_enabled at 1, modify at 1 in Ei.
  unfold bind at 1 in Ei. unfold bind at 1 in Ei.
  match type of Ei with
  | match match iter_loader dl ?w0 with _ => _ end with _ => _ end = _ =>
      set (wi := w0) in *; destruct (iter_loader dl wi) as [[bs w2]|] eqn:El
  end; [|discriminate].
  destruct (iter_loader_frame dl wi w2 bs El) as (_ & G2 & F2 & P2).
  match type of Ei with
  | match ?c with _ => _ end = _ => destruct c as [[s2 w3]|] eqn:Ev
  end; [|discriminate].
  apply validate_loop_frame in Ev as (M3 & G3 & F3 & T3 & P3);
    [|reflexivity].
  unfold bind, set_grad_enabled, modify, ret in Ei.
  inversion Ei; subst s w1. clear Ei.
  destruct (_ =? 0); [discriminate|].
  unfold bind, lift, ret in E.
  destruct (Float64.int_truediv _ _); inversion E; subst.
  simpl. rewrite M3. repeat split.
  - eexists. rewrite F3, F2, G2. subst wi. simpl. reflexivity.
  - rewrite P3, P2. reflexivity.
Qed.

Lemma forallb_Forall_true {A} (f : A -> bool) (l : list A) :
  forallb f l = true -> Forall (fun x => f x = true) l.
Proof.
  intros Hf. apply List.Forall_forall. intros x Hx.
  rewrite forallb_forall in Hf. apply Hf. exact Hx.
Qed.

(** C1. On a validation loader, [validate_model] returns as mean loss the
    sum over the batches of (batch loss times batch size), divided by the
    number of examples of the validation dataset, which is also the sum of
    the batch sizes; the number of batches plays no part. *)
Theorem validate_model_mean_loss (model : @Sequential num)
    (valid_dl : DataLoader) (loss_func : @tensor num -> list Z -> num)
    (log_images : bool) (batch_idx : option Z) (w : world) :
  shuffle valid_dl = false ->
  (0 < length (dataset valid_dl))%nat ->
  forallb (can_validate (layers model) log_images) (dataset valid_dl) = true ->
  exists accuracy model' w',
    validate_model model valid_dl loss_func log_images batch_idx w
    = Ok ((fdiv (weighted_loss_sum (layers model) loss_func
                                   (batches_of valid_dl))
                (of_int (Z.of_nat (length (dataset valid_dl)))),
           accuracy, model'), w')
    /\ length (concat (batches_of valid_dl)) = length (dataset valid_dl).
Proof.
  intros Hsh Hlen Hall.
  destruct (validate_model_ok model valid_dl loss_func log_images batch_idx w
              Hsh) as (tbls & acc & E & _).
  { destruct (dataset valid_dl); [simpl in Hlen; lia|discriminate]. }
  { apply forallb_Forall_true. exact Hall. }
  exists acc, (set_training false model),
         (after_validation tbls (length (batches_of valid_dl)) w).
  split; [exact E|].
  unfold batches_of. rewrite batch_sampler_concat. reflexivity.
Qed.


(** C7. Whenever [validate_model] returns, the module it hands back has the
    layers, hence the parameters and the buffers, of the module it was
    given; every forward pass it made ran with gradient computation
    disabled, and the gradient mode is afterwards what it was before. *)
Theorem validate_model_keeps_parameters (model model' : @Sequential num)
    (valid_dl : DataLoader) (loss_func : @tensor num -> list Z -> num)
    (log_images : bool) (batch_idx : option Z) (r : num * Float64.float)
    (w w' : world) :
  validate_model model valid_dl loss_func log_images batch_idx w
  = Ok ((r, model'), w') ->
  parameters model' = parameters model
  /\ buffers model' = buffers model
  /\ (exists k, forward_modes w' = forward_modes w ++ replicate k false)
  /\ grad_enabled w' = grad_enabled w.
Proof.
  intros E.
  destruct (validate_model_frame _ _ _ _ _ _ _ _ _ E) as (-> & G & F & _).
  repeat split; [exact F|exact G].
Qed.

End Validation.

(** ** Shapes: the model of [get_model] and its forward pass *)

Section Shapes.

Context {num TorchGen PyGen Optimizer : Type}.
Context `{Numeric num} `{Runtime num TorchGen PyGen Optimizer}.
Abbreviation world := (@world num TorchGen PyGen).

Lemma length_tabulate {A} (n : nat) (f : nat -> A) :
  length (tabulate n f) = n.
Proof. unfold tabulate. rewrite length_map, length_seq. reflexivity. Qed.

Lemma forallb_tabulate {A} (p : A -> bool) (n : nat) (f : nat -> A) :
  (forall i, p (f i) = true) -> forallb p (tabulate n f) = true.
Proof.
  intros Hp. apply forallb_forall. intros x Hx.
  unfold tabulate in Hx. apply in_map_iff in Hx.
  destruct Hx as (i & <- & _). apply Hp.
Qed.

Lemma length_imap_rows {A B} (f : nat -> A -> B) (l : list A) :
  length (imap f l) = length l.
Proof. apply length_imap. Qed.

Lemma set_torch_gen_same (w : world) : set_torch_gen (torch_gen w) w = w.
Proof. destruct w; reflexivity. Qed.

Lemma set_torch_gen_twice (g1 g2 : TorchGen) (w : world) :
  set_torch_gen g2 (set_torch_gen g1 w) = set_torch_gen g2 w.
Proof. reflexivity. Qed.

(** *** Construction *)

Lemma mk_Linear_spec (i o : nat) (w : world) :
  exists l g,
    mk_Linear i o w = Ok (l, set_torch_gen g w)
    /\ has_sig l (SLinear i o) = true.
Proof.
  unfold mk_Linear, bind, with_torch_gen, ret. simpl.
  destruct (init_values (torch_gen w) o i) as [fw g1].
  simpl. destruct (init_values g1 1%nat o) as [fb g2].
  eexists. exists g2. split; [reflexivity|].
  unfold has_sig. rewrite !length_tabulate, !Nat.eqb_refl.
  rewrite forallb_tabulate; [reflexivity|].
  intros k. rewrite length_tabulate. apply Nat.eqb_refl.
Qed.

Lemma mk_BatchNorm1d_spec (n : nat) :
  has_sig (@mk_BatchNorm1d num _ n) (SBatchNorm1d n) = true.
Proof.
  unfold mk_BatchNorm1d, has_sig.
  rewrite !length_replicate, !Nat.eqb_refl. reflexivity.
Qed.

Lemma get_model_spec (p : Float64.float) (w : world) :
  0 <= p <= Float64.one ->
  exists model g,
    get_model p w = Ok (model, set_torch_gen g w)
    /\ has_architecture (layers model) (mlp_architecture p) = true
    /\ training model = true.
Proof.
  intros Hp. unfold get_model.
  destruct (mk_Linear_spec (28 * 28) 256 w) as (fc1 & g1 & E1 & S1).
  destruct (mk_Linear_spec 256 10 (set_torch_gen g1 w)) as (fc2 & g2 & E2 & S2).
  eexists. exists g2. split; [|split].
  - unfold bind at 1. rewrite E1.
    unfold bind at 1. unfold mk_Dropout.
    destruct (Z.ltb_spec p 0); [lia|].
    destruct (Z.ltb_spec Float64.one p); [lia|].
    simpl lift. cbv beta iota.
    unfold bind. rewrite E2. unfold ret. reflexivity.
  - cbn [layers has_architecture mlp_architecture].
    rewrite S1, S2, mk_BatchNorm1d_spec.
    cbn [has_sig]. rewrite Z.eqb_refl. reflexivity.
  - reflexivity.
Qed.


(** *** The layers, shape by shape *)

Lemma linear_matrix_ok (W : list (list num)) (b : list num) (i o : nat)
    (rows : list (list num)) :
  has_sig (Linear W b) (SLinear i o) = true ->
  Forall (fun r => length r = i) rows ->
  exists rows',
    linear W b (Matrix rows) = Ok (Matrix rows')
    /\ length rows' = length rows
    /\ Forall (fun r => length r = o) rows'.
Proof.
  cbn [has_sig]. intros Hs Hrows.
  apply andb_prop in Hs. destruct Hs as [Hs Hb].
  apply andb_prop in Hs. destruct Hs as [HW HWr].
  apply Nat.eqb_eq in Hb, HW.
  exists (map (fun x => zip_with (fun w bj => fadd (dot x w) bj) W b) rows).
  split; [|split].
  - unfold linear. rewrite (rmap_ok _
      (fun x => zip_with (fun w bj => fadd (dot x w) bj) W b)); [reflexivity|].
    eapply Forall_impl; [exact Hrows|]. intros x Hx. unfold linear_row.
    replace (forallb _ W) with true.
    + rewrite Hb, HW, Nat.eqb_refl. reflexivity.
    + symmetry. apply forallb_forall. intros r Hr.
      rewrite forallb_forall in HWr. rewrite Hx. apply HWr. exact Hr.
  - rewrite length_map. reflexivity.
  - apply Forall_map. apply Forall_true. intros x.
    rewrite length_zip_with. lia.
Qed.

Lemma map_matrix_shape (f : list nat -> num -> num) (n : nat)
    (rows : list (list num)) :
  Forall (fun r => length r = n) rows ->
  length (map_matrix f rows) = length rows
  /\ Forall (fun r => length r = n) (map_matrix f rows).
Proof.
  intros Hrows. unfold map_matrix. split; [apply length_imap|].
  apply Forall_lookup. intros k r Hr.
  rewrite list_lookup_imap in Hr.
  destruct (rows !! k) as [r0|] eqn:E; [|discriminate].
  inversion Hr; subst. rewrite length_imap.
  rewrite Forall_lookup in Hrows. eapply Hrows. exact E.
Qed.

Lemma normalize_rows_shape (means vars gamma beta : list num) (n : nat)
    (rows : list (list num)) :
  Forall (fun r => length r = n) rows ->
  Forall (fun r => length r = n) (map (normalize means vars gamma beta) rows).
Proof.
  intros Hrows. apply Forall_map. eapply Forall_impl; [exact Hrows|].
  intros r Hr. unfold normalize. rewrite length_imap. exact Hr.
Qed.

Lemma bn_shapes_ok_true (gamma beta rm rv : list num) (n : nat)
    (rows : list (list num)) :
  has_sig (BatchNorm1d gamma beta rm rv 0) (SBatchNorm1d n) = true ->
  Forall (fun r => length r = n) rows ->
  bn_shapes_ok gamma beta rm rv rows = true.
Proof.
  cbn [has_sig]. intros Hs Hrows.
  apply andb_prop in Hs. destruct Hs as [Hs Hrv].
  apply andb_prop in Hs. destruct Hs as [Hs Hrm].
  apply andb_prop in Hs. destruct Hs as [Hg Hb].
  apply Nat.eqb_eq in Hg, Hb, Hrm, Hrv.
  unfold bn_shapes_ok. rewrite Hg, Hb, Hrm, Hrv, !Nat.eqb_refl.
  apply forallb_forall. intros r Hr.
  rewrite List.Forall_forall in Hrows. rewrite (Hrows r Hr).
  apply Nat.eqb_refl.
Qed.

Lemma batch_norm_ok (train : bool) (gamma beta rm rv : list num) (nbt : Z)
    (n : nat) (rows : list (list num)) :
  has_sig (BatchNorm1d gamma beta rm rv nbt) (SBatchNorm1d n) = true ->
  Forall (fun r => length r = n) rows ->
  (train = true -> length rows <> 1%nat) ->
  exists rows' l',
    batch_norm train gamma beta rm rv nbt (Matrix rows)
    = Ok (Matrix rows', l')
    /\ has_sig l' (SBatchNorm1d n) = true
    /\ length rows' = length rows
    /\ Forall (fun r => length r = n) rows'
    /\ (train = false -> l' = BatchNorm1d gamma beta rm rv nbt).
Proof.
  intros Hs Hrows Hone.
  pose proof (bn_shapes_ok_true gamma beta rm rv n rows Hs Hrows) as Hok.
  unfold batch_norm. rewrite Hok. simpl negb.
  destruct train.
  - destruct (Nat.eqb_spec (length rows) 1) as [E|_];
      [exfalso; apply Hone; auto|].
    do 2 eexists. split; [reflexivity|].
    split; [|split; [|split]].
    + cbn [has_sig] in Hs |- *.
      apply andb_prop in Hs. destruct Hs as [Hs Hrv].
      apply andb_prop in Hs. destruct Hs as [Hs Hrm].
      rewrite Hs. apply Nat.eqb_eq in Hrm, Hrv.
      unfold ema. rewrite !length_zip_with, !length_map, !length_zip_with,
        !length_map, !length_tabulate.
      rewrite Hrm, Hrv, !Nat.min_id, !Nat.eqb_refl. reflexivity.
    + rewrite length_map. reflexivity.
    + apply normalize_rows_shape. exact Hrows.
    + discriminate.
  - do 2 eexists. split; [reflexivity|].
    split; [exact Hs|]. split; [rewrite length_map; reflexivity|].
    split; [apply normalize_rows_shape; exact Hrows|]. reflexivity.
Qed.

Lemma forward_layers_cons (train : bool) (l l1 : @layer num)
    (ls ls2 : list layer) (t t1 t2 : tensor) (w w1 w2 : world) :
  forward_layer train l t w = Ok ((t1, l1), w1) ->
  forward_layers train ls t1 w1 = Ok ((t2, ls2), w2) ->
  forward_layers train (l :: ls) t w = Ok ((t2, l1 :: ls2), w2).
Proof.
  intros E1 E2. cbn [forward_layers]. unfold bind at 1. rewrite E1.
  unfold bind. rewrite E2. reflexivity.
Qed.

(** *** The whole model *)

Lemma mlp_inv (ls : list (@layer num)) (p : Float64.float) :
  has_architecture ls (mlp_architecture p) = true ->
  exists W1 b1 gamma beta rm rv nbt W2 b2,
    ls = [Flatten; Linear W1 b1; BatchNorm1d gamma beta rm rv nbt; ReLU;
          Dropout p; Linear W2 b2]
    /\ has_sig (Linear W1 b1) (SLinear (28 * 28) 256) = true
    /\ has_sig (BatchNorm1d gamma beta rm rv nbt) (SBatchNorm1d 256) = true
    /\ has_sig (Linear W2 b2) (SLinear 256 10) = true.
Proof.
  unfold mlp_architecture. intros Ha.
  destruct ls as [|l1 ls]; [discriminate|].
  cbn [has_architecture] in Ha. apply andb_prop in Ha. destruct Ha as [S1 Ha].
  destruct l1; try discriminate.
  destruct ls as [|l2 ls]; [discriminate|].
  cbn [has_architecture] in Ha. apply andb_prop in Ha. destruct Ha as [S2 Ha].
  destruct l2 as [|W1 b1| | |]; try discriminate.
  destruct ls as [|l3 ls]; [discriminate|].
  cbn [has_architecture] in Ha. apply andb_prop in Ha. destruct Ha as [S3 Ha].
  destruct l3 as [| |gamma beta rm rv nbt| |]; try discriminate.
  destruct ls as [|l4 ls]; [discriminate|].
  cbn [has_architecture] in Ha. apply andb_prop in Ha. destruct Ha as [S4 Ha].
  destruct l4; try discriminate.
  destruct ls as [|l5 ls]; [discriminate|].
  cbn [has_architecture] in Ha. apply andb_prop in Ha. destruct Ha as [S5 Ha].
  destruct l5 as [| | | |q]; try discriminate.
  destruct ls as [|l6 ls]; [discriminate|].
  cbn [has_architecture] in Ha. apply andb_prop in Ha. destruct Ha as [S6 Ha].
  destruct l6 as [|W2 b2| | |]; try discriminate.
  destruct ls; [|discriminate].
  cbn [has_sig] in S5. apply Z.eqb_eq in S5. subst q.
  exists W1, b1, gamma, beta, rm, rv, nbt, W2, b2. auto.
Qed.

Lemma dropout_ok (train : bool) (p : Float64.float) (n : nat)
    (rows : list (list num)) (w : world) :
  Forall (fun r => length r = n) rows ->
  exists rows' g,
    forward_layer train (Dropout p) (Matrix rows) w
    = Ok ((Matrix rows', Dropout p), set_torch_gen g w)
    /\ length rows' = length rows
    /\ Forall (fun r => length r = n) rows'
    /\ (train = false -> g = torch_gen w).
Proof.
  intros Hrows. cbn [forward_layer]. unfold dropout. destruct train.
  - unfold bind, with_torch_gen, ret.
    destruct (bernoulli_mask (torch_gen w) p) as [keep g].
    cbn [map_tensor].
    do 2 eexists. split; [reflexivity|].
    destruct (map_matrix_shape
      (fun idx x => if p =? Float64.one then zero
                    else if keep idx
                         then fdiv x (of_float (1 - Float64.to_Q p))
                         else zero) n rows Hrows) as [L F].
    split; [exact L|]. split; [exact F|]. discriminate.
  - unfold bind, ret. exists rows, (torch_gen w).
    rewrite set_torch_gen_same. auto.
Qed.

(** The forward pass of a module with the architecture of [get_model], on
    a batch of 28x28 images: one row of ten scores per image.  In training
    mode the batch must not consist of a single image. *)
Lemma forward_mlp (train : bool) (ls : list (@layer num)) (p : Float64.float)
    (images : list (@image num)) (w : world) :
  has_architecture ls (mlp_architecture p) = true ->
  forallb is_28x28 images = true ->
  (train = true -> length images <> 1%nat) ->
  exists rows ls' g,
    forward_layers train ls (Images images) w
    = Ok ((Matrix rows, ls'), set_torch_gen g w)
    /\ has_architecture ls' (mlp_architecture p) = true
    /\ length rows = length images
    /\ Forall (fun r => length r = 10%nat) rows
    /\ (train = false -> ls' = ls /\ g = torch_gen w).
Proof.
  intros Ha Himg Hone.
  destruct (mlp_inv ls p Ha)
    as (W1 & b1 & gamma & beta & rm & rv & nbt & W2 & b2 & -> & S1 & S2 & S3).
  assert (F0 : Forall (fun r => length r = (28 * 28)%nat)
                      (map flatten_image images)).
  { apply Forall_map. apply forallb_Forall_true in Himg.
    eapply Forall_impl; [exact Himg|]. intros img Hi.
    apply Nat.eqb_eq. exact Hi. }
  destruct (linear_matrix_ok W1 b1 _ _ _ S1 F0) as (rows1 & E1 & L1 & F1).
  destruct (batch_norm_ok train gamma beta rm rv nbt 256 rows1 S2 F1)
    as (rows2 & bn' & E2 & S2' & L2 & F2 & K2).
  { intros Ht. rewrite L1, length_map. apply Hone. exact Ht. }
  destruct (map_matrix_shape (fun _ => relu) 256 rows2 F2) as [L3 F3].
  destruct (dropout_ok train p 256 _ w F3) as (rows4 & g & E4 & L4 & F4 & K4).
  destruct (linear_matrix_ok W2 b2 _ _ _ S3 F4) as (rows5 & E5 & L5 & F5).
  exists rows5, [Flatten; Linear W1 b1; bn'; ReLU; Dropout p; Linear W2 b2], g.
  split; [|split; [|split; [|split]]].
  - eapply forward_layers_cons; [reflexivity|].
    eapply forward_layers_cons.
    { cbn [forward_layer flatten]. unfold bind, lift, ret. rewrite E1.
      reflexivity. }
    eapply forward_layers_cons.
    { cbn [forward_layer]. unfold lift. rewrite E2. reflexivity. }
    eapply forward_layers_cons; [reflexivity|].
    cbn [map_tensor].
    eapply forward_layers_cons; [exact E4|].
    eapply forward_layers_cons.
    { cbn [forward_layer]. unfold bind, lift, ret. rewrite E5. reflexivity. }
    reflexivity.
  - cbn [has_architecture mlp_architecture]. rewrite S1, S2', S3.
    cbn [has_sig]. rewrite Z.eqb_refl. reflexivity.
  - rewrite L5, L4, L3, L2, L1, length_map. reflexivity.
  - exact F5.
  - intros Ht. rewrite (K2 Ht), (K4 Ht). auto.
Qed.

(** A module with that architecture can validate every 28x28 example. *)
Lemma can_validate_mlp (ls : list (@layer num)) (p : Float64.float)
    (log_images : bool) (s : @sample num) (w : world) :
  has_architecture ls (mlp_architecture p) = true ->
  is_28x28 (fst s) = true ->
  can_validate ls log_images s = true
  /\ length (example_scores ls (fst s)) = 10%nat.
Proof.
  intros Ha Hi.
  destruct (forward_mlp false ls p [fst s] w Ha)
    as (rows & ls' & g & E & _ & L & F & _).
  { simpl. rewrite Hi. reflexivity. }
  { discriminate. }
  rewrite forward_layers_eval in E.
  destruct (eval_layers ls (Images [fst s])) as [out|] eqn:Ee; [|discriminate].
  injection E as Eout Els Ew. clear Els Ew. subst out.
  destruct rows as [|row [|row' rows]]; try discriminate.
  assert (Hrow : length row = 10%nat) by (inversion F; assumption).
  assert (Es : scores_one ls (fst s) = Ok row)
    by (unfold scores_one; rewrite Ee; reflexivity).
  unfold can_validate, example_scores. rewrite Es, Hrow.
  split; [|reflexivity].
  assert (Hne : (length (fst s) =? 0)%nat = false).
  { destruct (fst s) as [|ch img]; [|reflexivity].
    unfold is_28x28, flatten_image in Hi. simpl in Hi. discriminate. }
  rewrite Hne. destruct log_images; reflexivity.
Qed.

Lemma call_mlp (model : @Sequential num) (p : Float64.float)
    (images : list (@image num)) (w : world) :
  has_architecture (layers model) (mlp_architecture p) = true ->
  forallb is_28x28 images = true ->
  (training model = true -> length images <> 1%nat) ->
  exists rows model' g,
    call model images w
    = Ok ((Matrix rows, model'), set_torch_gen g (noted 1 w))
    /\ has_architecture (layers model') (mlp_architecture p) = true
    /\ training model' = training model
    /\ length rows = length images
    /\ Forall (fun r => length r = 10%nat) rows.
Proof.
  intros Ha Hi Hone.
  destruct (forward_mlp (training model) (layers model) p images (noted 1 w)
              Ha Hi Hone) as (rows & ls' & g & E & Ha' & L & F & _).
  exists rows, {| layers := ls'; training := training model |}, g.
  split; [|auto].
  unfold call, bind, note_forward, modify.
  change ({| wandb_calls := wandb_calls w; torch_gen := torch_gen w;
             py_gen := py_gen w; grad_enabled := grad_enabled w;
             forward_modes := forward_modes w ++ [grad_enabled w] |})
    with (noted 1 w).
  rewrite E. reflexivity.
Qed.

(** C5. For a dropout probability [p] in [[0, 1)], [get_model] returns a
    module made of, in this order, a flattening layer, an affine layer from
    28 * 28 inputs to 256 outputs, a batch normalization over 256 features,
    a ReLU, a dropout with rate [p] and an affine layer from 256 inputs to
    10 outputs; applied to a batch of 28x28 images it yields exactly ten
    logits per image (in training mode the batch must not consist of a
    single image). *)
Theorem get_model_architecture (p : Float64.float) (w : world) :
  0 <= p < Float64.one ->
  exists model w',
    get_model p w = Ok (model, w')
    /\ has_architecture (layers model)
         [SFlatten; SLinear (28 * 28) 256; SBatchNorm1d 256; SReLU;
          SDropout p; SLinear 256 10] = true
    /\ forall (train : bool) (images : list (@image num)) (w1 : world),
         forallb is_28x28 images = true ->
         (train = true -> length images <> 1%nat) ->
         exists logits model' w2,
           call (set_training train model) images w1
           = Ok ((Matrix logits, model'), w2)
           /\ length logits = length images
           /\ Forall (fun row => length row = 10%nat) logits.
Proof.
  intros Hp.
  destruct (get_model_spec p w ltac:(lia)) as (model & g & E & Ha & Ht).
  exists model, (set_torch_gen g w). split; [exact E|]. split; [exact Ha|].
  intros train images w1 Hi Hone.
  destruct (call_mlp (set_training train model) p images w1 Ha Hi Hone)
    as (rows & model' & g' & Ec & _ & _ & L & F).
  exists rows, model', (set_torch_gen g' (noted 1 w1)). auto.
Qed.

End Shapes.
(** ** Training *)

Lemma forallb_imap {A B} (p : B -> bool) (q : A -> bool)
    (f : nat -> A -> B) (l : list A) :
  (forall k x, p (f k x) = q x) -> forallb p (imap f l) = forallb q l.
Proof.
  revert f. induction l as [|x l IH]; intros f Hf; simpl; [reflexivity|].
  rewrite Hf. f_equal. apply IH. intros k y. apply Hf.
Qed.

Lemma forallb_fmap {A B} (p : B -> bool) (f : A -> B) (l : list A) :
  forallb p (map f l) = forallb (fun x => p (f x)) l.
Proof.
  induction l as [|x l IH]; simpl; [reflexivity|]. rewrite IH. reflexivity.
Qed.

Section Training.

Context {num TorchGen PyGen Optimizer : Type}.
Context `{Numeric num} `{Runtime num TorchGen PyGen Optimizer}.
Abbreviation world := (@world num TorchGen PyGen).

Lemma extends_refl (w : world) : extends [] w w.
Proof. unfold extends. rewrite app_nil_r. auto. Qed.

Lemma extends_trans (c1 c2 : list wandb_call) (w1 w2 w3 : world) :
  extends c1 w1 w2 -> extends c2 w2 w3 -> extends (c1 ++ c2) w1 w3.
Proof.
  unfold extends. intros (A1 & B1 & C1) (A2 & B2 & C2).
  rewrite A2, A1, B2, B1, C2, C1, app_assoc. auto.
Qed.

(** *** The optimizer keeps the shapes *)

Lemma has_sig_update (f : nat -> list nat -> num) (l : @layer num)
    (s : layer_sig) :
  has_sig (update_layer f l) s = has_sig l s.
Proof.
  destruct l as [|W b|gamma beta rm rv nbt| |p], s; try reflexivity.
  - cbn [update_layer has_sig]. rewrite !length_imap.
    rewrite (forallb_imap _ (fun r => (length r =? in_features)%nat));
      [reflexivity|].
    intros k x. rewrite length_imap. reflexivity.
  - cbn [update_layer has_sig]. rewrite !length_imap. reflexivity.
Qed.

Lemma has_architecture_imap (F : nat -> @layer num -> @layer num)
    (ls : list layer) (sigs : list layer_sig) :
  (forall k l s, has_sig (F k l) s = has_sig l s) ->
  has_architecture (imap F ls) sigs = has_architecture ls sigs.
Proof.
  revert F sigs. induction ls as [|l ls IH]; intros F sigs HF; simpl;
    [reflexivity|].
  destruct sigs as [|s sigs]; [reflexivity|].
  rewrite HF. f_equal. apply IH. intros k l' s'. apply HF.
Qed.

Lemma has_architecture_update (f : nat -> nat -> list nat -> num)
    (ls : list (@layer num)) (sigs : list layer_sig) :
  has_architecture (apply_update f ls) sigs = has_architecture ls sigs.
Proof.
  unfold apply_update. apply has_architecture_imap.
  intros k l s. apply has_sig_update.
Qed.

(** *** Shuffling keeps the examples *)

Lemma swap_length {A} (i j : nat) (l : list A) :
  length (swap i j l) = length l.
Proof.
  unfold swap. destruct (l !! i), (l !! j); try reflexivity.
  rewrite !length_insert. reflexivity.
Qed.

Lemma swap_Forall {A} (P : A -> Prop) (i j : nat) (l : list A) :
  Forall P l -> Forall P (swap i j l).
Proof.
  intros HP. unfold swap.
  destruct (l !! i) as [x|] eqn:Ex; [|exact HP].
  destruct (l !! j) as [y|] eqn:Ey; [|exact HP].
  rewrite Forall_lookup in HP.
  apply Forall_insert; [apply Forall_insert; [apply Forall_lookup; exact HP|]|].
  - eapply HP. exact Ey.
  - eapply HP. exact Ex.
Qed.

Lemma randperm_loop_spec (rounds i : nat) (r : list Z) (g : TorchGen) :
  length (fst (randperm_loop rounds i r g)) = length r
  /\ forall P : Z -> Prop,
       Forall P r -> Forall P (fst (randperm_loop rounds i r g)).
Proof.
  revert i r g. induction rounds as [|rounds IH]; intros i r g; simpl.
  - auto.
  - destruct (torch_random g) as [z g'].
    destruct (IH (S i)
                (swap i (Z.to_nat (z mod Z.of_nat (length r - i)) + i) r) g')
      as [L F].
    split.
    + rewrite L. apply swap_length.
    + intros P HP. apply F. apply swap_Forall. exact HP.
Qed.

Lemma randperm_spec (n : nat) (g : TorchGen) :
  length (fst (randperm n g)) = n
  /\ Forall (fun z => 0 <= z < Z.of_nat n) (fst (randperm n g)).
Proof.
  unfold randperm.
  destruct (randperm_loop_spec (n - 1) 0 (map Z.of_nat (seq 0 n)) g) as [L F].
  split.
  - rewrite L, length_map, length_seq. reflexivity.
  - apply F. apply List.Forall_forall. intros z Hz.
    apply in_map_iff in Hz. destruct Hz as (k & <- & Hk).
    apply in_seq in Hk. lia.
Qed.

Lemma iter_loader_shuffled (dl : @DataLoader num) (w : world) :
  shuffle dl = true ->
  exists items g,
    iter_loader dl w
    = Ok (batch_sampler (Z.to_nat (batch_size dl)) [] items,
          set_torch_gen g w)
    /\ length items = length (dataset dl)
    /\ forall P : sample -> Prop, Forall P (dataset dl) -> Forall P items.
Proof.
  intros Hs. unfold iter_loader. rewrite Hs.
  destruct (randperm_spec (length (dataset dl)) (torch_gen w)) as [L F].
  destruct (rmap_getitem_in_range (dataset dl)
              (fst (randperm (length (dataset dl)) (torch_gen w))) F)
    as (items & E & Li & _ & Hall).
  exists items, (snd (randperm (length (dataset dl)) (torch_gen w))).
  split; [|split].
  - unfold bind, with_torch_gen, lift, ret.
    destruct (randperm _ _) as [idx g]. simpl in *. rewrite E. reflexivity.
  - rewrite Li, L. reflexivity.
  - exact Hall.
Qed.


(** *** The loaders of a trial *)

Lemma steps_per_epoch_exact (dl : @DataLoader num) (bs : Z) :
  0 < bs < 2 ^ 53 -> Z.of_nat (length (dataset dl)) < 2 ^ 52 ->
  steps_per_epoch dl bs = Ok (ceil_div (Z.of_nat (length (dataset dl))) bs).
Proof.
  intros Hbs Hn. unfold steps_per_epoch, Float64.int_truediv.
  destruct (Z.eqb_spec bs 0); [lia|]. simpl.
  rewrite Float64Facts.ceil_truediv by lia. reflexivity.
Qed.

Lemma trial_loaders_gen (config : Config.t) :
  0 < Config.batch_size config < 2 ^ 53 ->
  Z.of_nat (length (MNIST true)) < 2 ^ 52 ->
  exists tsub vsub,
    trial_loaders config
    = Ok ({| dataset := tsub; batch_size := Config.batch_size config;
             shuffle := true |},
          {| dataset := vsub; batch_size := 2 * Config.batch_size config;
             shuffle := false |},
          ceil_div (Z.of_nat (length tsub)) (Config.batch_size config))
    /\ Z.of_nat (length tsub) = train_size
    /\ Z.of_nat (length vsub)
       = ceil_div (Z.of_nat (length (MNIST false))) 5
    /\ (forall P : sample -> Prop, Forall P (MNIST true) -> Forall P tsub)
    /\ (forall P : sample -> Prop, Forall P (MNIST false) -> Forall P vsub)
    /\ get_dataloader false (2 * Config.batch_size config) None
       = Ok {| dataset := vsub; batch_size := 2 * Config.batch_size config;
               shuffle := false |}.
Proof.
  intros Hbs Hn.
  destruct (get_dataloader_spec true (Config.batch_size config) 5
              ltac:(lia) ltac:(lia)) as (tsub & Et & Lt & _ & Ft).
  destruct (get_dataloader_spec false (2 * Config.batch_size config) 5
              ltac:(lia) ltac:(lia)) as (vsub & Ev & Lv & _ & Fv).
  exists tsub, vsub. split; [|repeat split; auto].
  unfold trial_loaders.
  change (get_dataloader true (Config.batch_size config) None)
    with (get_dataloader true (Config.batch_size config) (Some 5)).
  change (get_dataloader false (2 * Config.batch_size config) None)
    with (get_dataloader false (2 * Config.batch_size config) (Some 5)).
  rewrite Et, Ev. cbn [rbind].
  rewrite steps_per_epoch_exact; [reflexivity|lia|].
  cbn [dataset]. rewrite Lt.
  pose proof (ceil_div_spec (Z.of_nat (length (MNIST true))) 5 ltac:(lia)).
  lia.
Qed.


(** *** One step and one pass over the training loader *)

Lemma train_step_ok (p : Float64.float) (n e step : Z)
    (batch : list (@sample num)) (s : train_vars) (w : world) :
  has_architecture (layers (model s)) (mlp_architecture p) = true ->
  training (model s) = true ->
  trainable batch -> grad_enabled w = true ->
  exists s' w' loss,
    let r := train_record loss e
               (example_ct s + Z.of_nat (length batch)) (step_ct s) in
    train_step n e (step, batch) s w = Ok (s', w')
    /\ extends (if step + 1 <? n then [wandb_log r true] else []) w w'
    /\ metrics s' = Some r
    /\ has_architecture (layers (model s')) (mlp_architecture p) = true
    /\ training (model s') = true
    /\ step_ct s' = step_ct s + 1.
Proof.
  intros Ha Ht [Hi Hone] Hg.
  destruct (call_mlp (model s) p (map fst batch) w Ha)
    as (rows & m1 & g & E & Ha1 & Ht1 & _ & _).
  { rewrite forallb_fmap. exact Hi. }
  { intros _. rewrite length_map. exact Hone. }
  unfold train_step. unfold bind at 1. rewrite E.
  unfold bind at 1, get. cbn [grad_enabled set_torch_gen noted].
  rewrite Hg. cbn [negb].
  destruct (adam_step (optimizer s) (layers m1) (map fst batch)
                      (map snd batch)) as [opt upd].
  rewrite length_map.
  destruct (step + 1 <? n).
  - do 3 eexists. cbv zeta. split; [|split; [|split; [|split; [|split]]]].
    + unfold bind, emit, modify, ret. reflexivity.
    + unfold extends. cbn. auto.
    + reflexivity.
    + cbn [model layers]. rewrite has_architecture_update. exact Ha1.
    + cbn [model training]. congruence.
    + reflexivity.
  - do 3 eexists. cbv zeta. split; [|split; [|split; [|split; [|split]]]].
    + unfold bind, ret. reflexivity.
    + unfold extends. cbn. rewrite app_nil_r. auto.
    + reflexivity.
    + cbn [model layers]. rewrite has_architecture_update. exact Ha1.
    + cbn [model training]. congruence.
    + reflexivity.
Qed.

(** The steps of an epoch, from step [i] on, the last batch being the last
    step of the epoch: every step but the last logs its record; the last
    one leaves its record in [metrics]. *)
Lemma train_loop_ok (p : Float64.float) (n e : Z)
    (rest : list (list (@sample num))) :
  forall (b : list (@sample num)) (i : Z) (s : train_vars) (w : world),
  i + 1 + Z.of_nat (length rest) = n ->
  has_architecture (layers (model s)) (mlp_architecture p) = true ->
  training (model s) = true ->
  Forall trainable (b :: rest) -> grad_enabled w = true ->
  exists s' w' recs last,
    for_each (enumerate_from i (b :: rest)) (train_step n e) s w
    = Ok (s', w')
    /\ extends (map (fun r => wandb_log r true) recs) w w'
    /\ length recs = length rest
    /\ (forall (k : nat) r, recs !! k = Some r ->
          is_train_record e (step_ct s + Z.of_nat k) r)
    /\ is_train_record e (step_ct s + Z.of_nat (length rest)) last
    /\ metrics s' = Some last
    /\ has_architecture (layers (model s')) (mlp_architecture p) = true
    /\ step_ct s' = step_ct s + 1 + Z.of_nat (length rest).
Proof.
  induction rest as [|b' rest IH]; intros b i s w Hn Ha Ht Hall Hg.
  - inversion Hall as [|? ? Hb _]; subst.
    destruct (train_step_ok p (i + 1 + Z.of_nat (length (@nil (list (@sample num))))) e i b s w Ha Ht Hb Hg)
      as (s' & w' & loss & E & X & M & Ha' & Ht' & C).
    cbv zeta in *. simpl length in *.
    destruct (Z.ltb_spec (i + 1) (i + 1 + Z.of_nat 0)); [lia|].
    exists s', w', [], (train_record loss e
                         (example_ct s + Z.of_nat (length b)) (step_ct s)).
    split; [|split; [|split; [|split; [|split; [|split; [|split]]]]]].
    + cbn [enumerate_from for_each]. unfold bind. rewrite E. reflexivity.
    + exact X.
    + reflexivity.
    + intros k r Hk. destruct k; discriminate.
    + rewrite Z.add_0_r. do 2 eexists. reflexivity.
    + exact M.
    + exact Ha'.
    + lia.
  - inversion Hall as [|? ? Hb Hrest]; subst.
    destruct (train_step_ok p (i + 1 + Z.of_nat (length (b' :: rest))) e i b s w Ha Ht Hb Hg)
      as (s1 & w1 & loss & E & X & M & Ha1 & Ht1 & C1).
    cbv zeta in *.
    destruct (Z.ltb_spec (i + 1) (i + 1 + Z.of_nat (length (b' :: rest))));
      [|simpl length in *; lia].
    assert (Hg1 : grad_enabled w1 = true)
      by (destruct X as (_ & G & _); congruence).
    destruct (IH b' (i + 1) s1 w1 ltac:(simpl length in *; lia) Ha1 Ht1
                 Hrest Hg1)
      as (s' & w' & recs & last & E2 & X2 & L2 & R2 & Rl & M2 & Ha2 & C2).
    exists s', w',
      (train_record loss e (example_ct s + Z.of_nat (length b)) (step_ct s)
         :: recs), last.
    split; [|split; [|split; [|split; [|split; [|split; [|split]]]]]].
    + cbn [enumerate_from for_each]. unfold bind. rewrite E. exact E2.
    + apply (extends_trans _ _ _ _ _ X X2).
    + simpl. rewrite L2. reflexivity.
    + intros [|k] r Hk; simpl in Hk.
      * inversion Hk; subst. rewrite Z.add_0_r. do 2 eexists. reflexivity.
      * specialize (R2 k r Hk). rewrite C1 in R2.
        replace (step_ct s + Z.of_nat (S k))
          with (step_ct s + 1 + Z.of_nat k) by lia.
        exact R2.
    + rewrite C1 in Rl. simpl length.
      replace (step_ct s + Z.of_nat (S (length rest)))
        with (step_ct s + 1 + Z.of_nat (length rest)) by lia.
      exact Rl.
    + exact M2.
    + exact Ha2.
    + rewrite C2, C1. simpl length. lia.
Qed.

(** *** One epoch *)

Lemma Forall_forallb_true {A} (f : A -> bool) (l : list A) :
  Forall (fun x => f x = true) l -> forallb f l = true.
Proof.
  intros Hf. apply forallb_forall. intros x Hx.
  rewrite List.Forall_forall in Hf. apply Hf. exact Hx.
Qed.

(** The batches of a training pass are all trainable, and there are
    [ceil(size / batch size)] of them. *)
Lemma train_batches_ok (bs : Z) (items : list (@sample num)) :
  2 <= bs -> items <> [] ->
  Z.of_nat (length items) mod bs <> 1 ->
  Forall (fun x => is_28x28 (fst x) = true) items ->
  exists b rest,
    batch_sampler (Z.to_nat bs) [] items = b :: rest
    /\ 1 + Z.of_nat (length rest) = ceil_div (Z.of_nat (length items)) bs
    /\ Forall trainable (b :: rest).
Proof.
  intros Hbs Hne Hmod Himg.
  pose proof (batch_sampler_count (Z.to_nat bs) [] items ltac:(simpl; lia))
    as Hc.
  simpl length in Hc. rewrite Nat.add_0_l, Z2Nat.id in Hc by lia.
  assert (Hpos : 0 < ceil_div (Z.of_nat (length items)) bs).
  { apply ceil_div_pos; [lia|]. destruct items; [contradiction|simpl; lia]. }
  assert (Htr : Forall trainable (batch_sampler (Z.to_nat bs) [] items)).
  { pose proof (batch_sampler_no_singleton (Z.to_nat bs) items ltac:(lia))
      as Hs.
    pose proof (batch_sampler_Forall _ (Z.to_nat bs) items Himg) as Hf.
    assert (Hm : (length items mod Z.to_nat bs)%nat <> 1%nat).
    { intros E. apply Hmod.
      rewrite <- (Z2Nat.id bs) by lia. rewrite <- Nat2Z.inj_mod, E.
      reflexivity. }
    specialize (Hs Hm).
    apply Forall_and in Hs. destruct Hs as [Hs _].
    revert Hs Hf. generalize (batch_sampler (Z.to_nat bs) [] items).
    induction l as [|b l IHl]; intros Hs Hf; [constructor|].
    inversion Hs; inversion Hf; subst. constructor; [|auto].
    split; [apply Forall_forallb_true; assumption|assumption]. }
  destruct (batch_sampler (Z.to_nat bs) [] items) as [|b rest];
    [simpl in Hc; lia|].
  exists b, rest. split; [reflexivity|]. split; [|exact Htr].
  simpl length in Hc. lia.
Qed.

Lemma run_epoch_ok (p : Float64.float) (config : Config.t)
    (tsub vsub : list (@sample num)) (bs n e : Z) (s : train_vars)
    (w : world) :
  2 <= bs -> tsub <> [] -> vsub <> [] ->
  Z.of_nat (length tsub) mod bs <> 1 ->
  Forall (fun x => is_28x28 (fst x) = true) tsub ->
  Forall (fun x => is_28x28 (fst x) = true) vsub ->
  n = ceil_div (Z.of_nat (length tsub)) bs ->
  has_architecture (layers (model s)) (mlp_architecture p) = true ->
  grad_enabled w = true ->
  step_ct s = e * n ->
  exists s' w' calls,
    run_epoch config
      {| dataset := tsub; batch_size := bs; shuffle := true |}
      {| dataset := vsub; batch_size := 2 * bs; shuffle := false |}
      n e s w = Ok (s', w')
    /\ extends calls w w'
    /\ epoch_calls n (Config.epochs config) e
         (batches_of {| dataset := vsub; batch_size := 2 * bs;
                        shuffle := false |} !! O) calls
    /\ has_architecture (layers (model s')) (mlp_architecture p) = true
    /\ step_ct s' = (e + 1) * n.
Proof.
  intros Hbs Ht Hv Hmod Ft Fv Hn Ha Hg Hc.
  set (train_dl := {| dataset := tsub; batch_size := bs; shuffle := true |}).
  set (valid_dl := {| dataset := vsub; batch_size := 2 * bs;
                      shuffle := false |}).
  (* the training pass *)
  destruct (iter_loader_shuffled train_dl w eq_refl)
    as (items & g & Ei & Li & Fi).
  cbn [dataset batch_size train_dl] in Ei, Li, Fi.
  destruct (train_batches_ok bs items Hbs) as (b & rest & Eb & Lb & Tb).
  { destruct items; [|discriminate]. destruct tsub; [contradiction|].
    discriminate. }
  { rewrite Li. exact Hmod. }
  { apply Fi. exact Ft. }
  rewrite Li, <- Hn in Lb. rewrite Eb in Ei.
  set (s0 := {| model := set_training true (model s);
                optimizer := optimizer s; example_ct := example_ct s;
                step_ct := step_ct s; metrics := metrics s |}).
  destruct (train_loop_ok p n e rest b 0 s0 (set_torch_gen g w)
              ltac:(lia) Ha eq_refl Tb Hg)
    as (s1 & w1 & recs & last & E1 & X1 & L1 & R1 & Rl & M1 & Ha1 & C1).
  cbn [step_ct s0] in R1, Rl, C1.
  assert (Hg1 : grad_enabled w1 = true)
    by (destruct X1 as (_ & G & _); rewrite G; exact Hg).
  (* validation *)
  destruct (validate_model_ok (model s1) valid_dl cross_entropy
              (e =? Config.epochs config - 1) None w1 eq_refl Hv)
    as (tbls & acc & E2 & _ & T2).
  { eapply Forall_impl; [exact Fv|]. intros x Hx.
    apply (can_validate_mlp _ p _ x w Ha1 Hx). }
  assert (Hnb : 0 < Z.of_nat (length (batches_of valid_dl))).
  { unfold batches_of. cbn [batch_size dataset valid_dl].
    rewrite batch_sampler_count by (simpl; lia).
    rewrite Z2Nat.id by lia. simpl length. rewrite Nat.add_0_l.
    apply ceil_div_pos; [lia|]. destruct vsub; [contradiction|simpl; lia]. }
  assert (T2' : table_calls (e =? Config.epochs config - 1)
                   (layers (model s1)) (batches_of valid_dl !! O) tbls).
  { cbn [default] in T2. change (Z.to_nat (0 - 0)) with O in T2.
    destruct (Z.ltb_spec 0 (0 + Z.of_nat (length (batches_of valid_dl))));
      [|lia].
    rewrite andb_true_r in T2. simpl in T2. rewrite andb_true_r in T2.
    exact T2. }
  do 3 eexists. split; [|split; [|split; [|split]]].
  - unfold run_epoch. fold s0. unfold bind at 1. rewrite Ei.
    unfold bind at 1. unfold enumerate. rewrite E1.
    unfold bind at 1. rewrite E2. rewrite M1.
    unfold bind, lift, emit, modify, ret. reflexivity.
  - unfold extends. cbn [wandb_calls grad_enabled py_gen after_validation].
    destruct X1 as (A1 & G1 & P1). cbn [set_torch_gen] in A1, G1, P1.
    rewrite A1, G1, P1, <- !app_assoc. repeat split.
  - exists recs, last, tbls. do 2 eexists. exists (layers (model s1)).
    split; [reflexivity|]. split; [lia|]. split; [|split; [|exact T2']].
    + intros k r Hk. rewrite <- Hc. apply R1. exact Hk.
    + replace (e * n + n - 1) with (step_ct s + Z.of_nat (length rest))
        by lia.
      exact Rl.
  - cbn [model layers set_training]. exact Ha1.
  - cbn [step_ct]. lia.
Qed.

(** *** All epochs, and the trial *)

Lemma epochs_loop_ok (p : Float64.float) (config : Config.t)
    (tsub vsub : list (@sample num)) (bs n : Z) :
  2 <= bs -> tsub <> [] -> vsub <> [] ->
  Z.of_nat (length tsub) mod bs <> 1 ->
  Forall (fun x => is_28x28 (fst x) = true) tsub ->
  Forall (fun x => is_28x28 (fst x) = true) vsub ->
  n = ceil_div (Z.of_nat (length tsub)) bs ->
  forall (m e0 : nat) (s : train_vars) (w : world),
  has_architecture (layers (model s)) (mlp_architecture p) = true ->
  grad_enabled w = true ->
  step_ct s = Z.of_nat e0 * n ->
  exists s' w' blocks,
    for_each (map Z.of_nat (seq e0 m))
      (run_epoch config
         {| dataset := tsub; batch_size := bs; shuffle := true |}
         {| dataset := vsub; batch_size := 2 * bs; shuffle := false |} n)
      s w = Ok (s', w')
    /\ extends (concat blocks) w w'
    /\ length blocks = m
    /\ (forall (j : nat) b, blocks !! j = Some b ->
          epoch_calls n (Config.epochs config) (Z.of_nat (e0 + j))
            (batches_of {| dataset := vsub; batch_size := 2 * bs;
                           shuffle := false |} !! O) b).
Proof.
  intros Hbs Ht Hv Hmod Ft Fv Hn.
  induction m as [|m IH]; intros e0 s w Ha Hg Hc.
  - exists s, w, []. split; [reflexivity|]. split; [apply extends_refl|].
    split; [reflexivity|]. intros j b Hj. destruct j; discriminate.
  - destruct (run_epoch_ok p config tsub vsub bs n (Z.of_nat e0) s w
                Hbs Ht Hv Hmod Ft Fv Hn Ha Hg Hc)
      as (s1 & w1 & calls & E1 & X1 & B1 & Ha1 & C1).
    assert (Hg1 : grad_enabled w1 = true)
      by (destruct X1 as (_ & G & _); rewrite G; exact Hg).
    destruct (IH (S e0) s1 w1 Ha1 Hg1 ltac:(rewrite C1; lia))
      as (s' & w' & blocks & E2 & X2 & L2 & B2).
    exists s', w', (calls :: blocks).
    split; [|split; [|split]].
    + cbn [seq map for_each]. unfold bind. rewrite E1. exact E2.
    + cbn [concat]. apply (extends_trans _ _ _ _ _ X1 X2).
    + simpl. rewrite L2. reflexivity.
    + intros [|j] b Hj; simpl in Hj.
      * inversion Hj; subst. rewrite Nat.add_0_r. exact B1.
      * replace (e0 + S j)%nat with (S e0 + j)%nat by lia.
        apply B2. exact Hj.
Qed.

Lemma range_0_n (n : Z) :
  0 <= n -> range 0 n 1 = Ok (map Z.of_nat (seq 0 (Z.to_nat n))).
Proof.
  intros Hn. unfold range. simpl.
  rewrite range_up_spec by lia.
  replace (ceil_div (n - 0) 1) with n
    by (unfold ceil_div; rewrite Z.div_1_r; lia).
  f_equal. apply map_ext. intros i. lia.
Qed.

Lemma config_ok_inv (config : Config.t) :
  config_ok config = true ->
  0 <= Config.epochs config
  /\ 2 <= Config.batch_size config < 2 ^ 53
  /\ train_size mod Config.batch_size config <> 1
  /\ 0 <= Config.dropout config <= Float64.one.
Proof.
  unfold config_ok. intros Hc.
  apply andb_prop in Hc. destruct Hc as [Hc P2].
  apply andb_prop in Hc. destruct Hc as [Hc P1].
  apply andb_prop in Hc. destruct Hc as [Hc Hm].
  apply andb_prop in Hc. destruct Hc as [Hc B2].
  apply andb_prop in Hc. destruct Hc as [He B1].
  apply Z.leb_le in He, B1, P1, P2. apply Z.ltb_lt in B2.
  apply negb_true_iff, Z.eqb_neq in Hm.
  repeat split; assumption.
Qed.

Lemma data_ok_inv :
  data_ok = true ->
  MNIST true <> [] /\ MNIST false <> []
  /\ Forall (fun x => is_28x28 (fst x) = true) (MNIST true)
  /\ Forall (fun x => is_28x28 (fst x) = true) (MNIST false)
  /\ Z.of_nat (length (MNIST true)) < 2 ^ 52.
Proof.
  unfold data_ok. intros Hd.
  apply andb_prop in Hd. destruct Hd as [Hd Hsz].
  apply andb_prop in Hd. destruct Hd as [Hd Fv].
  apply andb_prop in Hd. destruct Hd as [Hd Ft].
  apply andb_prop in Hd. destruct Hd as [Nt Nv].
  apply Nat.ltb_lt in Nt, Nv. apply Z.ltb_lt in Hsz.
  apply forallb_Forall_true in Ft, Fv.
  repeat split; try assumption.
  - intros E. rewrite E in Nt. simpl in Nt. lia.
  - intros E. rewrite E in Nv. simpl in Nv. lia.
Qed.

(** A trial on good data with a good configuration runs to its end, and
    the logger receives the calls described by [trial_calls]. *)
Lemma trial_ok (config : Config.t) (w : world) :
  config_ok config = true -> data_ok = true -> grad_enabled w = true ->
  exists w' calls valid_dl,
    get_dataloader false (2 * Config.batch_size config) None = Ok valid_dl
    /\ trial config w = Ok (tt, w')
    /\ extends calls w w'
    /\ trial_calls config
         (ceil_div train_size (Config.batch_size config))
         (batches_of valid_dl !! O) calls.
Proof.
  intros Hc Hd Hg.
  destruct (config_ok_inv config Hc) as (He & Hbs & Hmod & Hp).
  destruct (data_ok_inv Hd) as (Nt & Nv & Ft & Fv & Hsz).
  destruct (trial_loaders_gen config ltac:(lia) Hsz)
    as (tsub & vsub & El & Lt & Lv & Pt & Pv & Ev).
  set (w0 := logged [wandb_init "mnist-classification" (config_dict config)] w).
  destruct (get_model_spec (Config.dropout config) w0 Hp)
    as (model0 & g & Em & Ha & _).
  assert (Ntsub : tsub <> []).
  { intros E. subst tsub. simpl in Lt. unfold train_size in Lt.
    pose proof (ceil_div_pos (Z.of_nat (length (MNIST true))) 5 ltac:(lia)).
    destruct (MNIST true); [contradiction|]. simpl length in *. lia. }
  assert (Nvsub : vsub <> []).
  { intros E. subst vsub. simpl in Lv.
    pose proof (ceil_div_pos (Z.of_nat (length (MNIST false))) 5 ltac:(lia)).
    destruct (MNIST false); [contradiction|]. simpl length in *. lia. }
  destruct (epochs_loop_ok (Config.dropout config) config tsub vsub
              (Config.batch_size config)
              (ceil_div (Z.of_nat (length tsub)) (Config.batch_size config))
              ltac:(lia) Ntsub Nvsub ltac:(rewrite Lt; exact Hmod)
              (Pt _ Ft) (Pv _ Fv) eq_refl
              (Z.to_nat (Config.epochs config)) 0
              {| model := model0;
                 optimizer := adam_init (layers model0) (Config.lr config);
                 example_ct := 0; step_ct := 0; metrics := None |}
              (set_torch_gen g w0) Ha Hg eq_refl)
    as (s' & w1 & blocks & Ee & Xe & Lb & Be).
  eexists.
  exists ([wandb_init "mnist-classification" (config_dict config)]
          ++ concat blocks
          ++ [wandb_summary_set "test_accuracy" (VFloat Float64.lit_0_8);
              wandb_finish]).
  eexists. split; [exact Ev|]. split; [|split].
  - unfold trial. unfold bind at 1. unfold emit at 1, modify at 1.
    fold (logged [wandb_init "mnist-classification" (config_dict config)] w).
    fold w0. unfold bind at 1. rewrite El. simpl lift. cbv beta iota.
    unfold bind at 1. rewrite Em.
    unfold bind at 1. rewrite range_0_n by lia. simpl lift. cbv beta iota.
    unfold bind at 1. rewrite Ee.
    unfold bind, emit, modify. reflexivity.
  - unfold extends. cbn [wandb_calls grad_enabled py_gen].
    destruct Xe as (A & G & P). cbn [set_torch_gen w0 logged] in A, G, P.
    cbn [wandb_calls grad_enabled py_gen] in A, G, P.
    rewrite A, G, P, <- !app_assoc. repeat split.
    subst w0. cbn [set_torch_gen logged wandb_calls].
    rewrite <- !app_assoc. reflexivity.
  - exists blocks. rewrite <- Lt. split; [reflexivity|].
    split; [rewrite Lb; lia|]. intros e b Hb.
    apply (Be e b Hb).
Qed.

End Training.
(** ** The configuration of a trial *)

Section ConfigProperties.

Context {num TorchGen PyGen Optimizer : Type}.
Context `{Numeric num} `{Runtime num TorchGen PyGen Optimizer}.
Abbreviation world := (@world num TorchGen PyGen).

Lemma make_config_spec (w : world) :
  exists k g,
    0 <= k <= 2 ^ 53 - 1
    /\ make_config w
       = Ok ({| Config.epochs := 5; Config.batch_size := 128;
                Config.lr := Float64.lit_1e_3;
                Config.dropout := uniform_at k |},
             {| wandb_calls := wandb_calls w; torch_gen := torch_gen w;
                py_gen := g; grad_enabled := grad_enabled w;
                forward_modes := forward_modes w |}).
Proof.
  unfold make_config, bind, with_py_gen, ret, random_uniform, random_random,
    next_uint32.
  destruct (genrand_uint32 (py_gen w)) as [a g1].
  destruct (genrand_uint32 g1) as [b g2].
  exists (random53 (a mod 2 ^ 32) (b mod 2 ^ 32)), g2.
  split; [apply Float64Facts.random53_range|reflexivity].
Qed.

(** C6. The dropout probability that a trial draws is at least the float
    [0.01] and strictly below the float [0.80]; as real numbers, it is at
    least 1/100 and strictly below 8/10. *)
Theorem make_config_dropout_range (w : world) :
  exists config w',
    make_config w = Ok (config, w')
    /\ Float64.lit_0_01 <= Config.dropout config < Float64.lit_0_80
    /\ (1 # 100 <= Float64.to_Q (Config.dropout config))%Q
    /\ (Float64.to_Q (Config.dropout config) < 8 # 10)%Q.
Proof.
  destruct (make_config_spec w) as (k & g & Hk & E).
  do 2 eexists. split; [exact E|]. cbn [Config.dropout].
  pose proof (Float64Facts.uniform_at_range k Hk) as [Hlo Hhi].
  assert (Hone : Z.pos (Z.to_pos Float64.one) = Float64.one)
    by (apply Z2Pos.id; apply Z.pow_pos_nonneg; lia).
  assert (B1 : Float64.one <= 100 * Float64.lit_0_01)
    by (vm_compute; discriminate).
  assert (B2 : 10 * Float64.of_bits 7205759403792793 (-53) < 8 * Float64.one)
    by (vm_compute; reflexivity).
  assert (B3 : Float64.of_bits 7205759403792793 (-53) < Float64.lit_0_80)
    by (vm_compute; reflexivity).
  split; [lia|]. unfold Float64.to_Q, Qle, Qlt. cbn [Qnum Qden].
  rewrite Hone. split; lia.
Qed.

End ConfigProperties.

(** ** What the logger receives during a trial *)

Lemma map_seq_shift {A} (f : nat -> A) (a b : nat) :
  map f (seq a b) = map (fun k => f (a + k)%nat) (seq 0 b).
Proof.
  revert a. induction b as [|b IH]; intros a; [reflexivity|].
  cbn [seq map]. rewrite Nat.add_0_r. f_equal.
  rewrite (IH (S a)), <- seq_shift, map_map.
  apply map_ext. intros k. f_equal. lia.
Qed.

Lemma omap_cons_eq {A B} (f : A -> option B) (x : A) (l : list A) :
  omap f (x :: l)
  = match f x with Some y => y :: omap f l | None => omap f l end.
Proof. reflexivity. Qed.

Lemma list_snoc_inv {A} (l : list A) :
  l <> [] -> exists l' x, l = l' ++ [x].
Proof.
  intros Hne. destruct (exists_last Hne) as (l' & x & E). eauto.
Qed.

Lemma filter_none {A} (f : A -> bool) (l : list A) :
  Forall (fun x => f x = false) l -> List.filter f l = [].
Proof.
  induction 1 as [|x l Hx _ IH]; simpl; [reflexivity|].
  rewrite Hx. exact IH.
Qed.

Section Trace.

Context {num TorchGen PyGen Optimizer : Type}.
Context `{Numeric num} `{Runtime num TorchGen PyGen Optimizer}.
Abbreviation world := (@world num TorchGen PyGen).

Lemma steps_upto_app (c : Z) (a b : nat) :
  steps_upto c (a + b)
  = steps_upto c a ++ steps_upto (c + Z.of_nat a) b.
Proof.
  unfold steps_upto. rewrite seq_app, map_app. f_equal.
  rewrite map_seq_shift. apply map_ext. intros k. lia.
Qed.

Lemma steps_upto_1 (c : Z) : steps_upto c 1 = [c].
Proof. unfold steps_upto. simpl. f_equal. lia. Qed.

(** *** The records of the steps *)

Lemma logged_step_train (loss : num) (e x c : Z) (commit : bool) :
  @logged_step num (wandb_log (train_record loss e x c) commit)
  = if commit then Some c else None.
Proof. destruct commit; reflexivity. Qed.

Lemma records_steps (e : Z) (recs : list (gmap string (@value num))) :
  forall c0 : Z,
  (forall (k : nat) r, recs !! k = Some r ->
     is_train_record e (c0 + Z.of_nat k) r) ->
  omap logged_step (map (fun r => wandb_log r true) recs)
  = steps_upto c0 (length recs).
Proof.
  induction recs as [|r recs IH]; intros c0 Hr; [reflexivity|].
  destruct (Hr O r eq_refl) as (loss & x & ->).
  cbn [map length]. rewrite omap_cons_eq, logged_step_train.
  change (S (length recs)) with (1 + length recs)%nat.
  rewrite steps_upto_app, steps_upto_1. cbn [app].
  rewrite Z.add_0_r. f_equal. apply IH.
  intros k r' Hk. specialize (Hr (S k) r' Hk).
  replace (c0 + Z.of_nat 1 + Z.of_nat k) with (c0 + Z.of_nat (S k)) by lia.
  exact Hr.
Qed.

Lemma records_plain (e : Z) (recs : list (gmap string (@value num))) :
  forall c0 : Z,
  (forall (k : nat) r, recs !! k = Some r ->
     is_train_record e (c0 + Z.of_nat k) r) ->
  Forall (fun c => plain c /\ is_log c = true
                   /\ logs_key "val/val_loss" c = false)
         (map (fun r => wandb_log r true) recs).
Proof.
  induction recs as [|r recs IH]; intros c0 Hr; [constructor|].
  destruct (Hr O r eq_refl) as (loss & x & ->).
  cbn [map]. constructor.
  - repeat split.
  - apply (IH (c0 + 1)). intros k r' Hk. specialize (Hr (S k) r' Hk).
    replace (c0 + 1 + Z.of_nat k) with (c0 + Z.of_nat (S k)) by lia.
    exact Hr.
Qed.

(** *** One epoch *)

Lemma table_calls_steps (due : bool) (ls : list (@layer num))
    (fb : option (list (@sample num))) (tbls : list wandb_call) :
  table_calls due ls fb tbls ->
  omap logged_step tbls = []
  /\ Forall (fun c => is_log c = true /\ logs_key "val/val_loss" c = false)
            tbls.
Proof.
  unfold table_calls. destruct due.
  - intros (b & _ & ->). split; [reflexivity|].
    constructor; [|constructor]. split; reflexivity.
  - intros ->. split; [reflexivity|constructor].
Qed.

Lemma epoch_calls_n_pos (n E e : Z) (fb : option (list (@sample num)))
    (b : list wandb_call) :
  epoch_calls n E e fb b -> 1 <= n.
Proof. intros (recs & _ & _ & _ & _ & _ & _ & L & _). lia. Qed.

(** The committed records of an epoch carry the step counters of its
    steps, each once, in order. *)
Lemma epoch_calls_steps (n E e : Z) (fb : option (list (@sample num)))
    (b : list wandb_call) :
  epoch_calls n E e fb b ->
  omap logged_step b = steps_upto (e * n) (Z.to_nat n).
Proof.
  intros (recs & last & tbls & vl & va & ls & -> & L & R & Rl & T).
  destruct Rl as (loss & x & ->).
  destruct (table_calls_steps _ _ _ _ T) as [Et _].
  rewrite !omap_app, (records_steps e recs (e * n) R), Et.
  replace (Z.to_nat n) with (length recs + 1)%nat by lia.
  rewrite steps_upto_app, steps_upto_1. cbn [app].
  f_equal. rewrite omap_cons_eq.
  replace (logged_step _) with (Some (e * n + n - 1)) by reflexivity.
  f_equal. lia.
Qed.

(** Every call of an epoch is a [log] call, and exactly one of them
    carries the validation metrics. *)
Lemma epoch_calls_logs (n E e : Z) (fb : option (list (@sample num)))
    (b : list wandb_call) :
  epoch_calls n E e fb b ->
  Forall (fun c => is_log c = true) b
  /\ length (List.filter (logs_key "val/val_loss") b) = 1%nat.
Proof.
  intros (recs & last & tbls & vl & va & ls & -> & L & R & Rl & T).
  destruct Rl as (loss & x & ->).
  destruct (table_calls_steps _ _ _ _ T) as [_ Ft].
  pose proof (records_plain e recs (e * n) R) as Fr.
  split.
  - apply Forall_app. split.
    + eapply Forall_impl; [exact Fr|]. intros c (_ & Hc & _). exact Hc.
    + apply Forall_app. split.
      * eapply Forall_impl; [exact Ft|]. intros c (Hc & _). exact Hc.
      * constructor; [reflexivity|constructor].
  - rewrite !List.filter_app, !length_app.
    rewrite (filter_none _ (map (fun r => wandb_log r true) recs)).
    2:{ eapply Forall_impl; [exact Fr|]. intros c (_ & _ & Hc). exact Hc. }
    rewrite (filter_none _ tbls).
    2:{ eapply Forall_impl; [exact Ft|]. intros c (_ & Hc). exact Hc. }
    reflexivity.
Qed.

Lemma epoch_calls_final (n E e : Z) (fb : option (list (@sample num)))
    (b : list wandb_call) :
  epoch_calls n E e fb b ->
  if e =? E - 1
  then exists recs ls batch0 merged,
         fb = Some batch0
         /\ b = map (fun r => wandb_log r true) recs
                ++ [wandb_log {[ "predictions_table" :=
                                   VTable (predictions_table ls batch0) ]}
                              false;
                    wandb_log merged true]
         /\ Forall plain (map (fun r => wandb_log r true) recs)
         /\ merged !! "train/epoch" = Some (VInt e)
         /\ is_Some (merged !! "val/val_loss")
         /\ is_Some (merged !! "val/val_accuracy")
         /\ is_Some (merged !! "train/step_ct")
         /\ merged !! "predictions_table" = None
  else Forall plain b.
Proof.
  intros (recs & last & tbls & vl & va & ls & -> & L & R & Rl & T).
  destruct Rl as (loss & x & ->).
  pose proof (records_plain e recs (e * n) R) as Fr.
  assert (Fp : Forall plain (map (fun r => wandb_log r true) recs)).
  { eapply Forall_impl; [exact Fr|]. intros c (Hc & _). exact Hc. }
  unfold table_calls in T. destruct (e =? E - 1).
  - destruct T as (b0 & -> & ->).
    exists recs, ls, b0,
      (val_record vl va ∪ train_record loss e x (e * n + n - 1)).
    split; [reflexivity|]. split; [reflexivity|]. split; [exact Fp|].
    repeat split; try reflexivity; eexists; reflexivity.
  - subst tbls. apply Forall_app. split; [exact Fp|].
    constructor; [|constructor]. split; reflexivity.
Qed.

(** *** All epochs *)

Lemma blocks_steps (n E : Z) (fb : option (list (@sample num)))
    (blocks : list (list wandb_call)) :
  forall e0 : nat,
  (forall (j : nat) b, blocks !! j = Some b ->
     epoch_calls n E (Z.of_nat (e0 + j)) fb b) ->
  omap logged_step (concat blocks)
  = steps_upto (Z.of_nat e0 * n) (length blocks * Z.to_nat n).
Proof.
  induction blocks as [|b blocks IH]; intros e0 Hb; [reflexivity|].
  pose proof (Hb O b eq_refl) as Hb0. rewrite Nat.add_0_r in Hb0.
  pose proof (epoch_calls_n_pos _ _ _ _ _ Hb0) as Hn.
  cbn [concat length]. rewrite omap_app, (epoch_calls_steps _ _ _ _ _ Hb0).
  rewrite (IH (S e0)).
  2:{ intros j b' Hj. replace (S e0 + j)%nat with (e0 + S j)%nat by lia.
      apply Hb. exact Hj. }
  change (S (length blocks) * Z.to_nat n)%nat
    with (Z.to_nat n + length blocks * Z.to_nat n)%nat.
  rewrite steps_upto_app. do 2 f_equal. lia.
Qed.

Lemma blocks_logs (n E : Z) (fb : option (list (@sample num)))
    (blocks : list (list wandb_call)) :
  Forall (fun b => exists e, epoch_calls n E e fb b) blocks ->
  Forall (fun c => is_log c = true) (concat blocks)
  /\ length (List.filter (logs_key "val/val_loss") (concat blocks))
     = length blocks.
Proof.
  induction 1 as [|b blocks (e & Hb) _ [IH1 IH2]]; [split; [constructor|]|].
  - reflexivity.
  - destruct (epoch_calls_logs _ _ _ _ _ Hb) as [L1 L2].
    cbn [concat length]. split.
    + apply Forall_app. split; assumption.
    + rewrite List.filter_app, length_app, L2, IH2. reflexivity.
Qed.

Lemma trial_calls_blocks (config : Config.t) (n : Z)
    (fb : option (list (@sample num))) (blocks : list (list wandb_call)) :
  (forall (e : nat) b, blocks !! e = Some b ->
     epoch_calls n (Config.epochs config) (Z.of_nat e) fb b) ->
  Forall (fun b => exists e, epoch_calls n (Config.epochs config) e fb b)
         blocks.
Proof.
  intros Hb. apply Forall_lookup. intros e b He. eexists. apply Hb. exact He.
Qed.

(** *** The history that the logger builds *)

Lemma plain_no_table (c : @wandb_call num) :
  plain c -> logs_key "predictions_table" c = false.
Proof.
  destruct c as [| r commit | |]; try reflexivity.
  intros [_ Hr]. cbn [logs_key]. rewrite Hr. reflexivity.
Qed.

Lemma wandb_history_plain (pre rest : list (@wandb_call num)) :
  Forall plain pre ->
  exists rows,
    wandb_history ∅ (pre ++ rest) = rows ++ wandb_history ∅ rest
    /\ Forall (fun r => r !! "predictions_table" = None) rows.
Proof.
  induction 1 as [|c pre Hc _ (rows & E & F)].
  - exists []. split; [reflexivity|constructor].
  - destruct c as [p cfg | r commit | k v |]; cbn [app wandb_history].
    + exists rows. auto.
    + destruct Hc as [-> Hr]. exists ((r ∪ ∅) :: rows). split.
      * rewrite E. reflexivity.
      * constructor; [|exact F].
        rewrite (right_id_L ∅ (∪)). exact Hr.
    + exists rows. auto.
    + exists rows. auto.
Qed.

(** *** The trial *)




End Trace.
(** ** The five trials of [main] *)

Section Main.

Context {num TorchGen PyGen Optimizer : Type}.
Context `{Numeric num} `{Runtime num TorchGen PyGen Optimizer}.
Abbreviation world := (@world num TorchGen PyGen).

(** The configuration that [main] builds is one a trial can run with, as
    long as the last training batch does not hold a single example. *)
Lemma make_config_ok (w : world) :
  (train_size mod 128 =? 1) = false ->
  exists config w',
    make_config w = Ok (config, w')
    /\ config_ok config = true
    /\ Config.epochs config = 5 /\ Config.batch_size config = 128
    /\ wandb_calls w' = wandb_calls w
    /\ grad_enabled w' = grad_enabled w.
Proof.
  intros Hm. destruct (make_config_spec w) as (k & g & Hk & E).
  do 2 eexists. split; [exact E|].
  pose proof (Float64Facts.uniform_at_range k Hk) as [Hlo Hhi].
  assert (B0 : 0 <= Float64.lit_0_01) by (vm_compute; discriminate).
  assert (B1 : Float64.of_bits 7205759403792793 (-53) <= Float64.one)
    by (vm_compute; discriminate).
  split; [|repeat split].
  unfold config_ok. cbn [Config.epochs Config.batch_size Config.dropout].
  rewrite Hm. cbn [negb].
  replace (0 <=? uniform_at k) with true by (symmetry; apply Z.leb_le; lia).
  replace (uniform_at k <=? Float64.one) with true
    by (symmetry; apply Z.leb_le; lia).
  reflexivity.
Qed.

Lemma main_loop_ok (xs : list Z) :
  forall w : world,
  data_ok = true -> (train_size mod 128 =? 1) = false ->
  grad_enabled w = true ->
  exists w' traces,
    for_each xs (fun _ _ => let* config := make_config in trial config) tt w
    = Ok (tt, w')
    /\ wandb_calls w' = wandb_calls w ++ concat traces
    /\ grad_enabled w' = grad_enabled w
    /\ length traces = length xs
    /\ Forall (fun t => exists config first_batch,
                 config_ok config = true
                 /\ Config.epochs config = 5
                 /\ Config.batch_size config = 128
                 /\ trial_calls config (ceil_div train_size 128)
                                first_batch t) traces.
Proof.
  induction xs as [|x xs IH]; intros w Hd Hm Hg.
  - exists w, []. split; [reflexivity|]. simpl. rewrite app_nil_r.
    repeat split. constructor.
  - destruct (make_config_ok w Hm)
      as (config & w1 & Ec & Hc & He & Hb & A1 & G1).
    assert (Hg1 : grad_enabled w1 = true) by (rewrite G1; exact Hg).
    destruct (trial_ok config w1 Hc Hd Hg1)
      as (w2 & calls & valid_dl & _ & Et & (A2 & G2 & _) & T).
    assert (Hg2 : grad_enabled w2 = true) by (rewrite G2; exact Hg1).
    destruct (IH w2 Hd Hm Hg2) as (w' & traces & El & A3 & G3 & L & F).
    exists w', (calls :: traces).
    split; [|split; [|split; [|split]]].
    + cbn [for_each]. unfold bind at 1. unfold bind at 1.
      rewrite Ec, Et. exact El.
    + cbn [concat]. rewrite A3, A2, A1, <- app_assoc. reflexivity.
    + congruence.
    + simpl. rewrite L. reflexivity.
    + constructor; [|exact F].
      exists config, (batches_of valid_dl !! O).
      rewrite Hb in T. auto.
Qed.

(** [main] runs five trials one after the other; each of them sends the
    logger the calls of a trial of five epochs. *)
Lemma main_ok (w : world) :
  data_ok = true -> (train_size mod 128 =? 1) = false ->
  grad_enabled w = true ->
  exists w' traces,
    main w = Ok (tt, w')
    /\ wandb_calls w' = wandb_calls w ++ concat traces
    /\ length traces = 5%nat
    /\ Forall (fun t => exists config first_batch,
                 config_ok config = true
                 /\ Config.epochs config = 5
                 /\ Config.batch_size config = 128
                 /\ trial_calls config (ceil_div train_size 128)
                                first_batch t) traces.
Proof.
  intros Hd Hm Hg.
  destruct (main_loop_ok (map Z.of_nat (seq 0 (Z.to_nat 5))) w Hd Hm Hg)
    as (w' & traces & E & X & _ & L & F).
  exists w', traces. split; [|split; [exact X|split; [exact L|exact F]]].
  unfold main. unfold bind. rewrite range_0_n by lia. exact E.
Qed.

End Main.

(** * Further properties *)

(** ** Loaders: refused arguments, and what one pass hands out *)

Lemma batch_sampler_shape {A} (bs : nat) (items : list A) :
  forall (cur : list A),
  (length cur < bs)%nat ->
  forall (i : nat) (b : list A),
    batch_sampler bs cur items !! i = Some b ->
    (0 < length b <= bs)%nat
    /\ ((S i < length (batch_sampler bs cur items))%nat -> length b = bs).
Proof.
  induction items as [|x items IH]; intros cur Hcur i b Hb.
  - destruct cur as [|c cur]; simpl in Hb; [discriminate|].
    destruct i; [|discriminate]. inversion Hb; subst b.
    rewrite length_app, length_rev. simpl in *. split; [lia|].
    intros Hlt. lia.
  - rewrite batch_sampler_cons in Hb |- *.
    destruct (Nat.eqb_spec (S (length cur)) bs) as [E|N].
    + destruct i as [|i]; simpl in Hb.
      * inversion Hb; subst b.
        change (rev cur ++ [x]) with (rev (x :: cur)).
        rewrite length_rev. simpl. lia.
      * destruct (IH [] ltac:(simpl; lia) i b Hb) as [H1 H2].
        split; [exact H1|]. simpl. intros Hlt. apply H2. lia.
    + apply (IH (x :: cur)); [simpl; lia|exact Hb].
Qed.

(** Exchanging two entries permutes the list. *)
Lemma swap_Permutation {A} (i j : nat) (l : list A) : swap i j l ≡ₚ l.
Proof.
  unfold swap.
  destruct (l !! i) as [x|] eqn:Ex; [|reflexivity].
  destruct (l !! j) as [y|] eqn:Ey; [|reflexivity].
  apply Permutation_inj. split; [rewrite !length_insert; reflexivity|].
  exists (fun k => if decide (k = i) then j
                   else if decide (k = j) then i else k).
  split.
  - intros a b. repeat case_decide; lia.
  - intros k.
    assert (Hi : (i < length l)%nat) by (eapply lookup_lt_Some; exact Ex).
    assert (Hj : (j < length l)%nat) by (eapply lookup_lt_Some; exact Ey).
    destruct (decide (k = j)) as [->|Nj].
    + rewrite list_lookup_insert_eq by (rewrite length_insert; exact Hj).
      case_decide; [subst; congruence|]. symmetry. exact Ex.
    + rewrite list_lookup_insert_ne by congruence.
      destruct (decide (k = i)) as [->|Ni].
      * rewrite list_lookup_insert_eq by exact Hi. symmetry. exact Ey.
      * rewrite list_lookup_insert_ne by congruence. reflexivity.
Qed.

Lemma rmap_omap {A B} (f : A -> result B) (xs : list A) (ys : list B) :
  rmap f xs = Ok ys -> omap (fun x => ok_value (f x)) xs = ys.
Proof.
  revert ys. induction xs as [|x xs IH]; intros ys E; simpl in E.
  - inversion E. reflexivity.
  - rewrite omap_cons_eq.
    destruct (f x) as [y|]; [|discriminate]. simpl in E |- *.
    destruct (rmap f xs) as [ys'|]; [|discriminate].
    inversion E; subst ys. rewrite (IH ys' eq_refl). reflexivity.
Qed.

Section LoaderEdges.

Context {num TorchGen PyGen Optimizer : Type}.
Context `{Numeric num} `{Runtime num TorchGen PyGen Optimizer}.
Abbreviation world := (@world num TorchGen PyGen).

Lemma randperm_loop_Permutation (rounds i : nat) (r : list Z) (g : TorchGen) :
  fst (randperm_loop rounds i r g) ≡ₚ r.
Proof.
  revert i r g. induction rounds as [|rounds IH]; intros i r g; simpl.
  - reflexivity.
  - destruct (torch_random g) as [z g'].
    rewrite IH. apply swap_Permutation.
Qed.

Lemma batches_shape_sampler (bs : Z) (items : list (@sample num)) :
  0 < bs -> batches_shape bs (batch_sampler (Z.to_nat bs) [] items).
Proof.
  intros Hbs i b Hb.
  destruct (batch_sampler_shape (Z.to_nat bs) items [] ltac:(simpl; lia) i b Hb)
    as [H1 H2].
  split; [lia|]. split; [lia|]. intros Hlt. rewrite (H2 Hlt). lia.
Qed.

(** X1. A zero stride or a non-positive batch size makes [get_dataloader]
    raise ValueError: the first is refused by [range], the second by the
    loader's constructor. *)
Theorem get_dataloader_value_error (is_train : bool) (bs k : Z) :
  k = 0 \/ bs <= 0 ->
  get_dataloader is_train bs (Some k) = Raise ValueError.
Proof.
  intros [->|Hbs]; [reflexivity|].
  destruct (Z.eq_dec k 0) as [->|Hk0]; [reflexivity|].
  destruct (Z_lt_le_dec 0 k) as [Hk|Hk].
  - destruct (subsample_spec (MNIST is_train) k Hk) as (sub & E & _).
    unfold get_dataloader. simpl. unfold rbind in E |- *.
    destruct (range 0 (Z.of_nat (length (MNIST is_train))) k); [|discriminate].
    rewrite E. unfold mk_DataLoader.
    destruct (Z.leb_spec bs 0); [reflexivity|lia].
  - unfold get_dataloader, range. simpl.
    destruct (Z.eqb_spec k 0); [lia|].
    destruct (Z.ltb_spec 0 k); [lia|].
    replace (Z.to_nat (0 - Z.of_nat (length (MNIST is_train)))) with O by lia.
    simpl. unfold mk_DataLoader.
    destruct (Z.leb_spec bs 0); [reflexivity|lia].
Qed.


(** X3. One pass over a shuffling loader hands out a permutation of the
    examples of its dataset: every example once, none twice, none left
    out.  The batches have the same shape as without shuffling, and only
    the generator of the tensor library has advanced. *)
Theorem iter_loader_shuffled_once (dl : @DataLoader num) (w : world) :
  shuffle dl = true -> 0 < batch_size dl ->
  exists batches g,
    iter_loader dl w = Ok (batches, set_torch_gen g w)
    /\ concat batches ≡ₚ dataset dl
    /\ Z.of_nat (length batches)
       = ceil_div (Z.of_nat (length (dataset dl))) (batch_size dl)
    /\ batches_shape (batch_size dl) batches.
Proof.
  intros Hsh Hbs.
  set (n := length (dataset dl)).
  destruct (randperm_spec n (torch_gen w)) as [L F].
  destruct (rmap_getitem_in_range (dataset dl)
              (fst (randperm n (torch_gen w))) F)
    as (items & E & Li & _ & _).
  exists (batch_sampler (Z.to_nat (batch_size dl)) [] items),
         (snd (randperm n (torch_gen w))).
  split; [|split; [|split]].
  - unfold iter_loader. rewrite Hsh. fold n.
    unfold bind, with_torch_gen, lift, ret.
    destruct (randperm n (torch_gen w)) as [idx g]. simpl in E |- *.
    rewrite E. reflexivity.
  - rewrite batch_sampler_concat. simpl.
    pose proof (rmap_omap _ _ _ (rmap_getitem_seq (dataset dl))) as E2.
    fold n in E2.
    transitivity (omap (fun x => ok_value (getitem (dataset dl) x))
                       (map Z.of_nat (seq 0 n))); [|rewrite E2; reflexivity].
    rewrite <- (rmap_omap _ _ _ E).
    apply omap_Permutation. unfold randperm.
    apply randperm_loop_Permutation.
  - rewrite batch_sampler_count by (simpl; lia).
    simpl. rewrite Li, L, Z2Nat.id by lia. reflexivity.
  - apply batches_shape_sampler. exact Hbs.
Qed.

End LoaderEdges.

(** ** The model: refused batches, and what a forward pass leaves alone *)

(** A comprehension stops with the exception of the first item that
    raises; when only one exception can be raised, that is the one. *)
Lemma rmap_raise {A B} (f : A -> result B) (e : exn) (xs : list A) :
  Forall (fun x => forall e', f x = Raise e' -> e' = e) xs ->
  Exists (fun x => is_ok (f x) = false) xs ->
  rmap f xs = Raise e.
Proof.
  intros Hall Hex. induction Hex as [x xs Hx|x xs Hex IH];
    inversion Hall as [|? ? Hx' Hrest]; subst; simpl.
  - destruct (f x) as [y|e'] eqn:E; [discriminate|].
    rewrite (Hx' e' eq_refl). reflexivity.
  - destruct (f x) as [y|e'] eqn:E; simpl.
    + rewrite (IH Hrest). reflexivity.
    + rewrite (Hx' e' eq_refl). reflexivity.
Qed.

Section ModelEdges.

Context {num TorchGen PyGen Optimizer : Type}.
Context `{Numeric num} `{Runtime num TorchGen PyGen Optimizer}.
Abbreviation world := (@world num TorchGen PyGen).

Lemma forward_layers_step (train : bool) (l l1 : @layer num)
    (ls : list layer) (t t1 : tensor) (w w1 : world) :
  forward_layer train l t w = Ok ((t1, l1), w1) ->
  forward_layers train (l :: ls) t w
  = match forward_layers train ls t1 w1 with
    | Ok ((t2, ls2), w2) => Ok ((t2, l1 :: ls2), w2)
    | Raise e => Raise e
    end.
Proof.
  intros E. cbn [forward_layers]. unfold bind at 1. rewrite E.
  unfold bind, ret. destruct (forward_layers train ls t1 w1) as [[[t2 ls2] w2]|];
    reflexivity.
Qed.

Lemma forward_layers_raise (train : bool) (l : @layer num)
    (ls : list layer) (t : tensor) (w : world) (e : exn) :
  forward_layer train l t w = Raise e ->
  forward_layers train (l :: ls) t w = Raise e.
Proof.
  intros E. cbn [forward_layers]. unfold bind at 1. rewrite E. reflexivity.
Qed.

Lemma call_forward (model : @Sequential num) (images : list (@image num))
    (w : world) :
  call model images w
  = match forward_layers (training model) (layers model) (Images images)
                         (noted 1 w) with
    | Ok ((out, ls), w') =>
        Ok ((out, {| layers := ls; training := training model |}), w')
    | Raise e => Raise e
    end.
Proof.
  unfold call, bind, note_forward, modify, ret.
  change ({| wandb_calls := wandb_calls w; torch_gen := torch_gen w;
             py_gen := py_gen w; grad_enabled := grad_enabled w;
             forward_modes := forward_modes w ++ [grad_enabled w] |})
    with (noted 1 w).
  destruct (forward_layers _ _ _ _) as [[[out ls] w']|]; reflexivity.
Qed.

(** A row of the wrong length is refused by an affine layer. *)
Lemma linear_row_wrong_length (W : list (list num)) (b x : list num)
    (i o : nat) :
  has_sig (Linear W b) (SLinear i o) = true -> (0 < o)%nat ->
  length x <> i -> linear_row W b x = Raise RuntimeError.
Proof.
  cbn [has_sig]. intros Hs Ho Hx.
  apply andb_prop in Hs. destruct Hs as [Hs _].
  apply andb_prop in Hs. destruct Hs as [HW HWr].
  apply Nat.eqb_eq in HW.
  destruct W as [|r W]; [simpl in HW; lia|].
  cbn [forallb] in HWr. apply andb_prop in HWr. destruct HWr as [Hr _].
  apply Nat.eqb_eq in Hr.
  unfold linear_row. cbn [forallb].
  destruct (Nat.eqb_spec (length r) (length x)) as [E|_]; [lia|].
  reflexivity.
Qed.

Lemma linear_row_only_runtime_error (W : list (list num)) (b x : list num)
    (e : exn) :
  linear_row W b x = Raise e -> e = RuntimeError.
Proof.
  unfold linear_row. destruct (_ && _); [discriminate|].
  intros E. inversion E. reflexivity.
Qed.

Lemma call_single_raises (model : @Sequential num)
    (p : Float64.float) (img : @image num) (w : world) :
  has_architecture (layers model) (mlp_architecture p) = true ->
  training model = true ->
  is_28x28 img = true ->
  call model [img] w = Raise ValueError.
Proof.
  intros Ha Ht Hi. rewrite call_forward, Ht.
  destruct (mlp_inv (layers model) p Ha)
    as (W1 & b1 & gamma & beta & rm & rv & nbt & W2 & b2 & -> & S1 & S2 & S3).
  assert (F0 : Forall (fun r => length r = (28 * 28)%nat)
                      (map flatten_image [img])).
  { constructor; [|constructor]. apply Nat.eqb_eq. exact Hi. }
  destruct (linear_matrix_ok W1 b1 _ _ _ S1 F0) as (rows1 & E1 & L1 & F1).
  rewrite (forward_layers_step true Flatten Flatten _ (Images [img])
             (Matrix (map flatten_image [img])) (noted 1 w) (noted 1 w)
             eq_refl).
  rewrite (forward_layers_step true (Linear W1 b1) (Linear W1 b1) _ _
             (Matrix rows1) _ (noted 1 w)).
  2:{ cbn [forward_layer]. unfold bind, lift, ret. rewrite E1. reflexivity. }
  rewrite (forward_layers_raise true _ _ _ _ ValueError); [reflexivity|].
  cbn [forward_layer]. unfold lift, batch_norm.
  simpl in L1. rewrite L1. reflexivity.
Qed.

(** X4. In training mode, a module with the architecture of [get_model]
    refuses a batch that holds a single 28x28 image: batch normalization
    raises ValueError. *)
Theorem call_single_image_train (model : @Sequential num)
    (p : Float64.float) (img : @image num) (w : world) :
  has_architecture (layers model) (mlp_architecture p) = true ->
  training model = true ->
  is_28x28 img = true ->
  call model [img] w = Raise ValueError.
Proof. apply call_single_raises. Qed.

(** X5. A module with the architecture of [get_model] refuses, in either
    mode, a batch in which some image does not flatten to [28 * 28]
    entries: the first affine layer raises RuntimeError. *)
Theorem call_wrong_image_size (model : @Sequential num)
    (p : Float64.float) (images : list (@image num)) (w : world) :
  has_architecture (layers model) (mlp_architecture p) = true ->
  existsb (fun img => negb (is_28x28 img)) images = true ->
  call model images w = Raise RuntimeError.
Proof.
  intros Ha Hex. rewrite call_forward.
  destruct (mlp_inv (layers model) p Ha)
    as (W1 & b1 & gamma & beta & rm & rv & nbt & W2 & b2 & -> & S1 & S2 & S3).
  rewrite (forward_layers_step (training model) Flatten Flatten _
             (Images images) (Matrix (map flatten_image images))
             (noted 1 w) (noted 1 w) eq_refl).
  rewrite (forward_layers_raise _ _ _ _ _ RuntimeError); [reflexivity|].
  cbn [forward_layer]. unfold bind, lift, linear.
  rewrite (rmap_raise (linear_row W1 b1) RuntimeError); [reflexivity| |].
  - apply Forall_true. intros x e'. apply linear_row_only_runtime_error.
  - apply existsb_exists in Hex. destruct Hex as (img & Hin & Hbad).
    apply List.Exists_exists. exists (flatten_image img).
    split; [apply in_map; exact Hin|].
    rewrite (linear_row_wrong_length W1 b1 _ _ _ S1); [reflexivity|lia|].
    unfold is_28x28 in Hbad. apply negb_true_iff in Hbad.
    apply Nat.eqb_neq in Hbad. exact Hbad.
Qed.

(** *** What a forward pass changes *)

Lemma forward_layer_frame (train : bool) (l l' : @layer num)
    (t t' : tensor) (w w' : world) :
  forward_layer train l t w = Ok ((t', l'), w') ->
  layer_parameters l' = layer_parameters l
  /\ map (fun b => snd b) (layer_buffers l')
     = map (fun b => snd b + (if train then 1 else 0)) (layer_buffers l)
  /\ wandb_calls w' = wandb_calls w /\ py_gen w' = py_gen w
  /\ grad_enabled w' = grad_enabled w
  /\ forward_modes w' = forward_modes w.
Proof.
  destruct l as [|W b|gamma beta rm rv nbt| |q]; cbn [forward_layer].
  - unfold ret. intros E. inversion E; subst. repeat split.
  - unfold bind, lift, ret. destruct (linear W b t); [|discriminate].
    intros E. inversion E; subst. repeat split.
  - unfold lift, batch_norm. destruct t as [xs|rows]; [discriminate|].
    destruct train.
    + destruct (length rows =? 1)%nat; [discriminate|].
      destruct (negb _); [discriminate|].
      intros E. inversion E; subst. repeat split.
    + destruct (negb _); [discriminate|].
      intros E. inversion E; subst. cbn [layer_buffers map snd].
      rewrite Z.add_0_r. repeat split.
  - unfold ret. intros E. inversion E; subst. repeat split.
  - unfold dropout. destruct train.
    + unfold bind, with_torch_gen, ret.
      destruct (bernoulli_mask (torch_gen w) q) as [keep g].
      intros E. inversion E; subst. repeat split.
    + unfold bind, ret. intros E. inversion E; subst. repeat split.
Qed.

Lemma forward_layers_frame (train : bool) (ls : list (@layer num)) :
  forall (ls' : list layer) (t t' : tensor) (w w' : world),
  forward_layers train ls t w = Ok ((t', ls'), w') ->
  concat (map layer_parameters ls') = concat (map layer_parameters ls)
  /\ map (fun b => snd b) (concat (map layer_buffers ls'))
     = map (fun k => k + (if train then 1 else 0))
           (map (fun b => snd b) (concat (map layer_buffers ls)))
  /\ wandb_calls w' = wandb_calls w /\ py_gen w' = py_gen w
  /\ grad_enabled w' = grad_enabled w
  /\ forward_modes w' = forward_modes w.
Proof.
  induction ls as [|l ls IH]; intros ls' t t' w w' E.
  - cbn [forward_layers] in E. unfold ret in E. inversion E; subst.
    repeat split.
  - cbn [forward_layers] in E. unfold bind at 1 in E.
    destruct (forward_layer train l t w) as [[[t1 l1] w1]|] eqn:E1;
      [|discriminate].
    unfold bind at 1 in E.
    destruct (forward_layers train ls t1 w1) as [[[t2 ls2] w2]|] eqn:E2;
      [|discriminate].
    unfold ret in E. inversion E; subst.
    destruct (forward_layer_frame _ _ _ _ _ _ _ E1)
      as (P1 & B1 & A1 & Y1 & G1 & M1).
    destruct (IH _ _ _ _ _ E2) as (P2 & B2 & A2 & Y2 & G2 & M2).
    cbn [map concat]. rewrite !map_app, P1, P2, B1, B2, !map_map.
    repeat split; congruence.
Qed.

Lemma call_frame (model model' : @Sequential num)
    (images : list (@image num)) (out : @tensor num) (w w' : world) :
  call model images w = Ok ((out, model'), w') ->
  parameters model' = parameters model
  /\ training model' = training model
  /\ tracked model'
     = map (fun k => k + (if training model then 1 else 0)) (tracked model)
  /\ wandb_calls w' = wandb_calls w /\ py_gen w' = py_gen w
  /\ grad_enabled w' = grad_enabled w
  /\ forward_modes w' = forward_modes w ++ [grad_enabled w].
Proof.
  rewrite call_forward. intros E.
  destruct (forward_layers _ _ _ _) as [[[out1 ls] w1]|] eqn:E1;
    [|discriminate].
  inversion E; subst.
  destruct (forward_layers_frame _ _ _ _ _ _ _ E1)
    as (P & B & A & Y & G & M).
  unfold parameters, tracked, buffers. cbn [layers training].
  repeat split; assumption.
Qed.

(** X6. A forward pass of a module never changes its parameters or its
    mode.  In training mode every normalization layer has tracked one more
    batch afterwards; in eval mode the counters stay.  The logger, the
    generator of [random] and the gradient mode are left alone, and the
    pass is noted once. *)
Theorem call_keeps_parameters (model model' : @Sequential num)
    (images : list (@image num)) (out : @tensor num) (w w' : world) :
  call model images w = Ok ((out, model'), w') ->
  parameters model' = parameters model
  /\ training model' = training model
  /\ tracked model'
     = map (fun k => k + (if training model then 1 else 0)) (tracked model)
  /\ wandb_calls w' = wandb_calls w /\ py_gen w' = py_gen w
  /\ grad_enabled w' = grad_enabled w
  /\ forward_modes w' = forward_modes w ++ [grad_enabled w].
Proof. apply call_frame. Qed.

(** X7. In eval mode the scores of an image do not depend on the batch it
    is in: on a non-empty batch of images that the module accepts one by
    one, the forward pass returns one row per image, the row that the
    module gives for that image alone.  The module is returned as it was
    and no generator is drawn from. *)
Theorem call_eval_rowwise (model : @Sequential num)
    (images : list (@image num)) (w : world) :
  training model = false ->
  images <> [] ->
  forallb (fun img => is_ok (scores_one (layers model) img)) images = true ->
  exists rows,
    call model images w = Ok ((Matrix rows, model), noted 1 w)
    /\ Forall2 (fun img row => scores_one (layers model) img = Ok row)
               images rows.
Proof.
  intros Ht Hne Hall. apply forallb_Forall_true in Hall.
  exists (map (example_scores (layers model)) images). split.
  - rewrite call_eval by exact Ht.
    rewrite eval_layers_batch by assumption. reflexivity.
  - apply Forall2_fmap_r. apply Forall_Forall2_diag.
    eapply Forall_impl; [exact Hall|]. intros img Hok. cbv beta in Hok.
    unfold compose, example_scores.
    destruct (scores_one (layers model) img) as [row|];
      [reflexivity|discriminate].
Qed.


End ModelEdges.

(** ** Validation: the empty loader, the mode it leaves, the table *)

Section ValidationEdges.

Context {num TorchGen PyGen Optimizer : Type}.
Context `{Numeric num} `{Runtime num TorchGen PyGen Optimizer}.
Abbreviation world := (@world num TorchGen PyGen).

Lemma argmax_from_range (xs : list num) :
  forall (i : Z) (best : num) (best_i : Z),
  0 <= best_i < i ->
  0 <= argmax_from xs i best best_i < i + Z.of_nat (length xs).
Proof.
  induction xs as [|x xs IH]; intros i best best_i Hb; cbn [argmax_from].
  - simpl. lia.
  - cbn [length]. destruct (flt best x).
    + pose proof (IH (i + 1) x i ltac:(lia)). lia.
    + pose proof (IH (i + 1) best best_i ltac:(lia)). lia.
Qed.

(** The scores that a module with the architecture of [get_model] gives,
    in eval mode, for one 28x28 image: a row of ten. *)
Lemma eval_mlp_one (ls : list (@layer num)) (p : Float64.float)
    (img : @image num) :
  has_architecture ls (mlp_architecture p) = true ->
  is_28x28 img = true ->
  exists row, scores_one ls img = Ok row /\ length row = 10%nat.
Proof.
  intros Ha Hi.
  destruct (mlp_inv ls p Ha)
    as (W1 & b1 & gamma & beta & rm & rv & nbt & W2 & b2 & -> & S1 & S2 & S3).
  assert (F0 : Forall (fun r => length r = (28 * 28)%nat)
                      (map flatten_image [img])).
  { constructor; [|constructor]. apply Nat.eqb_eq. exact Hi. }
  destruct (linear_matrix_ok W1 b1 _ _ _ S1 F0) as (rows1 & E1 & L1 & F1).
  destruct (batch_norm_ok false gamma beta rm rv nbt 256 rows1 S2 F1)
    as (rows2 & bn' & E2 & _ & L2 & F2 & _); [discriminate|].
  destruct (map_matrix_shape (fun _ => relu) 256 rows2 F2) as [L3 F3].
  destruct (linear_matrix_ok W2 b2 _ _ _ S3 F3) as (rows5 & E5 & L5 & F5).
  assert (L : length rows5 = 1%nat)
    by (rewrite L5, L3, L2, L1; reflexivity).
  destruct rows5 as [|row [|row' rows5]]; try discriminate.
  exists row. split; [|inversion F5; assumption].
  unfold scores_one. cbn [eval_layers eval_layer flatten rbind].
  rewrite E1. cbn [rbind]. rewrite E2. cbn [rbind fst map_tensor].
  rewrite E5. reflexivity.
Qed.

Lemma empty_validation_raises (model : @Sequential num)
    (valid_dl : DataLoader) (loss_func : @tensor num -> list Z -> num)
    (log_images : bool) (batch_idx : option Z) (w : world) :
  dataset valid_dl = [] ->
  validate_model model valid_dl loss_func log_images batch_idx w
  = Raise ZeroDivisionError.
Proof.
  intros E.
  unfold validate_model, inference_mode, iter_loader, bind, get,
    set_grad_enabled, modify, with_torch_gen, lift, ret.
  rewrite E. destruct (shuffle valid_dl); reflexivity.
Qed.

(** X8. On a loader whose dataset is empty, [validate_model] raises
    ZeroDivisionError: the loop runs no iteration and the means divide by
    the size of the dataset. *)
Theorem validate_model_empty (model : @Sequential num)
    (valid_dl : DataLoader) (loss_func : @tensor num -> list Z -> num)
    (log_images : bool) (batch_idx : option Z) (w : world) :
  dataset valid_dl = [] ->
  validate_model model valid_dl loss_func log_images batch_idx w
  = Raise ZeroDivisionError.
Proof. apply empty_validation_raises. Qed.


(** X10. With [log_images] set, [validate_model] logs exactly one record:
    the predictions table of the batch whose position is [batch_idx],
    without commit.  Nothing else reaches the logger. *)
Theorem validate_model_logs_table (model : @Sequential num)
    (valid_dl : DataLoader) (loss_func : @tensor num -> list Z -> num)
    (k : Z) (batch : list (@sample num)) (w : world) :
  shuffle valid_dl = false ->
  (0 < length (dataset valid_dl))%nat ->
  forallb (can_validate (layers model) true) (dataset valid_dl) = true ->
  0 <= k ->
  batches_of valid_dl !! Z.to_nat k = Some batch ->
  exists r model' w',
    validate_model model valid_dl loss_func true (Some k) w
    = Ok ((r, model'), w')
    /\ wandb_calls w'
       = wandb_calls w
         ++ [wandb_log {[ "predictions_table" :=
                            VTable (predictions_table (layers model) batch) ]}
                       false].
Proof.
  intros Hsh Hlen Hall Hk Hb.
  destruct (validate_model_ok model valid_dl loss_func true (Some k) w Hsh)
    as (tbls & acc & E & _ & T).
  { destruct (dataset valid_dl); [simpl in Hlen; lia|discriminate]. }
  { apply forallb_Forall_true. exact Hall. }
  do 3 eexists. split; [exact E|]. cbn [after_validation wandb_calls].
  f_equal. change (default 0 (Some k)) with k in T.
  rewrite Z.sub_0_r, Hb in T.
  apply lookup_lt_Some in Hb.
  unfold table_calls in T. cbn [andb] in T.
  destruct (Z.leb_spec 0 k); [|lia].
  destruct (Z.ltb_spec k (0 + Z.of_nat (length (batches_of valid_dl))));
    [|lia].
  cbn [andb] in T. destruct T as (b & Eb & ->). inversion Eb; subst b.
  reflexivity.
Qed.

(** X11. [validate_model] logs nothing when [log_images] is off, and also
    when [batch_idx] is negative or not below the number of batches: a
    table that was asked for is then skipped without any error. *)
Theorem validate_model_logs_nothing (model : @Sequential num)
    (valid_dl : DataLoader) (loss_func : @tensor num -> list Z -> num)
    (log_images : bool) (batch_idx : option Z) (w : world) :
  shuffle valid_dl = false ->
  (0 < length (dataset valid_dl))%nat ->
  forallb (can_validate (layers model) log_images) (dataset valid_dl) = true ->
  log_images = false \/ default 0 batch_idx < 0
  \/ Z.of_nat (length (batches_of valid_dl)) <= default 0 batch_idx ->
  exists r model' w',
    validate_model model valid_dl loss_func log_images batch_idx w
    = Ok ((r, model'), w')
    /\ wandb_calls w' = wandb_calls w.
Proof.
  intros Hsh Hlen Hall Hno.
  destruct (validate_model_ok model valid_dl loss_func log_images batch_idx w
              Hsh) as (tbls & acc & E & _ & T).
  { destruct (dataset valid_dl); [simpl in Hlen; lia|discriminate]. }
  { apply forallb_Forall_true. exact Hall. }
  do 3 eexists. split; [exact E|]. cbn [after_validation wandb_calls].
  replace tbls with (@nil (@wandb_call num)); [apply app_nil_r|].
  unfold table_calls in T.
  destruct log_images; cbn [andb] in T; [|symmetry; exact T].
  destruct Hno as [Hf|[Hneg|Hbig]]; [discriminate| |].
  - destruct (Z.leb_spec 0 (default 0 batch_idx)); [lia|].
    symmetry. exact T.
  - destruct (Z.ltb_spec (default 0 batch_idx)
                (0 + Z.of_nat (length (batches_of valid_dl)))); [lia|].
    rewrite andb_false_r in T. symmetry. exact T.
Qed.

(** X12. For a module with the architecture of [get_model] and a 28x28
    image, the predicted class is an index into the ten scores: it lies in
    [0 .. 9].  An example whose label lies outside this range is therefore
    never counted as correct. *)
Theorem predicted_class_in_range (ls : list (@layer num))
    (p : Float64.float) (s : @sample num) :
  has_architecture ls (mlp_architecture p) = true ->
  is_28x28 (fst s) = true ->
  exists row k,
    scores_one ls (fst s) = Ok row
    /\ length row = 10%nat
    /\ argmax row = Ok k
    /\ 0 <= k < 10
    /\ (is_correct ls s = true -> 0 <= snd s < 10).
Proof.
  intros Ha Hi.
  destruct (eval_mlp_one ls p (fst s) Ha Hi) as (row & Es & Hl).
  destruct row as [|x xs]; [discriminate|].
  exists (x :: xs), (argmax_from xs 1 x 0).
  split; [exact Es|]. split; [exact Hl|]. split; [reflexivity|].
  pose proof (argmax_from_range xs 1 x 0 ltac:(lia)) as R.
  simpl in Hl.
  split; [lia|].
  unfold is_correct, predicted_label, example_scores. rewrite Es.
  cbn [argmax]. intros Eq. apply Z.eqb_eq in Eq. lia.
Qed.

End ValidationEdges.

(** ** The predictions table *)

Section TableProperties.

Context {num TorchGen PyGen Optimizer : Type}.
Context `{Numeric num} `{Runtime num TorchGen PyGen Optimizer}.
Abbreviation world := (@world num TorchGen PyGen).

Lemma table_columns_eq :
  table_columns
  = ["image"; "pred"; "target"; "score_0"; "score_1"; "score_2"; "score_3";
     "score_4"; "score_5"; "score_6"; "score_7"; "score_8"; "score_9"].
Proof. vm_compute. reflexivity. Qed.

Lemma table_row_ok (ch : list (list num)) (img : @image num) (pred targ : Z)
    (prob : list num) :
  table_row (ch :: img) pred targ prob
  = Ok ([CImage (map (map (fun x => fmul x (of_int 255))) ch);
         CInt pred; CInt targ] ++ map CNum prob).
Proof.
  unfold table_row.
  change (getitem (ch :: img) 0) with (@Ok (list (list num)) ch).
  reflexivity.
Qed.

Lemma fill_table_rows (images : list (@image num)) :
  forall (predicted labels : list Z) (probs : list (list num)) (t0 : Table),
  length (columns t0) = 13%nat ->
  Forall (fun img => img <> []) images ->
  Forall (fun prob => length prob = 10%nat) probs ->
  exists rows,
    fill_table t0 images predicted labels probs
    = Ok {| columns := columns t0; data := data t0 ++ rows |}
    /\ length rows
       = Nat.min (Nat.min (length images) (length predicted))
                 (Nat.min (length labels) (length probs))
    /\ forall (i : nat) img pred targ prob,
         images !! i = Some img -> predicted !! i = Some pred ->
         labels !! i = Some targ -> probs !! i = Some prob ->
         rows !! i
         = Some ([CImage (map (map (fun x => fmul x (of_int 255))) (hd [] img));
                  CInt pred; CInt targ] ++ map CNum prob).
Proof.
  assert (Hnil : forall t0 : @Table num,
            Ok t0 = Ok {| columns := columns t0; data := data t0 ++ [] |}).
  { intros [c d]. cbn [columns data]. rewrite app_nil_r. reflexivity. }
  induction images as [|img images IH];
    intros predicted labels probs t0 Hcol Himg Hprob.
  - exists []. split; [apply Hnil|]. split; [reflexivity|].
    intros i ? ? ? ? E. destruct i; discriminate.
  - destruct predicted as [|pred predicted].
    { exists []. split; [apply Hnil|]. split; [reflexivity|].
      intros i ? ? ? ? _ E. destruct i; discriminate. }
    destruct labels as [|targ labels].
    { exists []. split; [apply Hnil|]. split; [simpl; lia|].
      intros i ? ? ? ? _ _ E. destruct i; discriminate. }
    destruct probs as [|prob probs].
    { exists []. split; [apply Hnil|]. split; [simpl; lia|].
      intros i ? ? ? ? _ _ _ E. destruct i; discriminate. }
    inversion Himg as [|? ? Hne Himg']; subst.
    inversion Hprob as [|? ? Hlen Hprob']; subst.
    destruct img as [|ch img]; [contradiction|].
    set (row := [CImage (map (map (fun x => fmul x (of_int 255))) ch);
                 CInt pred; CInt targ] ++ map CNum prob).
    destruct (IH predicted labels probs
                {| columns := columns t0; data := data t0 ++ [row] |}
                Hcol Himg' Hprob') as (rows & E & L & R).
    exists (row :: rows). split; [|split].
    + cbn [fill_table]. rewrite table_row_ok. fold row. cbn [rbind].
      unfold add_data.
      replace (length row =? length (columns t0))%nat with true.
      2:{ symmetry. apply Nat.eqb_eq. subst row.
          rewrite Hcol, length_app, length_map, Hlen. reflexivity. }
      cbn [rbind]. rewrite E. cbn [columns data].
      rewrite <- app_assoc. reflexivity.
    + cbn [length]. rewrite L. lia.
    + intros [|i] img' pred' targ' prob' E1 E2 E3 E4; simpl in *.
      * inversion E1; inversion E2; inversion E3; inversion E4; subst.
        reflexivity.
      * apply (R i); assumption.
Qed.

Lemma fill_table_bad_row (images : list (@image num)) :
  forall (predicted labels : list Z) (probs : list (list num)) (t0 : Table),
  length (columns t0) = 13%nat ->
  Forall (fun img => img <> []) images ->
  length predicted = length images ->
  length labels = length images ->
  length probs = length images ->
  Exists (fun prob => length prob <> 10%nat) probs ->
  fill_table t0 images predicted labels probs = Raise ValueError.
Proof.
  induction images as [|img images IH];
    intros predicted labels probs t0 Hcol Himg Lp Ll Lr Hex.
  - destruct probs; [inversion Hex|discriminate].
  - destruct predicted as [|pred predicted]; [discriminate|].
    destruct labels as [|targ labels]; [discriminate|].
    destruct probs as [|prob probs]; [discriminate|].
    inversion Himg as [|? ? Hne Himg']; subst.
    destruct img as [|ch img]; [contradiction|].
    cbn [fill_table]. rewrite table_row_ok. cbn [rbind]. unfold add_data.
    rewrite Hcol, length_app, length_map.
    destruct (Nat.eq_dec (length prob) 10%nat) as [E|N].
    + rewrite E. cbn [length Nat.add Nat.eqb rbind].
      apply IH; simpl in *; try lia; try assumption.
      inversion Hex as [? ? Hbad|? ? Hbad]; subst; [contradiction|exact Hbad].
    + destruct (Nat.eqb_spec (length [CImage (map (map (fun x =>
                   fmul x (of_int 255))) ch); CInt pred; CInt targ]
                 + length prob)%nat 13%nat) as [E|_]; [simpl in E; lia|].
      reflexivity.
Qed.

(** X13. [log_image_table] sends the logger one record, without commit,
    that holds a table with the thirteen columns [image], [pred], [target],
    [score_0] ... [score_9].  The table has one row for each position that
    all four arguments have (the shortest argument decides), and the row
    at a position holds the first channel of the image scaled by 255, the
    prediction, the label and the scores of that position.  This needs
    every image to have a channel and every row of scores to have ten
    entries. *)
Theorem log_image_table_rows (images : list (@image num))
    (predicted labels : list Z) (probs : list (list num)) (w : world) :
  Forall (fun img => img <> []) images ->
  Forall (fun prob => length prob = 10%nat) probs ->
  exists t,
    log_image_table images predicted labels probs w
    = Ok (tt, logged [wandb_log {[ "predictions_table" := VTable t ]} false] w)
    /\ columns t
       = ["image"; "pred"; "target"; "score_0"; "score_1"; "score_2";
          "score_3"; "score_4"; "score_5"; "score_6"; "score_7"; "score_8";
          "score_9"]
    /\ length (data t)
       = Nat.min (Nat.min (length images) (length predicted))
                 (Nat.min (length labels) (length probs))
    /\ forall (i : nat) img pred targ prob,
         images !! i = Some img -> predicted !! i = Some pred ->
         labels !! i = Some targ -> probs !! i = Some prob ->
         data t !! i
         = Some ([CImage (map (map (fun x => fmul x (of_int 255))) (hd [] img));
                  CInt pred; CInt targ] ++ map CNum prob).
Proof.
  intros Himg Hprob.
  destruct (fill_table_rows images predicted labels probs
              {| columns := table_columns; data := [] |}
              ltac:(rewrite table_columns_eq; reflexivity) Himg Hprob)
    as (rows & E & L & R).
  exists {| columns := table_columns; data := rows |}.
  split; [|split; [apply table_columns_eq|split; [exact L|exact R]]].
  unfold log_image_table, bind, lift, emit, modify, ret. rewrite E.
  reflexivity.
Qed.

(** X14. When the four arguments have the same length and some row of
    scores does not have ten entries, [log_image_table] raises ValueError
    (the row does not fill the columns of the table) and the logger
    receives nothing. *)
Theorem log_image_table_bad_row (images : list (@image num))
    (predicted labels : list Z) (probs : list (list num)) (w : world) :
  Forall (fun img => img <> []) images ->
  length predicted = length images ->
  length labels = length images ->
  length probs = length images ->
  Exists (fun prob => length prob <> 10%nat) probs ->
  log_image_table images predicted labels probs w = Raise ValueError.
Proof.
  intros Himg Lp Ll Lr Hex.
  unfold log_image_table, bind, lift.
  rewrite (fill_table_bad_row images predicted labels probs
             {| columns := table_columns; data := [] |}
             ltac:(rewrite table_columns_eq; reflexivity) Himg Lp Ll Lr Hex).
  reflexivity.
Qed.

End TableProperties.

(** ** Trials that cannot finish *)

Section TrialEdges.

Context {num TorchGen PyGen Optimizer : Type}.
Context `{Numeric num} `{Runtime num TorchGen PyGen Optimizer}.
Abbreviation world := (@world num TorchGen PyGen).

Lemma for_each_app {A S : Type} (xs ys : list A)
    (body : A -> S -> prog world S) :
  forall (s : S) (w : world),
  for_each (xs ++ ys) body s w
  = match for_each xs body s w with
    | Ok (s', w') => for_each ys body s' w'
    | Raise e => Raise e
    end.
Proof.
  induction xs as [|x xs IH]; intros s w; [reflexivity|].
  cbn [app for_each]. unfold bind.
  destruct (body x s w) as [[s1 w1]|]; [apply IH|reflexivity].
Qed.

Lemma enumerate_from_app {A} (xs ys : list A) :
  forall i : Z,
  enumerate_from i (xs ++ ys)
  = enumerate_from i xs ++ enumerate_from (i + Z.of_nat (length xs)) ys.
Proof.
  induction xs as [|x xs IH]; intros i; cbn [app enumerate_from length].
  - rewrite Z.add_0_r. reflexivity.
  - rewrite IH. do 3 f_equal. lia.
Qed.

Lemma length_concat_uniform {A} (n : nat) (ls : list (list A)) :
  Forall (fun l => length l = n) ls ->
  length (concat ls) = (length ls * n)%nat.
Proof.
  induction 1 as [|l ls Hl _ IH]; [reflexivity|].
  cbn [concat length]. rewrite length_app, Hl, IH. lia.
Qed.

(** When the number of examples leaves a remainder of one, the last batch
    of a pass holds a single example and all the others are full. *)
Lemma batch_sampler_last_single (bs : Z) (items : list (@sample num)) :
  2 <= bs -> Z.of_nat (length items) mod bs = 1 ->
  Forall (fun x => is_28x28 (fst x) = true) items ->
  exists pre x,
    batch_sampler (Z.to_nat bs) [] items = pre ++ [[x]]
    /\ Forall trainable pre
    /\ is_28x28 (fst x) = true.
Proof.
  intros Hbs Hmod Himg.
  pose proof (batches_shape_sampler bs items ltac:(lia)) as Hshape.
  pose proof (batch_sampler_Forall _ (Z.to_nat bs) items Himg) as Hall.
  pose proof (batch_sampler_concat (Z.to_nat bs) [] items) as Hcat.
  simpl in Hcat.
  destruct (list_snoc_inv (batch_sampler (Z.to_nat bs) [] items))
    as (pre & last & E).
  { intros E. rewrite E in Hcat. simpl in Hcat. subst items.
    simpl in Hmod. rewrite Z.mod_0_l in Hmod by lia. lia. }
  rewrite E in Hshape, Hall, Hcat.
  apply Forall_app in Hall. destruct Hall as [Hpre Hlast].
  assert (Hfull : Forall (fun b => length b = Z.to_nat bs) pre).
  { apply Forall_lookup. intros i b Hb.
    destruct (Hshape i b) as (_ & _ & Hf).
    { apply lookup_app_l_Some. exact Hb. }
    apply lookup_lt_Some in Hb.
    specialize (Hf ltac:(rewrite length_app; simpl; lia)). lia. }
  destruct (Hshape (length pre) last) as (Hpos & Hle & _).
  { rewrite lookup_app_r by lia. rewrite Nat.sub_diag. reflexivity. }
  assert (Hone : length last = 1%nat).
  { assert (Hl : Z.of_nat (length items)
                 = Z.of_nat (length last) + Z.of_nat (length pre) * bs).
    { rewrite <- Hcat, concat_app, length_app.
      rewrite (length_concat_uniform _ _ Hfull). cbn [concat].
      rewrite app_nil_r, Nat2Z.inj_add, Nat2Z.inj_mul, Z2Nat.id by lia.
      lia. }
    rewrite Hl, Z_mod_plus_full in Hmod.
    destruct (Z.eq_dec (Z.of_nat (length last)) bs) as [Eb|Nb].
    - rewrite Eb, Z_mod_same_full in Hmod. lia.
    - rewrite Z.mod_small in Hmod by lia. lia. }
  destruct last as [|x [|y last]]; try discriminate.
  exists pre, x. split; [exact E|]. split.
  - apply Forall_lookup. intros i b Hb. split.
    + apply Forall_forallb_true.
      rewrite Forall_lookup in Hpre. apply (Hpre i b Hb).
    + rewrite Forall_lookup in Hfull. rewrite (Hfull i b Hb). lia.
  - inversion Hlast as [|? ? Hx _]. inversion Hx. assumption.
Qed.

(** The training steps on batches that the model accepts all succeed. *)
Lemma train_loop_runs (p : Float64.float) (n e : Z)
    (batches : list (list (@sample num))) :
  forall (i : Z) (s : train_vars) (w : world),
  has_architecture (layers (model s)) (mlp_architecture p) = true ->
  training (model s) = true ->
  Forall trainable batches -> grad_enabled w = true ->
  exists s' w',
    for_each (enumerate_from i batches) (train_step n e) s w = Ok (s', w')
    /\ has_architecture (layers (model s')) (mlp_architecture p) = true
    /\ training (model s') = true
    /\ grad_enabled w' = true.
Proof.
  induction batches as [|b batches IH]; intros i s w Ha Ht Hall Hg.
  - exists s, w. auto.
  - inversion Hall as [|? ? Hb Hrest]; subst.
    destruct (train_step_ok p n e i b s w Ha Ht Hb Hg)
      as (s1 & w1 & loss & E & X & _ & Ha1 & Ht1 & _).
    assert (Hg1 : grad_enabled w1 = true)
      by (destruct X as (_ & G & _); congruence).
    destruct (IH (i + 1) s1 w1 Ha1 Ht1 Hrest Hg1)
      as (s' & w' & E2 & R).
    exists s', w'. split; [|exact R].
    cbn [enumerate_from for_each]. unfold bind. rewrite E. exact E2.
Qed.

Lemma train_step_single (p : Float64.float) (n e i : Z) (x : @sample num)
    (s : train_vars) (w : world) :
  has_architecture (layers (model s)) (mlp_architecture p) = true ->
  training (model s) = true ->
  is_28x28 (fst x) = true ->
  train_step n e (i, [x]) s w = Raise ValueError.
Proof.
  intros Ha Ht Hi. unfold train_step. unfold bind at 1. cbn [map].
  rewrite (call_single_raises (model s) p (fst x) w Ha Ht Hi). reflexivity.
Qed.

Lemma run_epoch_single (p : Float64.float) (config : Config.t)
    (tsub : list (@sample num)) (valid_dl : DataLoader) (bs n e : Z)
    (s : train_vars) (w : world) :
  2 <= bs ->
  Z.of_nat (length tsub) mod bs = 1 ->
  Forall (fun x => is_28x28 (fst x) = true) tsub ->
  has_architecture (layers (model s)) (mlp_architecture p) = true ->
  grad_enabled w = true ->
  run_epoch config {| dataset := tsub; batch_size := bs; shuffle := true |}
            valid_dl n e s w
  = Raise ValueError.
Proof.
  intros Hbs Hmod Ft Ha Hg.
  set (train_dl := {| dataset := tsub; batch_size := bs; shuffle := true |}).
  destruct (iter_loader_shuffled train_dl w eq_refl)
    as (items & g & Ei & Li & Fi).
  cbn [dataset batch_size train_dl] in Ei, Li, Fi.
  destruct (batch_sampler_last_single bs items Hbs)
    as (pre & x & Eb & Tp & Hx).
  { rewrite Li. exact Hmod. }
  { apply Fi. exact Ft. }
  rewrite Eb in Ei.
  set (s0 := {| model := set_training true (model s);
                optimizer := optimizer s; example_ct := example_ct s;
                step_ct := step_ct s; metrics := metrics s |}).
  destruct (train_loop_runs p n e pre 0 s0 (set_torch_gen g w) Ha eq_refl
              Tp Hg) as (s1 & w1 & E1 & Ha1 & Ht1 & _).
  unfold run_epoch. fold s0. unfold bind at 1. rewrite Ei.
  unfold bind at 1. unfold enumerate.
  rewrite enumerate_from_app, for_each_app, E1.
  cbn [enumerate_from for_each]. unfold bind at 1.
  rewrite (train_step_single p n e _ x s1 w1 Ha1 Ht1 Hx). reflexivity.
Qed.



End TrialEdges.

(** ** What an epoch does to the counters and to the module *)

Section EpochInvariants.

Context {num TorchGen PyGen Optimizer : Type}.
Context `{Numeric num} `{Runtime num TorchGen PyGen Optimizer}.
Abbreviation world := (@world num TorchGen PyGen).

Lemma map_layer_buffers_imap (ls : list (@layer num)) :
  forall F : nat -> @layer num -> @layer num,
  (forall k l, layer_buffers (F k l) = layer_buffers l) ->
  map layer_buffers (imap F ls) = map layer_buffers ls.
Proof.
  induction ls as [|l ls IH]; intros F HF; [reflexivity|].
  rewrite imap_cons. cbn [map]. rewrite HF, IH; [reflexivity|].
  intros k l'. apply HF.
Qed.

(** The optimizer writes parameters only: the buffers stay. *)
Lemma tracked_apply_update (f : nat -> nat -> list nat -> num)
    (m : @Sequential num) (b : bool) :
  tracked {| layers := apply_update f (layers m); training := b |}
  = tracked m.
Proof.
  unfold tracked, buffers, apply_update. cbn [layers].
  rewrite map_layer_buffers_imap; [reflexivity|].
  intros k l. destruct l; reflexivity.
Qed.

Lemma train_step_inv (n e i : Z) (b : list (@sample num))
    (s s' : train_vars) (w w' : world) :
  train_step n e (i, b) s w = Ok (s', w') ->
  example_ct s' = example_ct s + Z.of_nat (length b)
  /\ step_ct s' = step_ct s + 1
  /\ (exists loss,
        metrics s' = Some (train_record loss e (example_ct s') (step_ct s)))
  /\ training (model s') = training (model s)
  /\ tracked (model s')
     = map (fun k => k + (if training (model s) then 1 else 0))
           (tracked (model s))
  /\ (exists calls, wandb_calls w' = wandb_calls w ++ calls)
  /\ grad_enabled w' = grad_enabled w /\ py_gen w' = py_gen w.
Proof.
  unfold train_step. intros E. unfold bind at 1 in E.
  destruct (call (model s) (map fst b) w) as [[[out m1] w1]|] eqn:Ec;
    [|discriminate].
  destruct (call_frame _ _ _ _ _ _ Ec) as (_ & T1 & K1 & A1 & Y1 & G1 & _).
  unfold bind at 1, get in E.
  destruct (negb (grad_enabled w1)); [discriminate|].
  destruct (adam_step (optimizer s) (layers m1) (map fst b) (map snd b))
    as [opt upd].
  rewrite length_map in E.
  destruct (i + 1 <? n); unfold bind, emit, modify, ret in E;
    inversion E; subst s' w'; clear E;
    cbn [example_ct step_ct metrics model training wandb_calls grad_enabled
         py_gen];
    rewrite tracked_apply_update;
    (split; [reflexivity|]); (split; [reflexivity|]);
    (split; [eexists; reflexivity|]); (split; [exact T1|]);
    (split; [exact K1|]); (split; [|split; assumption]).
  - eexists. rewrite A1. reflexivity.
  - exists []. rewrite app_nil_r. exact A1.
Qed.

Lemma train_loop_inv (n e : Z) (batches : list (list (@sample num))) :
  forall (i : Z) (s s' : train_vars) (w w' : world),
  for_each (enumerate_from i batches) (train_step n e) s w = Ok (s', w') ->
  example_ct s' = example_ct s + Z.of_nat (length (concat batches))
  /\ step_ct s' = step_ct s + Z.of_nat (length batches)
  /\ match batches with
     | [] => metrics s' = metrics s
     | _ => exists loss,
          metrics s'
          = Some (train_record loss e (example_ct s') (step_ct s' - 1))
     end
  /\ training (model s') = training (model s)
  /\ tracked (model s')
     = map (fun k => k + (if training (model s)
                          then Z.of_nat (length batches) else 0))
           (tracked (model s))
  /\ (exists calls, wandb_calls w' = wandb_calls w ++ calls)
  /\ grad_enabled w' = grad_enabled w /\ py_gen w' = py_gen w.
Proof.
  induction batches as [|b batches IH]; intros i s s' w w' E.
  - cbn [enumerate_from for_each] in E. unfold ret in E.
    inversion E; subst. cbn [concat length].
    repeat split; try lia.
    + rewrite (map_ext _ id), map_id; [reflexivity|].
      intros k. destruct (training (model s')); unfold id; simpl; lia.
    + exists []. rewrite app_nil_r. reflexivity.
  - cbn [enumerate_from for_each] in E. unfold bind in E.
    destruct (train_step n e (i, b) s w) as [[s1 w1]|] eqn:E1;
      [|discriminate].
    destruct (train_step_inv _ _ _ _ _ _ _ _ E1)
      as (X1 & C1 & (loss1 & M1) & T1 & K1 & (c1 & A1) & G1 & Y1).
    destruct (IH _ _ _ _ _ E)
      as (X2 & C2 & M2 & T2 & K2 & (c2 & A2) & G2 & Y2).
    cbn [concat length]. rewrite length_app.
    split; [lia|]. split; [lia|]. split; [|split; [congruence|split]].
    + destruct batches as [|b' batches].
      * exists loss1. rewrite M2, M1. do 2 f_equal.
        -- simpl in X2. lia.
        -- simpl in C2. lia.
      * exact M2.
    + rewrite K2, K1, map_map, T1. apply map_ext. intros k.
      destruct (training (model s)); lia.
    + split; [|split; congruence].
      exists (c1 ++ c2). rewrite A2, A1, <- app_assoc. reflexivity.
Qed.

(** One pass over a loader, shuffled or not, hands out as many examples
    as the dataset holds, in [ceil(n / batch_size)] batches. *)
Lemma iter_loader_counts (dl : @DataLoader num) (w w1 : world)
    (batches : list (list (@sample num))) :
  0 < batch_size dl ->
  iter_loader dl w = Ok (batches, w1) ->
  length (concat batches) = length (dataset dl)
  /\ Z.of_nat (length batches)
     = ceil_div (Z.of_nat (length (dataset dl))) (batch_size dl).
Proof.
  intros Hbs E.
  assert (Hitems : exists items,
            batches = batch_sampler (Z.to_nat (batch_size dl)) [] items
            /\ length items = length (dataset dl)).
  { unfold iter_loader, bind, with_torch_gen, lift, ret in E.
    destruct (shuffle dl).
    - pose proof (randperm_spec (length (dataset dl)) (torch_gen w)) as [L _].
      destruct (randperm (length (dataset dl)) (torch_gen w)) as [idx g].
      simpl in L.
      destruct (rmap (getitem (dataset dl)) idx) as [items|] eqn:Er;
        [|discriminate].
      inversion E; subst. exists items. split; [reflexivity|].
      rewrite (rmap_length _ _ _ Er). exact L.
    - rewrite rmap_getitem_seq in E. inversion E; subst.
      exists (dataset dl). split; reflexivity. }
  destruct Hitems as (items & -> & L). split.
  - rewrite batch_sampler_concat. simpl. exact L.
  - rewrite batch_sampler_count by (simpl; lia).
    simpl. rewrite L, Z2Nat.id by lia. reflexivity.
Qed.

Lemma validate_batch_calls (loss_func : @tensor num -> list Z -> num)
    (log_images : bool) (bidx : Z) (item : Z * list (@sample num))
    (s s' : valid_vars) (w w' : world) :
  validate_batch loss_func log_images bidx item s w = Ok (s', w') ->
  exists calls, wandb_calls w' = wandb_calls w ++ calls.
Proof.
  intros E. destruct item as [i batch].
  unfold validate_batch in E. unfold bind at 1 in E.
  destruct (call (v_model s) (map fst batch) w) as [[[out m1] w1]|] eqn:Ec;
    [|discriminate].
  destruct (call_frame _ _ _ _ _ _ Ec) as (_ & _ & _ & A1 & _).
  unfold bind at 1 in E. destruct (class_scores out) as [scores|];
    simpl in E; [|discriminate].
  unfold bind at 1 in E. destruct (rmap argmax scores) as [pred|];
    simpl in E; [|discriminate].
  unfold bind in E.
  destruct ((i =? bidx) && log_images).
  - unfold log_image_table, bind, lift, emit, modify, ret in E.
    destruct (fill_table _ _ _ _ _); inversion E; subst; simpl.
    eexists. rewrite A1. reflexivity.
  - unfold ret in E. inversion E; subst.
    exists []. rewrite app_nil_r. exact A1.
Qed.

Lemma validate_loop_calls (loss_func : @tensor num -> list Z -> num)
    (log_images : bool) (bidx : Z) (items : list (Z * list (@sample num))) :
  forall (s s' : valid_vars) (w w' : world),
  for_each items (validate_batch loss_func log_images bidx) s w
  = Ok (s', w') ->
  exists calls, wandb_calls w' = wandb_calls w ++ calls.
Proof.
  induction items as [|item items IH]; intros s s' w w' E; simpl in E.
  - inversion E; subst. exists []. rewrite app_nil_r. reflexivity.
  - unfold bind in E.
    destruct (validate_batch _ _ _ item s w) as [[s1 w1]|] eqn:E1;
      [|discriminate].
    destruct (validate_batch_calls _ _ _ _ _ _ _ _ E1) as (c1 & A1).
    destruct (IH _ _ _ _ E) as (c2 & A2).
    exists (c1 ++ c2). rewrite A2, A1, <- app_assoc. reflexivity.
Qed.

Lemma validate_model_calls (model model' : @Sequential num) (dl : DataLoader)
    (loss_func : @tensor num -> list Z -> num) (log_images : bool)
    (bidx : option Z) (r : num * Float64.float) (w w' : world) :
  validate_model model dl loss_func log_images bidx w = Ok ((r, model'), w') ->
  exists calls, wandb_calls w' = wandb_calls w ++ calls.
Proof.
  unfold validate_model. intros E. unfold bind at 1 in E.
  match type of E with
  | match ?c w with _ => _ end = _ => destruct (c w) as [[s w1]|] eqn:Ei
  end; [|discriminate].
  unfold inference_mode in Ei. unfold bind at 1, get in Ei.
  unfold bind at 1 in Ei. unfold set_grad_enabled at 1, modify at 1 in Ei.
  unfold bind at 1 in Ei. unfold bind at 1 in Ei.
  match type of Ei with
  | match match iter_loader dl ?w0 with _ => _ end with _ => _ end = _ =>
      set (wi := w0) in *; destruct (iter_loader dl wi) as [[bs w2]|] eqn:El
  end; [|discriminate].
  destruct (iter_loader_frame dl wi w2 bs El) as (A2 & _).
  match type of Ei with
  | match ?c with _ => _ end = _ => destruct c as [[s2 w3]|] eqn:Ev
  end; [|discriminate].
  apply validate_loop_calls in Ev as (calls & A3).
  unfold bind, set_grad_enabled, modify, ret in Ei.
  inversion Ei; subst s w1. clear Ei.
  destruct (_ =? 0); [discriminate|].
  unfold bind, lift, ret in E.
  destruct (Float64.int_truediv _ _); inversion E; subst.
  exists calls. simpl. rewrite A3, A2. subst wi. reflexivity.
Qed.

Lemma run_epoch_inv (config : Config.t) (train_dl valid_dl : @DataLoader num)
    (n e : Z) (s s' : train_vars) (w w' : world) :
  0 < batch_size train_dl -> dataset train_dl <> [] ->
  run_epoch config train_dl valid_dl n e s w = Ok (s', w') ->
  let steps := ceil_div (Z.of_nat (length (dataset train_dl)))
                        (batch_size train_dl) in
  example_ct s' = example_ct s + Z.of_nat (length (dataset train_dl))
  /\ step_ct s' = step_ct s + steps
  /\ (exists pre loss vl va,
        wandb_calls w'
        = wandb_calls w ++ pre
          ++ [wandb_log (val_record vl va
                         ∪ train_record loss e (example_ct s')
                                        (step_ct s' - 1)) true])
  /\ training (model s') = false
  /\ tracked (model s') = map (fun k => k + steps) (tracked (model s))
  /\ grad_enabled w' = grad_enabled w /\ py_gen w' = py_gen w.
Proof.
  intros Hbs Hne E steps. unfold run_epoch in E.
  unfold bind at 1 in E.
  destruct (iter_loader train_dl w) as [[batches w1]|] eqn:Ei;
    [|discriminate].
  destruct (iter_loader_counts _ _ _ _ Hbs Ei) as [Lc Lb]. fold steps in Lb.
  destruct (iter_loader_frame _ _ _ _ Ei) as (A1 & G1 & _ & Y1).
  unfold bind at 1 in E. unfold enumerate in E.
  match type of E with
  | match ?c with _ => _ end = _ => destruct c as [[s1 w2]|] eqn:El
  end; [|discriminate].
  destruct (train_loop_inv _ _ _ _ _ _ _ _ El)
    as (X2 & C2 & M2 & T2 & K2 & (c2 & A2) & G2 & Y2).
  cbn [example_ct step_ct metrics model set_training training] in X2, C2, M2,
    T2, K2.
  unfold bind at 1 in E.
  destruct (validate_model (model s1) valid_dl cross_entropy
              (e =? Config.epochs config - 1) None w2)
    as [[[[vl va] m3] w3]|] eqn:Ev; [|discriminate].
  destruct (validate_model_frame _ _ _ _ _ _ _ _ _ Ev) as (-> & G3 & _ & Y3).
  destruct (validate_model_calls _ _ _ _ _ _ _ _ _ Ev) as (c3 & A3).
  assert (Hb : batches <> []).
  { intros Eb. subst batches. simpl in Lc.
    destruct (dataset train_dl); [contradiction|discriminate]. }
  destruct batches as [|b0 batches]; [contradiction|].
  destruct M2 as (loss & M2). rewrite M2 in E.
  unfold bind, lift, emit, modify, ret in E.
  inversion E; subst s' w'; clear E.
  cbn [example_ct step_ct model set_training training wandb_calls
       grad_enabled py_gen].
  split; [lia|]. split; [lia|]. split; [|split; [reflexivity|split]].
  - exists (c2 ++ c3), loss, vl, va.
    rewrite A3, A2, A1, <- !app_assoc. reflexivity.
  - unfold tracked, buffers in K2 |- *. cbn [layers set_training] in K2 |- *.
    rewrite K2. apply map_ext. intros k. lia.
  - split; congruence.
Qed.

(** X17. Whenever an epoch completes, [example_ct] has grown by the size of
    the training dataset and [step_ct] by the number of batches,
    [ceil(n / batch_size)]; the last call that the logger received is the
    committed record that merges the validation metrics with the metrics
    of the last step, whose [train/example_ct] is the new [example_ct] and
    whose [train/step_ct] is the new [step_ct] minus one. *)
Theorem run_epoch_counters (config : Config.t)
    (train_dl valid_dl : @DataLoader num) (n e : Z) (s s' : train_vars)
    (w w' : world) :
  0 < batch_size train_dl -> dataset train_dl <> [] ->
  run_epoch config train_dl valid_dl n e s w = Ok (s', w') ->
  example_ct s' = example_ct s + Z.of_nat (length (dataset train_dl))
  /\ step_ct s'
     = step_ct s + ceil_div (Z.of_nat (length (dataset train_dl)))
                            (batch_size train_dl)
  /\ exists pre loss vl va,
       wandb_calls w'
       = wandb_calls w ++ pre
         ++ [wandb_log (val_record vl va
                        ∪ train_record loss e (example_ct s')
                                       (step_ct s' - 1)) true].
Proof.
  intros Hbs Hne E.
  destruct (run_epoch_inv config train_dl valid_dl n e s s' w w' Hbs Hne E)
    as (X & C & L & _).
  auto.
Qed.

(** X18. Whenever an epoch completes, the module is left in eval mode, and
    each of its normalization layers has tracked exactly one more batch
    per training step of the epoch: the passes of the validation do not
    count.  The gradient mode and the generator of [random] are as they
    were before. *)
Theorem run_epoch_module_state (config : Config.t)
    (train_dl valid_dl : @DataLoader num) (n e : Z) (s s' : train_vars)
    (w w' : world) :
  0 < batch_size train_dl -> dataset train_dl <> [] ->
  run_epoch config train_dl valid_dl n e s w = Ok (s', w') ->
  training (model s') = false
  /\ tracked (model s')
     = map (fun k => k + ceil_div (Z.of_nat (length (dataset train_dl)))
                                  (batch_size train_dl))
           (tracked (model s))
  /\ grad_enabled w' = grad_enabled w /\ py_gen w' = py_gen w.
Proof.
  intros Hbs Hne E.
  destruct (run_epoch_inv config train_dl valid_dl n e s s' w w' Hbs Hne E)
    as (_ & _ & _ & T & K & G & Y).
  auto.
Qed.


End EpochInvariants.

(** ** The sessions of [main] and the history of a trial *)

Section Sessions.

Context {num TorchGen PyGen Optimizer : Type}.
Context `{Numeric num} `{Runtime num TorchGen PyGen Optimizer}.
Abbreviation world := (@world num TorchGen PyGen).

Lemma main_loop_sessions (xs : list Z) :
  forall w : world,
  data_ok = true -> (train_size mod 128 =? 1) = false ->
  grad_enabled w = true ->
  exists w' traces,
    for_each xs (fun _ _ => let* config := make_config in trial config) tt w
    = Ok (tt, w')
    /\ wandb_calls w' = wandb_calls w ++ concat traces
    /\ length traces = length xs
    /\ Forall session_calls traces.
Proof.
  induction xs as [|x xs IH]; intros w Hd Hm Hg.
  - exists w, []. split; [reflexivity|]. simpl. rewrite app_nil_r.
    repeat split. constructor.
  - destruct (make_config_spec w) as (k & g & Hk & Ec).
    set (config := {| Config.epochs := 5; Config.batch_size := 128;
                      Config.lr := Float64.lit_1e_3;
                      Config.dropout := uniform_at k |}) in *.
    set (w1 := {| wandb_calls := wandb_calls w; torch_gen := torch_gen w;
                  py_gen := g; grad_enabled := grad_enabled w;
                  forward_modes := forward_modes w |}) in *.
    pose proof (Float64Facts.uniform_at_range k Hk) as [Hlo Hhi].
    assert (B0 : 0 <= Float64.lit_0_01) by (vm_compute; discriminate).
    assert (B1 : Float64.of_bits 7205759403792793 (-53) <= Float64.one)
      by (vm_compute; discriminate).
    assert (B3 : Float64.of_bits 7205759403792793 (-53) < Float64.lit_0_80)
      by (vm_compute; reflexivity).
    assert (Hc : config_ok config = true).
    { unfold config_ok. cbn [Config.epochs Config.batch_size Config.dropout
                             config].
      rewrite Hm. cbn [negb].
      replace (0 <=? uniform_at k) with true
        by (symmetry; apply Z.leb_le; lia).
      replace (uniform_at k <=? Float64.one) with true
        by (symmetry; apply Z.leb_le; lia).
      reflexivity. }
    destruct (trial_ok config w1 Hc Hd Hg)
      as (w2 & calls & valid_dl & _ & Et & (A2 & G2 & _) & T).
    assert (Hg2 : grad_enabled w2 = true) by (rewrite G2; exact Hg).
    destruct (IH w2 Hd Hm Hg2) as (w' & traces & El & A3 & L & F).
    exists w', (calls :: traces).
    split; [|split; [|split]].
    + cbn [for_each]. unfold bind at 1. unfold bind at 1.
      rewrite Ec, Et. exact El.
    + cbn [concat]. rewrite A3, A2, <- app_assoc. reflexivity.
    + simpl. rewrite L. reflexivity.
    + constructor; [|exact F].
      destruct T as (blocks & -> & Lb & B).
      destruct (blocks_logs _ _ _ blocks (trial_calls_blocks _ _ _ _ B))
        as [Fl Fv].
      exists (uniform_at k), (concat blocks).
      split; [reflexivity|]. split; [lia|]. split; [exact Fl|].
      rewrite Fv. cbn [Config.epochs config] in Lb. lia.
Qed.


Lemma main_loop_draws (xs : list Z) :
  forall w : world,
  data_ok = true -> (train_size mod 128 =? 1) = false ->
  grad_enabled w = true ->
  exists w' traces,
    for_each xs (fun _ _ => let* config := make_config in trial config) tt w
    = Ok (tt, w')
    /\ wandb_calls w' = wandb_calls w ++ concat traces
    /\ map (fun t => head t) traces
       = map (fun d => Some (wandb_init "mnist-classification"
                                        (config_dict (main_config d))))
             (dropout_draws (length xs) (py_gen w)).
Proof.
  induction xs as [|x xs IH]; intros w Hd Hm Hg.
  - exists w, []. split; [reflexivity|]. simpl. rewrite app_nil_r.
    split; reflexivity.
  - destruct (make_config_spec w) as (k & g & Hk & Ec).
    assert (Er : random_uniform PyGen genrand_uint32 Float64.lit_0_01
                   Float64.lit_0_80 (py_gen w) = (uniform_at k, g)).
    { unfold make_config, bind, with_py_gen, ret in Ec.
      destruct (random_uniform PyGen genrand_uint32 Float64.lit_0_01
                  Float64.lit_0_80 (py_gen w)) as [d g'].
      apply (f_equal (fun r : result (Config.t * world) =>
                        match r with
                        | Ok (c, w0) => (Config.dropout c, py_gen w0)
                        | Raise _ => (0, py_gen w)
                        end)) in Ec.
      cbv beta iota in Ec. cbn [Config.dropout py_gen] in Ec. exact Ec. }
    change {| Config.epochs := 5; Config.batch_size := 128;
              Config.lr := Float64.lit_1e_3;
              Config.dropout := uniform_at k |}
      with (main_config (uniform_at k)) in Ec.
    set (w1 := {| wandb_calls := wandb_calls w; torch_gen := torch_gen w;
                  py_gen := g; grad_enabled := grad_enabled w;
                  forward_modes := forward_modes w |}) in *.
    pose proof (Float64Facts.uniform_at_range k Hk) as [Hlo Hhi].
    assert (B0 : 0 <= Float64.lit_0_01) by (vm_compute; discriminate).
    assert (B1 : Float64.of_bits 7205759403792793 (-53) <= Float64.one)
      by (vm_compute; discriminate).
    assert (Hc : config_ok (main_config (uniform_at k)) = true).
    { unfold config_ok, main_config.
      cbn [Config.epochs Config.batch_size Config.dropout].
      rewrite Hm. cbn [negb].
      replace (0 <=? uniform_at k) with true
        by (symmetry; apply Z.leb_le; lia).
      replace (uniform_at k <=? Float64.one) with true
        by (symmetry; apply Z.leb_le; lia).
      reflexivity. }
    destruct (trial_ok (main_config (uniform_at k)) w1 Hc Hd Hg)
      as (w2 & calls & valid_dl & _ & Et & (A2 & G2 & Y2) & T).
    assert (Hg2 : grad_enabled w2 = true) by (rewrite G2; exact Hg).
    destruct (IH w2 Hd Hm Hg2) as (w' & traces & El & A3 & D).
    exists w', (calls :: traces).
    split; [|split].
    + cbn [for_each]. unfold bind at 1. unfold bind at 1.
      rewrite Ec, Et. exact El.
    + cbn [concat]. rewrite A3, A2, <- app_assoc. reflexivity.
    + cbn [length dropout_draws map]. rewrite Er. cbn [map].
      rewrite D, Y2. cbn [py_gen w1]. f_equal.
      destruct T as (blocks & -> & _). reflexivity.
Qed.


(** *** The rows of the history *)

Lemma wandb_history_committed (recs : list (gmap string (@value num)))
    (rest : list (@wandb_call num)) :
  wandb_history ∅ (map (fun r => wandb_log r true) recs ++ rest)
  = recs ++ wandb_history ∅ rest.
Proof.
  induction recs as [|r recs IH]; [reflexivity|].
  cbn [map app wandb_history]. rewrite IH, (right_id_L ∅ (∪)). reflexivity.
Qed.

Lemma records_step_keys (e : Z) (recs : list (gmap string (@value num))) :
  forall c0 : Z,
  (forall (k : nat) r, recs !! k = Some r ->
     is_train_record e (c0 + Z.of_nat k) r) ->
  map (fun r => r !! "train/step_ct") recs
  = map (fun z => Some (VInt z)) (steps_upto c0 (length recs)).
Proof.
  induction recs as [|r recs IH]; intros c0 Hr; [reflexivity|].
  destruct (Hr O r eq_refl) as (loss & x & ->).
  cbn [map length].
  change (S (length recs)) with (1 + length recs)%nat.
  rewrite steps_upto_app, steps_upto_1. cbn [app map].
  rewrite Z.add_0_r. f_equal. apply IH.
  intros k r' Hk. specialize (Hr (S k) r' Hk).
  replace (c0 + Z.of_nat 1 + Z.of_nat k) with (c0 + Z.of_nat (S k)) by lia.
  exact Hr.
Qed.

(** The rows that the calls of one epoch add to the history: one per
    step, with the step counter of that step. *)
Lemma epoch_history (n E e : Z) (fb : option (list (@sample num)))
    (b : list wandb_call) :
  epoch_calls n E e fb b ->
  exists rows,
    (forall rest, wandb_history ∅ (b ++ rest) = rows ++ wandb_history ∅ rest)
    /\ map (fun r => r !! "train/step_ct") rows
       = map (fun z => Some (VInt z)) (steps_upto (e * n) (Z.to_nat n)).
Proof.
  intros (recs & last & tbls & vl & va & ls & -> & L & R & Rl & T).
  destruct Rl as (loss & x & ->).
  pose proof (records_step_keys e recs (e * n) R) as Hk.
  replace (Z.to_nat n) with (length recs + 1)%nat by lia.
  rewrite steps_upto_app, steps_upto_1, map_app. cbn [map].
  replace (e * n + Z.of_nat (length recs)) with (e * n + n - 1) by lia.
  unfold table_calls in T. destruct (e =? E - 1).
  - destruct T as (b0 & _ & ->).
    eexists (recs ++ [_]). split.
    + intros rest. rewrite <- !app_assoc, wandb_history_committed.
      cbn [app wandb_history]. reflexivity.
    + rewrite map_app, Hk. reflexivity.
  - subst tbls. eexists (recs ++ [_]). split.
    + intros rest. rewrite <- !app_assoc, wandb_history_committed.
      cbn [app wandb_history]. reflexivity.
    + rewrite map_app, Hk. reflexivity.
Qed.

Lemma blocks_history (n E : Z) (fb : option (list (@sample num)))
    (blocks : list (list wandb_call)) :
  forall e0 : nat,
  (forall (j : nat) b, blocks !! j = Some b ->
     epoch_calls n E (Z.of_nat (e0 + j)) fb b) ->
  exists rows,
    (forall rest,
       wandb_history ∅ (concat blocks ++ rest) = rows ++ wandb_history ∅ rest)
    /\ map (fun r => r !! "train/step_ct") rows
       = map (fun z => Some (VInt z))
             (steps_upto (Z.of_nat e0 * n) (length blocks * Z.to_nat n)).
Proof.
  induction blocks as [|b blocks IH]; intros e0 Hb.
  - exists []. split; reflexivity.
  - pose proof (Hb O b eq_refl) as Hb0. rewrite Nat.add_0_r in Hb0.
    pose proof (epoch_calls_n_pos _ _ _ _ _ Hb0) as Hn.
    destruct (epoch_history _ _ _ _ _ Hb0) as (rows1 & H1 & K1).
    destruct (IH (S e0)) as (rows2 & H2 & K2).
    { intros j b' Hj. replace (S e0 + j)%nat with (e0 + S j)%nat by lia.
      apply Hb. exact Hj. }
    exists (rows1 ++ rows2). split.
    + intros rest. cbn [concat]. rewrite <- !app_assoc, H1, H2. reflexivity.
    + rewrite map_app, K1, K2. cbn [length].
      change (S (length blocks) * Z.to_nat n)%nat
        with (Z.to_nat n + length blocks * Z.to_nat n)%nat.
      rewrite steps_upto_app, map_app. do 3 f_equal. lia.
Qed.


End Sessions.

(** ** The properties on concrete inputs *)

Import Example.
#[local] Existing Instance rt.

(** Three examples in batches of two: the mean loss divides by three, not
    by the two batches, and two of the three examples are classified
    correctly. *)
Example validate_model_tiny :
  validate_model tiny_model tiny_loader count_loss false None start
  = Ok ((5 # 3, Float64.round_ratio (2 * Float64.one) 3,
         set_training false tiny_model),
        {| wandb_calls := []; torch_gen := 0; py_gen := 0;
           grad_enabled := true; forward_modes := [false; false] |}).
Proof. vm_compute. reflexivity. Qed.

Lemma validate_model_mean_loss_witness :
  shuffle tiny_loader = false
  /\ (0 < length (dataset tiny_loader))%nat
  /\ forallb (can_validate (layers tiny_model) false) (dataset tiny_loader)
     = true
  /\ exists accuracy model' w',
       validate_model tiny_model tiny_loader count_loss false None start
       = Ok ((fdiv (weighted_loss_sum (layers tiny_model) count_loss
                                      (batches_of tiny_loader))
                   (of_int (Z.of_nat (length (dataset tiny_loader)))),
              accuracy, model'), w')
       /\ length (concat (batches_of tiny_loader))
          = length (dataset tiny_loader).
Proof.
  split; [reflexivity|]. split; [simpl; lia|].
  split; [vm_compute; reflexivity|].
  apply (validate_model_mean_loss tiny_model tiny_loader count_loss false
           None start);
    [reflexivity|simpl; lia|vm_compute; reflexivity].
Defined.


Lemma validate_model_keeps_parameters_witness :
  validate_model tiny_model tiny_loader count_loss false None start
  = Ok ((5 # 3, Float64.round_ratio (2 * Float64.one) 3,
         set_training false tiny_model),
        {| wandb_calls := []; torch_gen := 0; py_gen := 0;
           grad_enabled := true; forward_modes := [false; false] |})
  /\ parameters (set_training false tiny_model) = parameters tiny_model
  /\ buffers (set_training false tiny_model) = buffers tiny_model
  /\ (exists k, [false; false] = forward_modes start ++ replicate k false)
  /\ true = grad_enabled start.
Proof.
  split; [vm_compute; reflexivity|].
  apply (validate_model_keeps_parameters tiny_model
           (set_training false tiny_model) tiny_loader count_loss false None
           (5 # 3, Float64.round_ratio (2 * Float64.one) 3) start
           {| wandb_calls := []; torch_gen := 0; py_gen := 0;
              grad_enabled := true; forward_modes := [false; false] |}).
  vm_compute. reflexivity.
Defined.


Lemma get_model_architecture_witness :
  0 <= Float64.lit_0_01 < Float64.one
  /\ exists model w',
       get_model Float64.lit_0_01 start = Ok (model, w')
       /\ has_architecture (layers model)
            [SFlatten; SLinear (28 * 28) 256; SBatchNorm1d 256; SReLU;
             SDropout Float64.lit_0_01; SLinear 256 10] = true
       /\ forall (train : bool) (images : list (@image Q)) (w1 : @world Q Z Z),
            forallb is_28x28 images = true ->
            (train = true -> length images <> 1%nat) ->
            exists logits model' w2,
              call (set_training train model) images w1
              = Ok ((Matrix logits, model'), w2)
              /\ length logits = length images
              /\ Forall (fun row => length row = 10%nat) logits.
Proof.
  split; [split; [vm_compute; discriminate|vm_compute; reflexivity]|].
  apply (get_model_architecture Float64.lit_0_01 start).
  split; [vm_compute; discriminate|vm_compute; reflexivity].
Defined.




(** ** The further properties on concrete inputs *)

Import Samples.

Lemma get_dataloader_value_error_witness :
  (0 = 0 \/ 128 <= 0)
  /\ get_dataloader true 128 (Some 0) = Raise ValueError.
Proof.
  split; [left; reflexivity|].
  apply (get_dataloader_value_error true 128 0). left. reflexivity.
Defined.


Lemma iter_loader_shuffled_once_witness :
  shuffle even_loader = true /\ 0 < batch_size even_loader
  /\ exists batches g,
       iter_loader even_loader start = Ok (batches, set_torch_gen g start)
       /\ concat batches ≡ₚ dataset even_loader
       /\ Z.of_nat (length batches)
          = ceil_div (Z.of_nat (length (dataset even_loader)))
                     (batch_size even_loader)
       /\ batches_shape (batch_size even_loader) batches.
Proof.
  split; [reflexivity|]. split; [simpl; lia|].
  apply (iter_loader_shuffled_once even_loader start);
    [reflexivity|simpl; lia].
Defined.

Lemma call_single_image_train_witness :
  has_architecture (layers mlp_model) (mlp_architecture Float64.lit_0_01)
  = true
  /\ training mlp_model = true
  /\ is_28x28 blank_image = true
  /\ call mlp_model [blank_image] start = Raise ValueError.
Proof.
  split; [vm_compute; reflexivity|]. split; [reflexivity|].
  split; [vm_compute; reflexivity|].
  apply (call_single_image_train mlp_model Float64.lit_0_01 blank_image
           start);
    [vm_compute; reflexivity|reflexivity|vm_compute; reflexivity].
Defined.

Lemma call_wrong_image_size_witness :
  has_architecture (layers mlp_model) (mlp_architecture Float64.lit_0_01)
  = true
  /\ existsb (fun img => negb (is_28x28 img)) [blank_image; [[[0; 1]]]%Q]
     = true
  /\ call mlp_model [blank_image; [[[0; 1]]]%Q] start = Raise RuntimeError.
Proof.
  split; [vm_compute; reflexivity|]. split; [vm_compute; reflexivity|].
  apply (call_wrong_image_size mlp_model Float64.lit_0_01
           [blank_image; [[[0; 1]]]%Q] start);
    vm_compute; reflexivity.
Defined.

Lemma call_keeps_parameters_witness :
  exists out model' w',
    call bn_model [[[[1; 0]]]; [[[0; 1]]]]%Q start = Ok ((out, model'), w')
    /\ parameters model' = parameters bn_model
    /\ training model' = training bn_model
    /\ tracked model'
       = map (fun k => k + (if training bn_model then 1 else 0))
             (tracked bn_model)
    /\ wandb_calls w' = wandb_calls start /\ py_gen w' = py_gen start
    /\ grad_enabled w' = grad_enabled start
    /\ forward_modes w' = forward_modes start ++ [grad_enabled start].
Proof.
  do 3 eexists. split; [vm_compute; reflexivity|].
  eapply (call_keeps_parameters bn_model _ [[[[1; 0]]]; [[[0; 1]]]]%Q).
  vm_compute. reflexivity.
Defined.

Lemma call_eval_rowwise_witness :
  training ten_model = false
  /\ map fst (dataset tiny_loader) <> []
  /\ forallb (fun img => is_ok (scores_one (layers ten_model) img))
             (map fst (dataset tiny_loader)) = true
  /\ exists rows,
       call ten_model (map fst (dataset tiny_loader)) start
       = Ok ((Matrix rows, ten_model), noted 1 start)
       /\ Forall2 (fun img row => scores_one (layers ten_model) img = Ok row)
                  (map fst (dataset tiny_loader)) rows.
Proof.
  split; [reflexivity|]. split; [discriminate|].
  split; [vm_compute; reflexivity|].
  apply (call_eval_rowwise ten_model (map fst (dataset tiny_loader)) start);
    [reflexivity|discriminate|vm_compute; reflexivity].
Defined.

Lemma validate_model_empty_witness :
  dataset empty_loader = []
  /\ validate_model tiny_model empty_loader count_loss false None start
     = Raise ZeroDivisionError.
Proof.
  split; [reflexivity|].
  apply (validate_model_empty tiny_model empty_loader count_loss false None
           start).
  reflexivity.
Defined.


Lemma validate_model_logs_table_witness :
  shuffle tiny_loader = false
  /\ (0 < length (dataset tiny_loader))%nat
  /\ forallb (can_validate (layers ten_model) true) (dataset tiny_loader)
     = true
  /\ 0 <= 1
  /\ batches_of tiny_loader !! Z.to_nat 1 = Some [([[[1; 1]]]%Q, 1)]
  /\ exists r model' w',
       validate_model ten_model tiny_loader count_loss true (Some 1) start
       = Ok ((r, model'), w')
       /\ wandb_calls w'
          = wandb_calls start
            ++ [wandb_log
                  {[ "predictions_table" :=
                       VTable (predictions_table (layers ten_model)
                                 [([[[1; 1]]]%Q, 1)]) ]}
                  false].
Proof.
  split; [reflexivity|]. split; [simpl; lia|].
  split; [vm_compute; reflexivity|]. split; [lia|].
  split; [reflexivity|].
  apply (validate_model_logs_table ten_model tiny_loader count_loss 1
           [([[[1; 1]]]%Q, 1)] start);
    [reflexivity|simpl; lia|vm_compute; reflexivity|lia|reflexivity].
Defined.

Lemma validate_model_logs_nothing_witness :
  shuffle tiny_loader = false
  /\ (0 < length (dataset tiny_loader))%nat
  /\ forallb (can_validate (layers ten_model) true) (dataset tiny_loader)
     = true
  /\ (true = false \/ default 0 (Some 2) < 0
      \/ Z.of_nat (length (batches_of tiny_loader)) <= default 0 (Some 2))
  /\ exists r model' w',
       validate_model ten_model tiny_loader count_loss true (Some 2) start
       = Ok ((r, model'), w')
       /\ wandb_calls w' = wandb_calls start.
Proof.
  split; [reflexivity|]. split; [simpl; lia|].
  split; [vm_compute; reflexivity|].
  split; [right; right; simpl; lia|].
  apply (validate_model_logs_nothing ten_model tiny_loader count_loss true
           (Some 2) start);
    [reflexivity|simpl; lia|vm_compute; reflexivity|right; right; simpl; lia].
Defined.

Lemma predicted_class_in_range_witness :
  has_architecture (layers mlp_model) (mlp_architecture Float64.lit_0_01)
  = true
  /\ is_28x28 (fst (blank_image, 3)) = true
  /\ exists row k,
       scores_one (layers mlp_model) (fst (blank_image, 3)) = Ok row
       /\ length row = 10%nat
       /\ argmax row = Ok k
       /\ 0 <= k < 10
       /\ (is_correct (layers mlp_model) (blank_image, 3) = true ->
           0 <= snd (blank_image, 3) < 10).
Proof.
  split; [vm_compute; reflexivity|]. split; [vm_compute; reflexivity|].
  apply (predicted_class_in_range (layers mlp_model) Float64.lit_0_01
           (blank_image, 3));
    vm_compute; reflexivity.
Defined.

Lemma log_image_table_rows_witness :
  Forall (fun img : @image Q => img <> []) [[[[1; 0]]]; [[[0; 1]]]]%Q
  /\ Forall (fun prob : list Q => length prob = 10%nat) [replicate 10 0%Q]
  /\ exists t,
       log_image_table [[[[1; 0]]]; [[[0; 1]]]]%Q [7; 8] [7; 9]
                       [replicate 10 0%Q] start
       = Ok (tt, logged [wandb_log {[ "predictions_table" := VTable t ]}
                                   false] start)
       /\ columns t
          = ["image"; "pred"; "target"; "score_0"; "score_1"; "score_2";
             "score_3"; "score_4"; "score_5"; "score_6"; "score_7";
             "score_8"; "score_9"]
       /\ length (data t)
          = Nat.min
              (Nat.min (length [[[[1; 0]]]; [[[0; 1]]]]%Q) (length [7; 8]))
              (Nat.min (length [7; 9]) (length [replicate 10 0%Q]))
       /\ forall (i : nat) img pred targ prob,
            [[[[1; 0]]]; [[[0; 1]]]]%Q !! i = Some img ->
            [7; 8] !! i = Some pred ->
            [7; 9] !! i = Some targ ->
            [replicate 10 0%Q] !! i = Some prob ->
            data t !! i
            = Some ([CImage (map (map (fun x => fmul x (of_int 255)))
                                 (hd [] img));
                     CInt pred; CInt targ] ++ map CNum prob).
Proof.
  split; [repeat constructor; discriminate|].
  split; [repeat constructor|].
  apply (log_image_table_rows [[[[1; 0]]]; [[[0; 1]]]]%Q [7; 8] [7; 9]
           [replicate 10 0%Q] start);
    [repeat constructor; discriminate|repeat constructor].
Defined.

Lemma log_image_table_bad_row_witness :
  Forall (fun img : @image Q => img <> []) [[[[1; 0]]]]%Q
  /\ length [7] = length [[[[1; 0]]]]%Q
  /\ length [7] = length [[[[1; 0]]]]%Q
  /\ length [[1; 0]]%Q = length [[[[1; 0]]]]%Q
  /\ Exists (fun prob : list Q => length prob <> 10%nat) [[1; 0]]%Q
  /\ log_image_table [[[[1; 0]]]]%Q [7] [7] [[1; 0]]%Q start
     = Raise ValueError.
Proof.
  split; [repeat constructor; discriminate|].
  split; [reflexivity|]. split; [reflexivity|]. split; [reflexivity|].
  split; [constructor; simpl; lia|].
  apply (log_image_table_bad_row [[[[1; 0]]]]%Q [7] [7] [[1; 0]]%Q start);
    [repeat constructor; discriminate|reflexivity|reflexivity|reflexivity|
     constructor; simpl; lia].
Defined.



Lemma run_epoch_counters_witness :
  0 < batch_size even_loader
  /\ dataset even_loader <> []
  /\ exists s' w',
       run_epoch trial_config even_loader tiny_loader 2 0
                 (fresh_vars bn_model) start = Ok (s', w')
       /\ example_ct s'
          = example_ct (fresh_vars bn_model)
            + Z.of_nat (length (dataset even_loader))
       /\ step_ct s'
          = step_ct (fresh_vars bn_model)
            + ceil_div (Z.of_nat (length (dataset even_loader)))
                       (batch_size even_loader)
       /\ exists pre loss vl va,
            wandb_calls w'
            = wandb_calls start ++ pre
              ++ [wandb_log (val_record vl va
                             ∪ train_record loss 0 (example_ct s')
                                            (step_ct s' - 1)) true].
Proof.
  split; [simpl; lia|]. split; [discriminate|].
  do 2 eexists. split; [vm_compute; reflexivity|].
  eapply (run_epoch_counters trial_config even_loader tiny_loader 2 0
            (fresh_vars bn_model));
    [simpl; lia|discriminate|vm_compute; reflexivity].
Defined.

Lemma run_epoch_module_state_witness :
  0 < batch_size even_loader
  /\ dataset even_loader <> []
  /\ exists s' w',
       run_epoch trial_config even_loader tiny_loader 2 0
                 (fresh_vars bn_model) start = Ok (s', w')
       /\ training (model s') = false
       /\ tracked (model s')
          = map (fun k => k + ceil_div
                                (Z.of_nat (length (dataset even_loader)))
                                (batch_size even_loader))
                (tracked (model (fresh_vars bn_model)))
       /\ grad_enabled w' = grad_enabled start
       /\ py_gen w' = py_gen start.
Proof.
  split; [simpl; lia|]. split; [discriminate|].
  do 2 eexists. split; [vm_compute; reflexivity|].
  eapply (run_epoch_module_state trial_config even_loader tiny_loader 2 0
            (fresh_vars bn_model));
    [simpl; lia|discriminate|vm_compute; reflexivity].
Defined.





